(** * AnkiConnect MCP adapter: invoker, tool registry and dispatcher

    A shallow embedding of [tools.js] (the invoker [invokeAnkiConnect], the
    tool descriptors, the handlers, [getTools] and [handleToolCall]) and of
    the request handlers of [index.js], followed by the properties of the
    specification that concern them.

    Conventions of the embedding:
    - a JavaScript value is a [JSValue]; an object is the list of its own
      properties in enumeration order;
    - numbers are modelled by their integer fragment (identifiers, counts,
      timestamps, HTTP statuses), a [Z] rendered in decimal;
    - a string is a [string] of bytes (the UTF-8 text of the JavaScript
      string);
    - an [async] function is a computation of the monad [M]: it reads the
      remote endpoint, records the HTTP requests it issues and either
      returns a value or throws;
    - writes to the diagnostic stream ([console.error]) do not influence
      control flow and are left out. *)

From Stdlib Require Import String Ascii List ZArith Bool Lia DecimalString.
Import ListNotations.
Open Scope string_scope.

(** ** JavaScript values *)

Set Warnings "-register-all".

Inductive JSValue : Type :=
| JUndefined
| JNull
| JBool (b : bool)
| JNum (n : Z)
| JStr (s : string)
| JArr (elements : list JSValue)
| JObj (properties : list (string * JSValue)).

(** The values [JSON.parse] can produce: no [undefined] at any depth. *)
Fixpoint is_json (v : JSValue) : bool :=
  match v with
  | JUndefined => false
  | JNull | JBool _ | JNum _ | JStr _ => true
  | JArr xs => forallb is_json xs
  | JObj ps => forallb (fun p => is_json (snd p)) ps
  end.

(** ToBoolean: [if (v)], [!v], [v ? a : b]. *)
Definition truthy (v : JSValue) : bool :=
  match v with
  | JUndefined | JNull => false
  | JBool b => b
  | JNum n => negb (n =? 0)%Z
  | JStr s => negb (s =? EmptyString)
  | JArr _ | JObj _ => true
  end.

(** The [typeof] operator. *)
Definition typeof (v : JSValue) : string :=
  match v with
  | JUndefined => "undefined"
  | JNull => "object"
  | JBool _ => "boolean"
  | JNum _ => "number"
  | JStr _ => "string"
  | JArr _ | JObj _ => "object"
  end.

Definition Array_isArray (v : JSValue) : bool :=
  match v with JArr _ => true | _ => false end.

(** [v === undefined] and [v === false]. *)
Definition is_undefined (v : JSValue) : bool :=
  match v with JUndefined => true | _ => false end.

Definition is_false (v : JSValue) : bool :=
  match v with JBool false => true | _ => false end.

(** Own property of an object, by key. *)
Fixpoint own_property (ps : list (string * JSValue)) (k : string) : option JSValue :=
  match ps with
  | [] => None
  | (k', v) :: ps' => if k' =? k then Some v else own_property ps' k
  end.

Definition nat_to_string (n : nat) : string :=
  NilZero.string_of_uint (Nat.to_uint n).

(** The array index a property key denotes, if it is the canonical decimal
    form of an index below [len]. *)
Definition index_of_key (len : nat) (k : string) : option nat :=
  find (fun i => nat_to_string i =? k) (seq 0 len).

Fixpoint string_nth (s : string) (i : nat) : option ascii :=
  match s, i with
  | EmptyString, _ => None
  | String c _, O => Some c
  | String _ s', S i' => string_nth s' i'
  end.

(** Member access [v.k] and optional chaining [v?.k].

    Objects answer with their own properties, arrays and strings with
    [length] and their indices. On [undefined] and [null] the optional form
    yields [undefined]; the plain form would throw a TypeError there, and
    the program only uses it behind a test that the base is truthy, so both
    forms share this definition. Members inherited from the built-in
    prototypes are not values of the model: the one the program calls,
    [hasOwnProperty], is [call_hasOwnProperty] below. *)
Definition js_get (v : JSValue) (k : string) : JSValue :=
  match v with
  | JObj ps =>
      match own_property ps k with Some x => x | None => JUndefined end
  | JArr xs =>
      if k =? "length" then JNum (Z.of_nat (List.length xs))
      else match index_of_key (List.length xs) k with
           | Some i => nth i xs JUndefined
           | None => JUndefined
           end
  | JStr s =>
      if k =? "length" then JNum (Z.of_nat (String.length s))
      else match index_of_key (String.length s) k with
           | Some i => match string_nth s i with
                       | Some c => JStr (String c EmptyString)
                       | None => JUndefined
                       end
           | None => JUndefined
           end
  | _ => JUndefined
  end.

Declare Scope js_scope.
Delimit Scope js_scope with js.
Notation "a '.[' k ']'" := (js_get a k)
  (at level 1, left associativity, format "a .[ k ]") : js_scope.
Notation "a '?.[' k ']'" := (js_get a k)
  (at level 1, left associativity, format "a ?.[ k ]") : js_scope.
Open Scope js_scope.

(** [Object.prototype.hasOwnProperty.call(v, k)]. *)
Definition has_own_property (v : JSValue) (k : string) : bool :=
  match v with
  | JObj ps => match own_property ps k with Some _ => true | None => false end
  | JArr xs =>
      (k =? "length") ||
      match index_of_key (List.length xs) k with Some _ => true | None => false end
  | JStr s =>
      (k =? "length") ||
      match index_of_key (String.length s) k with Some _ => true | None => false end
  | _ => false
  end.

(** Assignment [obj.k = v] on an object: an existing property keeps its
    place, a new one is appended. *)
Fixpoint set_property (ps : list (string * JSValue)) (k : string) (v : JSValue)
  : list (string * JSValue) :=
  match ps with
  | [] => [(k, v)]
  | (k', v') :: ps' =>
      if k' =? k then (k, v) :: ps' else (k', v') :: set_property ps' k v
  end.

Definition js_set (obj : JSValue) (k : string) (v : JSValue) : JSValue :=
  match obj with
  | JObj ps => JObj (set_property ps k v)
  | _ => obj
  end.

(** The length of an array, as [a.length !== b.length] compares it. *)
Definition array_length (v : JSValue) : nat :=
  match v with JArr xs => List.length xs | _ => 0 end.

(** ** Conversion to string *)

Definition Number_toString (n : Z) : string :=
  NilZero.string_of_int (Z.to_int n).

(** ToString, as a template literal and [new Error(message)] apply it.
    [None] is the TypeError of an object that cannot be converted to a
    primitive: a parsed JSON object carrying an own [toString] property
    (never callable), whose inherited [valueOf] returns the object itself.
    Arrays go through [Array.prototype.join]. *)
Fixpoint ToString (v : JSValue) : option string :=
  match v with
  | JUndefined => Some "undefined"
  | JNull => Some "null"
  | JBool true => Some "true"
  | JBool false => Some "false"
  | JNum n => Some (Number_toString n)
  | JStr s => Some s
  | JArr xs =>
      let pieces :=
        (fix pieces (l : list JSValue) : option (list string) :=
           match l with
           | [] => Some []
           | x :: l' =>
               let piece :=
                 match x with
                 | JUndefined | JNull => Some EmptyString
                 | _ => ToString x
                 end in
               match piece, pieces l' with
               | Some s, Some rest => Some (s :: rest)
               | _, _ => None
               end
           end) xs in
      match pieces with
      | Some l => Some (String.concat "," l)
      | None => None
      end
  | JObj ps =>
      match own_property ps "toString" with
      | Some _ => None
      | None => Some "[object Object]"
      end
  end.

(** ** JSON.stringify *)

Definition dquote : string := String (ascii_of_nat 34) EmptyString.
Definition backslash : string := String (ascii_of_nat 92) EmptyString.
Definition newline : string := String (ascii_of_nat 10) EmptyString.

Definition hex_digit (n : nat) : ascii :=
  if (n <? 10)%nat then ascii_of_nat (48 + n) else ascii_of_nat (87 + n).

(** One code unit of QuoteJSONString. *)
Definition quote_char (c : ascii) : string :=
  let n := nat_of_ascii c in
  if (n =? 8)%nat then backslash ++ "b"
  else if (n =? 9)%nat then backslash ++ "t"
  else if (n =? 10)%nat then backslash ++ "n"
  else if (n =? 12)%nat then backslash ++ "f"
  else if (n =? 13)%nat then backslash ++ "r"
  else if (n =? 34)%nat then backslash ++ dquote
  else if (n =? 92)%nat then backslash ++ backslash
  else if (n <? 32)%nat then
    backslash ++ "u00" ++
    String (hex_digit (n / 16)) (String (hex_digit (n mod 16)) EmptyString)
  else String c EmptyString.

Fixpoint quote_chars (s : string) : string :=
  match s with
  | EmptyString => EmptyString
  | String c s' => quote_char c ++ quote_chars s'
  end.

Definition QuoteJSONString (s : string) : string :=
  dquote ++ quote_chars s ++ dquote.

(** SerializeJSONProperty with its two helpers SerializeJSONArray and
    SerializeJSONObject: [gap] is the indentation unit, [indent] the
    current indentation. [None] is [undefined]: the value is left out of an
    object and written [null] in an array. A [toJSON] property of parsed
    JSON is never callable and so is not consulted. *)
Fixpoint SerializeJSONProperty (gap indent : string) (value : JSValue) : option string :=
  match value with
  | JUndefined => None
  | JNull => Some "null"
  | JBool true => Some "true"
  | JBool false => Some "false"
  | JNum n => Some (Number_toString n)
  | JStr s => Some (QuoteJSONString s)
  | JArr xs =>
      let stepback := indent in
      let indent := indent ++ gap in
      let partial :=
        (fix elements (l : list JSValue) : list string :=
           match l with
           | [] => []
           | x :: l' =>
               match SerializeJSONProperty gap indent x with
               | None => "null"
               | Some str => str
               end :: elements l'
           end) xs in
      match partial with
      | [] => Some "[]"
      | _ :: _ =>
          if gap =? EmptyString
          then Some ("[" ++ String.concat "," partial ++ "]")
          else Some ("[" ++ newline ++ indent ++
                     String.concat ("," ++ newline ++ indent) partial ++
                     newline ++ stepback ++ "]")
      end
  | JObj ps =>
      let stepback := indent in
      let indent := indent ++ gap in
      let partial :=
        (fix members (l : list (string * JSValue)) : list string :=
           match l with
           | [] => []
           | (k, x) :: l' =>
               match SerializeJSONProperty gap indent x with
               | None => members l'
               | Some str =>
                   (QuoteJSONString k ++ ":" ++
                    (if gap =? EmptyString then EmptyString else " ") ++ str)
                   :: members l'
               end
           end) ps in
      match partial with
      | [] => Some "{}"
      | _ :: _ =>
          if gap =? EmptyString
          then Some ("{" ++ String.concat "," partial ++ "}")
          else Some ("{" ++ newline ++ indent ++
                     String.concat ("," ++ newline ++ indent) partial ++
                     newline ++ stepback ++ "}")
      end
  end.

Fixpoint spaces (n : nat) : string :=
  match n with
  | O => EmptyString
  | S n' => String " " (spaces n')
  end.

(** [JSON.stringify(value)] is [JSON_stringify value 0] and
    [JSON.stringify(value, null, 2)] is [JSON_stringify value 2]; the
    result is a string or [undefined]. *)
Definition JSON_stringify (value : JSValue) (space : nat) : JSValue :=
  match SerializeJSONProperty (spaces (Nat.min space 10)) EmptyString value with
  | Some s => JStr s
  | None => JUndefined
  end.

(** [contains needle s]: [needle] occurs in [s]. *)
Fixpoint contains (needle s : string) : bool :=
  prefix needle s ||
  match s with
  | EmptyString => false
  | String _ s' => contains needle s'
  end.

(** Strict equality [a === b] ([!==] is its negation). Arrays and objects
    are equal only to themselves by reference; the program compares
    numbers, [undefined] and [false], never two of them. *)
Definition strict_equal (a b : JSValue) : bool :=
  match a, b with
  | JUndefined, JUndefined => true
  | JNull, JNull => true
  | JBool x, JBool y => Bool.eqb x y
  | JNum x, JNum y => (x =? y)%Z
  | JStr x, JStr y => x =? y
  | _, _ => false
  end.

(** The relational operators on two numbers, the only operands the program
    gives them. *)
Definition less_than (a b : JSValue) : bool :=
  match a, b with
  | JNum x, JNum y => (x <? y)%Z
  | _, _ => false
  end.

Definition greater_than (a b : JSValue) : bool := less_than b a.

(** A template literal: its literal chunks and its substitutions, the
    latter converted by ToString. *)
Inductive TemplatePart : Type :=
| Lit (s : string)
| Sub (v : JSValue).

Fixpoint template_string (parts : list TemplatePart) : option string :=
  match parts with
  | [] => Some EmptyString
  | Lit s :: rest =>
      match template_string rest with
      | Some r => Some (s ++ r)
      | None => None
      end
  | Sub v :: rest =>
      match ToString v, template_string rest with
      | Some s, Some r => Some (s ++ r)
      | _, _ => None
      end
  end.

(** ** Errors, HTTP exchange and the monad of asynchronous computations *)

(** The two members of the protocol SDK's [ErrorCode] the program names. *)
Inductive ErrorCode : Type :=
| InvalidParams
| ToolNotFound.

(** What can be thrown: the SDK's [McpError] with its code and the message
    given to its constructor, a plain [Error], the engine's [TypeError],
    and the rejections of [fetch] and of [response.json()]. *)
Inductive Exn : Type :=
| McpError (code : ErrorCode) (message : string)
| Error (message : string)
| TypeError (message : string)
| FetchError (message : string)
| SyntaxError (message : string).

(** [error instanceof McpError] and [error.message] as the boundary of
    [index.js] reads them (the latter only for errors that are no
    [McpError]). *)
Definition instanceof_McpError (e : Exn) : bool :=
  match e with McpError _ _ => true | _ => false end.

Definition error_message (e : Exn) : string :=
  match e with
  | McpError _ m | Error m | TypeError m | FetchError m | SyntaxError m => m
  end.

Inductive Outcome (A : Type) : Type :=
| Return (a : A)
| Throw (e : Exn).
Arguments Return {A} a.
Arguments Throw {A} e.

(** The request [fetch(url, {method, headers, body})] issues. *)
Record HttpRequest : Type := {
  url : string;
  method : string;
  headers : list (string * string);
  body : JSValue
}.

(** The reply: its status line and what [response.json()] makes of its
    body. *)
Inductive JsonBody : Type :=
| BodyJson (data : JSValue)
| BodyInvalid (reason : string).

Record Response : Type := {
  status : Z;
  payload : JsonBody
}.

(** [response.ok]: a status in the range 200-299. *)
Definition ok (r : Response) : bool :=
  (200 <=? status r)%Z && (status r <? 300)%Z.

(** The exchange either fails (the [fetch] promise rejects) or yields a
    response. *)
Inductive FetchOutcome : Type :=
| Rejected (reason : string)
| Resolved (response : Response).

Definition Endpoint : Type := HttpRequest -> FetchOutcome.

(** An asynchronous computation: given the endpoint it talks to, its
    outcome and the requests it has issued, oldest first. *)
Definition M (A : Type) : Type := Endpoint -> Outcome A * list HttpRequest.

Definition ret {A : Type} (a : A) : M A :=
  fun _ => (Return a, []).

Definition throw {A : Type} (e : Exn) : M A :=
  fun _ => (Throw e, []).

Definition bind {A B : Type} (m : M A) (f : A -> M B) : M B :=
  fun ep =>
    match m ep with
    | (Return a, sent) => let (o, sent') := f a ep in (o, (sent ++ sent')%list)
    | (Throw e, sent) => (Throw e, sent)
    end.

Notation "x <- m ;; k" := (bind m (fun x => k))
  (at level 61, m at next level, right associativity) : js_scope.
Notation "m ;; k" := (bind m (fun _ => k))
  (at level 61, right associativity) : js_scope.
Notation "'If' c 'ThenThrow' e ;; k" := (if c then throw e else k)
  (at level 61, c at level 60, e at level 9, right associativity) : js_scope.

(** [try { body } catch (error) { handler }]. *)
Definition try_catch {A : Type} (body : M A) (handler : Exn -> M A) : M A :=
  fun ep =>
    match body ep with
    | (Return a, sent) => (Return a, sent)
    | (Throw e, sent) => let (o, sent') := handler e ep in (o, (sent ++ sent')%list)
    end.

Definition fetch (u : string) (m : string) (h : list (string * string))
    (b : JSValue) : M Response :=
  fun ep =>
    let request := {| url := u; method := m; headers := h; body := b |} in
    match ep request with
    | Rejected reason => (Throw (FetchError reason), [request])
    | Resolved response => (Return response, [request])
    end.

Definition response_json (r : Response) : M JSValue :=
  match payload r with
  | BodyJson data => ret data
  | BodyInvalid reason => throw (SyntaxError reason)
  end.

(** The method call [data.hasOwnProperty(k)]. Reading the member
    [hasOwnProperty] of [undefined] or [null] throws; an own property of
    that name shadows the inherited method, and in parsed JSON it is never
    a function, so the call throws; otherwise the inherited method
    answers. *)
Definition call_hasOwnProperty (data : JSValue) (k : string) : M bool :=
  match data with
  | JUndefined | JNull =>
      throw (TypeError "Cannot read properties of null (reading 'hasOwnProperty')")
  | _ =>
      if has_own_property data "hasOwnProperty"
      then throw (TypeError "data.hasOwnProperty is not a function")
      else ret (has_own_property data k)
  end.

(** A template literal in a computation: the TypeError of a substitution
    that has no string conversion is thrown. *)
Definition template (parts : list TemplatePart) : M string :=
  match template_string parts with
  | Some s => ret s
  | None => throw (TypeError "Cannot convert object to primitive value")
  end.

(** [new Error(message)]: the message is converted by ToString. *)
Definition new_Error (message : JSValue) : M Exn :=
  match ToString message with
  | Some s => ret (Error s)
  | None => throw (TypeError "Cannot convert object to primitive value")
  end.

(** [for (const x of iterable) body], for the arrays the program iterates. *)
Fixpoint for_each (xs : list JSValue) (body : JSValue -> M unit) : M unit :=
  match xs with
  | [] => ret tt
  | x :: xs' => body x ;; for_each xs' body
  end.

Definition for_of (iterable : JSValue) (body : JSValue -> M unit) : M unit :=
  match iterable with
  | JArr xs => for_each xs body
  | _ => throw (TypeError "object is not iterable")
  end.

(** A default parameter value [p = d]: it replaces [undefined]. *)
Definition default_parameter (p d : JSValue) : JSValue :=
  match p with JUndefined => d | _ => p end.

(** ** The invoker *)

Definition ANKI_CONNECT_URL : string := "http://127.0.0.1:8765".

(** [invokeAnkiConnect(action, params = {}, version = 6)]. An argument the
    caller leaves out is [JUndefined]. *)
Definition invokeAnkiConnect (action : string) (params version : JSValue) : M JSValue :=
  let params := default_parameter params (JObj []) in
  let version := default_parameter version (JNum 6) in
  try_catch
    (response <- fetch ANKI_CONNECT_URL "POST"
                   [("Content-Type", "application/json")]
                   (JSON_stringify
                      (JObj [("action", JStr action);
                             ("params", params);
                             ("version", version)]) 0) ;;
     If negb (ok response)
     ThenThrow (Error ("HTTP error! Status: " ++ Number_toString (status response))) ;;
     data <- response_json response ;;
     has_error <- call_hasOwnProperty data "error" ;;
     If negb has_error
     ThenThrow (Error "Response is missing required error field") ;;
     has_result <- call_hasOwnProperty data "result" ;;
     If negb has_result
     ThenThrow (Error "Response is missing required result field") ;;
     (if truthy data.["error"]
      then (error <- new_Error data.["error"] ;; throw error)
      else ret data.["result"]))
    (fun error => throw error).

(** ** Tool descriptors and tool results *)

(** The JSON Schema fragments the descriptors use: [type], [items],
    [minItems], [maxItems], [properties] and [required] (the per-property
    [description] strings are documentation and are left out). *)
Inductive Schema : Type :=
| SString
| SNumber
| SBoolean
| SArray (items : Schema) (minItems maxItems : option nat)
| SObject (properties : option (list (string * Schema)))
          (required : option (list string)).

Record Tool : Type := {
  name : string;
  description : string;
  inputSchema : Schema
}.

Record ContentBlock : Type := {
  type : string;
  text : JSValue
}.

(** What a handler returns: [{content: [...]}], with [isError] only where
    the boundary adds it. *)
Record ToolResult : Type := {
  content : list ContentBlock;
  isError : option bool
}.

(** ** The descriptors and the handlers of [tools.js] *)

Definition handleReplaceTags (arguments_ : JSValue) : M ToolResult :=
  If negb (truthy arguments_?.["notes"]) ||
     negb (Array_isArray arguments_.["notes"])
  ThenThrow (McpError InvalidParams
               "Missing required parameter: notes (array of note IDs)") ;;
  If negb (truthy arguments_?.["tag_to_replace"]) ||
     negb (typeof arguments_.["tag_to_replace"] =? "string")
  ThenThrow (McpError InvalidParams
               "Missing required parameter: tag_to_replace") ;;
  If negb (truthy arguments_?.["replace_with_tag"]) ||
     negb (typeof arguments_.["replace_with_tag"] =? "string")
  ThenThrow (McpError InvalidParams
               "Missing required parameter: replace_with_tag") ;;
  result <- invokeAnkiConnect "replaceTags"
      (JObj [("notes", arguments_.["notes"]);
            ("tag_to_replace", arguments_.["tag_to_replace"]);
            ("replace_with_tag", arguments_.["replace_with_tag"])]) JUndefined ;;
  text_ <- template
             [Lit "Replace tags: ";
              Sub (if truthy result then JStr "Success" else JStr "Failed")] ;;
  ret {| content := [ {| type := "text"; text := JStr text_ |} ];
         isError := None |}.

Definition handleReplaceTagsInAllNotes (arguments_ : JSValue) : M ToolResult :=
  If negb (truthy arguments_?.["tag_to_replace"]) ||
     negb (typeof arguments_.["tag_to_replace"] =? "string")
  ThenThrow (McpError InvalidParams
               "Missing required parameter: tag_to_replace") ;;
  If negb (truthy arguments_?.["replace_with_tag"]) ||
     negb (typeof arguments_.["replace_with_tag"] =? "string")
  ThenThrow (McpError InvalidParams
               "Missing required parameter: replace_with_tag") ;;
  result <- invokeAnkiConnect "replaceTagsInAllNotes"
      (JObj [("tag_to_replace", arguments_.["tag_to_replace"]);
            ("replace_with_tag", arguments_.["replace_with_tag"])]) JUndefined ;;
  text_ <- template
             [Lit "Replace tags in all notes: ";
              Sub (if truthy result then JStr "Success" else JStr "Failed")] ;;
  ret {| content := [ {| type := "text"; text := JStr text_ |} ];
         isError := None |}.

Definition REPLACE_TAGS_TOOL : Tool := {|
  name := "replaceTags";
  description :=
    "Replace tags in notes by note ID.";
  inputSchema :=
    SObject
      (Some [("notes", SArray SNumber None None);
             ("tag_to_replace", SString);
             ("replace_with_tag", SString)])
      (Some ["notes"; "tag_to_replace"; "replace_with_tag"])
|}.

Definition REPLACE_TAGS_IN_ALL_NOTES_TOOL : Tool := {|
  name := "replaceTagsInAllNotes";
  description :=
    "Replace tags in all the notes for the current user.";
  inputSchema :=
    SObject
      (Some [("tag_to_replace", SString);
             ("replace_with_tag", SString)])
      (Some ["tag_to_replace"; "replace_with_tag"])
|}.

Definition handleRequestPermission : M ToolResult :=
  result <- invokeAnkiConnect "requestPermission" JUndefined JUndefined ;;
  text_ <- template
             [Lit "Request permission: ";
              Sub (if truthy result then JStr "Granted" else JStr "Denied")] ;;
  ret {| content := [ {| type := "text"; text := JStr text_ |} ];
         isError := None |}.

Definition handleApiReflect (arguments_ : JSValue) : M ToolResult :=
  let params := JObj [] in
  let params :=
    if truthy arguments_?.["scopes"]
    then js_set params "scopes" arguments_.["scopes"]
    else params in
  let params :=
    if truthy arguments_?.["actions"]
    then js_set params "actions" arguments_.["actions"]
    else params in
  reflection <- invokeAnkiConnect "apiReflect" params JUndefined ;;
  ret {| content := [ {| type := "text"; text := JSON_stringify reflection 2 |} ];
         isError := None |}.

Definition handleGetProfiles : M ToolResult :=
  profiles <- invokeAnkiConnect "getProfiles" JUndefined JUndefined ;;
  ret {| content := [ {| type := "text"; text := JSON_stringify profiles 2 |} ];
         isError := None |}.

Definition handleGetActiveProfile : M ToolResult :=
  profile <- invokeAnkiConnect "getActiveProfile" JUndefined JUndefined ;;
  text_ <- template [Lit "Active profile: "; Sub profile] ;;
  ret {| content := [ {| type := "text"; text := JStr text_ |} ];
         isError := None |}.

Definition handleLoadProfile (arguments_ : JSValue) : M ToolResult :=
  If negb (truthy arguments_?.["name"]) ||
     negb (typeof arguments_.["name"] =? "string")
  ThenThrow (McpError InvalidParams
               "Missing required parameter: name (profile name)") ;;
  result <- invokeAnkiConnect "loadProfile"
      (JObj [("name", arguments_.["name"])]) JUndefined ;;
  text_ <- template
             [Lit "Load profile: ";
              Sub (if truthy result then JStr "Success" else JStr "Failed")] ;;
  ret {| content := [ {| type := "text"; text := JStr text_ |} ];
         isError := None |}.

Definition handleMulti (arguments_ : JSValue) : M ToolResult :=
  If negb (truthy arguments_?.["actions"]) ||
     negb (Array_isArray arguments_.["actions"])
  ThenThrow (McpError InvalidParams
               "Missing required parameter: actions (array of actions)") ;;
  results <- invokeAnkiConnect "multi"
      (JObj [("actions", arguments_.["actions"])]) JUndefined ;;
  ret {| content := [ {| type := "text"; text := JSON_stringify results 2 |} ];
         isError := None |}.

Definition handleReloadCollection : M ToolResult :=
  result <- invokeAnkiConnect "reloadCollection" JUndefined JUndefined ;;
  text_ <- template
             [Lit "Reload collection: ";
              Sub (if truthy result then JStr "Success" else JStr "Failed")] ;;
  ret {| content := [ {| type := "text"; text := JStr text_ |} ];
         isError := None |}.

Definition handleGuiSelectCard (arguments_ : JSValue) : M ToolResult :=
  If negb (truthy arguments_?.["card"]) ||
     negb (typeof arguments_.["card"] =? "number")
  ThenThrow (McpError InvalidParams
               "Missing required parameter: card (card ID)") ;;
  result <- invokeAnkiConnect "guiSelectCard"
      (JObj [("card", arguments_.["card"])]) JUndefined ;;
  text_ <- template
             [Lit "Select card in browser: ";
              Sub (if truthy result then JStr "Success" else JStr "Failed")] ;;
  ret {| content := [ {| type := "text"; text := JStr text_ |} ];
         isError := None |}.

Definition handleGuiSelectedNotes : M ToolResult :=
  notes <- invokeAnkiConnect "guiSelectedNotes" JUndefined JUndefined ;;
  ret {| content := [ {| type := "text"; text := JSON_stringify notes 2 |} ];
         isError := None |}.

Definition handleGuiEditNote (arguments_ : JSValue) : M ToolResult :=
  If negb (truthy arguments_?.["note"]) ||
     negb (typeof arguments_.["note"] =? "number")
  ThenThrow (McpError InvalidParams
               "Missing required parameter: note (note ID)") ;;
  result <- invokeAnkiConnect "guiEditNote"
      (JObj [("note", arguments_.["note"])]) JUndefined ;;
  text_ <- template
             [Lit "Edit note: ";
              Sub (if truthy result then JStr "Success" else JStr "Failed")] ;;
  ret {| content := [ {| type := "text"; text := JStr text_ |} ];
         isError := None |}.

Definition handleGuiUndo : M ToolResult :=
  result <- invokeAnkiConnect "guiUndo" JUndefined JUndefined ;;
  text_ <- template
             [Lit "Undo: ";
              Sub (if truthy result then JStr "Success" else JStr "Failed")] ;;
  ret {| content := [ {| type := "text"; text := JStr text_ |} ];
         isError := None |}.

Definition handleGuiImportFile (arguments_ : JSValue) : M ToolResult :=
  let params := JObj [] in
  let params :=
    if truthy arguments_?.["path"]
    then js_set params "path" arguments_.["path"]
    else params in
  result <- invokeAnkiConnect "guiImportFile" params JUndefined ;;
  text_ <- template
             [Lit "Import file: ";
              Sub (if truthy result then JStr "Success" else JStr "Failed")] ;;
  ret {| content := [ {| type := "text"; text := JStr text_ |} ];
         isError := None |}.

Definition handleGuiExitAnki : M ToolResult :=
  result <- invokeAnkiConnect "guiExitAnki" JUndefined JUndefined ;;
  text_ <- template
             [Lit "Exit Anki: ";
              Sub (if truthy result then JStr "Success" else JStr "Failed")] ;;
  ret {| content := [ {| type := "text"; text := JStr text_ |} ];
         isError := None |}.

Definition handleGuiCheckDatabase : M ToolResult :=
  result <- invokeAnkiConnect "guiCheckDatabase" JUndefined JUndefined ;;
  text_ <- template
             [Lit "Check database: ";
              Sub (if truthy result then JStr "Success" else JStr "Failed")] ;;
  ret {| content := [ {| type := "text"; text := JStr text_ |} ];
         isError := None |}.

Definition handleGetReviewsOfCards (arguments_ : JSValue) : M ToolResult :=
  If negb (truthy arguments_?.["cards"]) ||
     negb (Array_isArray arguments_.["cards"])
  ThenThrow (McpError InvalidParams
               "Missing required parameter: cards (array of card IDs)") ;;
  reviews <- invokeAnkiConnect "getReviewsOfCards"
      (JObj [("cards", arguments_.["cards"])]) JUndefined ;;
  ret {| content := [ {| type := "text"; text := JSON_stringify reviews 2 |} ];
         isError := None |}.

Definition handleGetLatestReviewID (arguments_ : JSValue) : M ToolResult :=
  If negb (truthy arguments_?.["deck"]) ||
     negb (typeof arguments_.["deck"] =? "string")
  ThenThrow (McpError InvalidParams
               "Missing required parameter: deck") ;;
  reviewId <- invokeAnkiConnect "getLatestReviewID"
      (JObj [("deck", arguments_.["deck"])]) JUndefined ;;
  text_ <- template [Lit "Latest review ID: "; Sub reviewId] ;;
  ret {| content := [ {| type := "text"; text := JStr text_ |} ];
         isError := None |}.

Definition handleInsertReviews (arguments_ : JSValue) : M ToolResult :=
  If negb (truthy arguments_?.["reviews"]) ||
     negb (Array_isArray arguments_.["reviews"])
  ThenThrow (McpError InvalidParams
               "Missing required parameter: reviews (array of review tuples)") ;;
  for_of arguments_.["reviews"] (fun review =>
       If negb (Array_isArray review) ||
     negb (strict_equal review.["length"] (JNum 9))
       ThenThrow (McpError InvalidParams
                    "Each review must be a tuple with 9 values") ;;
       ret tt) ;;
  result <- invokeAnkiConnect "insertReviews"
      (JObj [("reviews", arguments_.["reviews"])]) JUndefined ;;
  text_ <- template
             [Lit "Insert reviews: ";
              Sub (if truthy result then JStr "Success" else JStr "Failed")] ;;
  ret {| content := [ {| type := "text"; text := JStr text_ |} ];
         isError := None |}.

Definition handleCloneDeckConfigId (arguments_ : JSValue) : M ToolResult :=
  If negb (truthy arguments_?.["name"]) ||
     negb (typeof arguments_.["name"] =? "string")
  ThenThrow (McpError InvalidParams
               "Missing required parameter: name") ;;
  If negb (truthy arguments_?.["cloneFrom"]) ||
     negb (typeof arguments_.["cloneFrom"] =? "number")
  ThenThrow (McpError InvalidParams
               "Missing required parameter: cloneFrom") ;;
  configId <- invokeAnkiConnect "cloneDeckConfigId"
      (JObj [("name", arguments_.["name"]);
            ("cloneFrom", arguments_.["cloneFrom"])]) JUndefined ;;
  text_ <- template [Lit "New configuration group ID: "; Sub configId] ;;
  ret {| content := [ {| type := "text"; text := JStr text_ |} ];
         isError := None |}.

Definition handleRemoveDeckConfigId (arguments_ : JSValue) : M ToolResult :=
  If negb (truthy arguments_?.["configId"]) ||
     negb (typeof arguments_.["configId"] =? "number")
  ThenThrow (McpError InvalidParams
               "Missing required parameter: configId") ;;
  result <- invokeAnkiConnect "removeDeckConfigId"
      (JObj [("configId", arguments_.["configId"])]) JUndefined ;;
  text_ <- template
             [Lit "Remove deck config ID: ";
              Sub (if truthy result then JStr "Success" else JStr "Failed")] ;;
  ret {| content := [ {| type := "text"; text := JStr text_ |} ];
         isError := None |}.

Definition handleCanAddNotes (arguments_ : JSValue) : M ToolResult :=
  If negb (truthy arguments_?.["notes"]) ||
     negb (Array_isArray arguments_.["notes"])
  ThenThrow (McpError InvalidParams
               "Missing required parameter: notes (array of note data)") ;;
  results <- invokeAnkiConnect "canAddNotes"
      (JObj [("notes", arguments_.["notes"])]) JUndefined ;;
  ret {| content := [ {| type := "text"; text := JSON_stringify results 2 |} ];
         isError := None |}.

Definition handleCanAddNotesWithErrorDetail (arguments_ : JSValue) : M ToolResult :=
  If negb (truthy arguments_?.["notes"]) ||
     negb (Array_isArray arguments_.["notes"])
  ThenThrow (McpError InvalidParams
               "Missing required parameter: notes (array of note data)") ;;
  results <- invokeAnkiConnect "canAddNotesWithErrorDetail"
      (JObj [("notes", arguments_.["notes"])]) JUndefined ;;
  ret {| content := [ {| type := "text"; text := JSON_stringify results 2 |} ];
         isError := None |}.

Definition handleUpdateNoteModel (arguments_ : JSValue) : M ToolResult :=
  If negb (truthy arguments_?.["note"]) ||
     negb (typeof arguments_.["note"] =? "object")
  ThenThrow (McpError InvalidParams
               "Missing required parameter: note") ;;
  If negb (truthy arguments_.["note"].["id"]) ||
     negb (typeof arguments_.["note"].["id"] =? "number")
  ThenThrow (McpError InvalidParams
               "Missing required parameter: note.id") ;;
  If negb (truthy arguments_.["note"].["modelName"]) ||
     negb (typeof arguments_.["note"].["modelName"] =? "string")
  ThenThrow (McpError InvalidParams
               "Missing required parameter: note.modelName") ;;
  If negb (truthy arguments_.["note"].["fields"]) ||
     negb (typeof arguments_.["note"].["fields"] =? "object")
  ThenThrow (McpError InvalidParams
               "Missing required parameter: note.fields") ;;
  result <- invokeAnkiConnect "updateNoteModel"
      (JObj [("note", arguments_.["note"])]) JUndefined ;;
  text_ <- template
             [Lit "Update note model: ";
              Sub (if truthy result then JStr "Success" else JStr "Failed")] ;;
  ret {| content := [ {| type := "text"; text := JStr text_ |} ];
         isError := None |}.

Definition handleNotesModTime (arguments_ : JSValue) : M ToolResult :=
  If negb (truthy arguments_?.["notes"]) ||
     negb (Array_isArray arguments_.["notes"])
  ThenThrow (McpError InvalidParams
               "Missing required parameter: notes (array of note IDs)") ;;
  modTimes <- invokeAnkiConnect "notesModTime"
      (JObj [("notes", arguments_.["notes"])]) JUndefined ;;
  ret {| content := [ {| type := "text"; text := JSON_stringify modTimes 2 |} ];
         isError := None |}.

Definition handleRemoveEmptyNotes : M ToolResult :=
  result <- invokeAnkiConnect "removeEmptyNotes" JUndefined JUndefined ;;
  text_ <- template
             [Lit "Remove empty notes: ";
              Sub (if truthy result then JStr "Success" else JStr "Failed")] ;;
  ret {| content := [ {| type := "text"; text := JStr text_ |} ];
         isError := None |}.

Definition handleModelFieldRename (arguments_ : JSValue) : M ToolResult :=
  If negb (truthy arguments_?.["modelName"]) ||
     negb (typeof arguments_.["modelName"] =? "string")
  ThenThrow (McpError InvalidParams
               "Missing required parameter: modelName") ;;
  If negb (truthy arguments_?.["oldFieldName"]) ||
     negb (typeof arguments_.["oldFieldName"] =? "string")
  ThenThrow (McpError InvalidParams
               "Missing required parameter: oldFieldName") ;;
  If negb (truthy arguments_?.["newFieldName"]) ||
     negb (typeof arguments_.["newFieldName"] =? "string")
  ThenThrow (McpError InvalidParams
               "Missing required parameter: newFieldName") ;;
  result <- invokeAnkiConnect "modelFieldRename"
      (JObj [("modelName", arguments_.["modelName"]);
            ("oldFieldName", arguments_.["oldFieldName"]);
            ("newFieldName", arguments_.["newFieldName"])]) JUndefined ;;
  text_ <- template
             [Lit "Rename model field: ";
              Sub (if truthy result then JStr "Success" else JStr "Failed")] ;;
  ret {| content := [ {| type := "text"; text := JStr text_ |} ];
         isError := None |}.

Definition handleModelFieldReposition (arguments_ : JSValue) : M ToolResult :=
  If negb (truthy arguments_?.["modelName"]) ||
     negb (typeof arguments_.["modelName"] =? "string")
  ThenThrow (McpError InvalidParams
               "Missing required parameter: modelName") ;;
  If negb (truthy arguments_?.["fieldName"]) ||
     negb (typeof arguments_.["fieldName"] =? "string")
  ThenThrow (McpError InvalidParams
               "Missing required parameter: fieldName") ;;
  If strict_equal arguments_?.["index"] JUndefined ||
     negb (typeof arguments_.["index"] =? "number")
  ThenThrow (McpError InvalidParams
               "Missing required parameter: index") ;;
  result <- invokeAnkiConnect "modelFieldReposition"
      (JObj [("modelName", arguments_.["modelName"]);
            ("fieldName", arguments_.["fieldName"]);
            ("index", arguments_.["index"])]) JUndefined ;;
  text_ <- template
             [Lit "Reposition model field: ";
              Sub (if truthy result then JStr "Success" else JStr "Failed")] ;;
  ret {| content := [ {| type := "text"; text := JStr text_ |} ];
         isError := None |}.

Definition handleModelFieldAdd (arguments_ : JSValue) : M ToolResult :=
  If negb (truthy arguments_?.["modelName"]) ||
     negb (typeof arguments_.["modelName"] =? "string")
  ThenThrow (McpError InvalidParams
               "Missing required parameter: modelName") ;;
  If negb (truthy arguments_?.["fieldName"]) ||
     negb (typeof arguments_.["fieldName"] =? "string")
  ThenThrow (McpError InvalidParams
               "Missing required parameter: fieldName") ;;
  let params := JObj [("modelName", arguments_.["modelName"]); ("fieldName", arguments_.["fieldName"])] in
  let params :=
    if negb (strict_equal arguments_?.["index"] JUndefined)
    then js_set params "index" arguments_.["index"]
    else params in
  result <- invokeAnkiConnect "modelFieldAdd" params JUndefined ;;
  text_ <- template
             [Lit "Add model field: ";
              Sub (if truthy result then JStr "Success" else JStr "Failed")] ;;
  ret {| content := [ {| type := "text"; text := JStr text_ |} ];
         isError := None |}.

Definition handleModelFieldRemove (arguments_ : JSValue) : M ToolResult :=
  If negb (truthy arguments_?.["modelName"]) ||
     negb (typeof arguments_.["modelName"] =? "string")
  ThenThrow (McpError InvalidParams
               "Missing required parameter: modelName") ;;
  If negb (truthy arguments_?.["fieldName"]) ||
     negb (typeof arguments_.["fieldName"] =? "string")
  ThenThrow (McpError InvalidParams
               "Missing required parameter: fieldName") ;;
  result <- invokeAnkiConnect "modelFieldRemove"
      (JObj [("modelName", arguments_.["modelName"]);
            ("fieldName", arguments_.["fieldName"])]) JUndefined ;;
  text_ <- template
             [Lit "Remove model field: ";
              Sub (if truthy result then JStr "Success" else JStr "Failed")] ;;
  ret {| content := [ {| type := "text"; text := JStr text_ |} ];
         isError := None |}.

Definition handleModelFieldSetFont (arguments_ : JSValue) : M ToolResult :=
  If negb (truthy arguments_?.["modelName"]) ||
     negb (typeof arguments_.["modelName"] =? "string")
  ThenThrow (McpError InvalidParams
               "Missing required parameter: modelName") ;;
  If negb (truthy arguments_?.["fieldName"]) ||
     negb (typeof arguments_.["fieldName"] =? "string")
  ThenThrow (McpError InvalidParams
               "Missing required parameter: fieldName") ;;
  If negb (truthy arguments_?.["font"]) ||
     negb (typeof arguments_.["font"] =? "string")
  ThenThrow (McpError InvalidParams
               "Missing required parameter: font") ;;
  result <- invokeAnkiConnect "modelFieldSetFont"
      (JObj [("modelName", arguments_.["modelName"]);
            ("fieldName", arguments_.["fieldName"]);
            ("font", arguments_.["font"])]) JUndefined ;;
  text_ <- template
             [Lit "Set model field font: ";
              Sub (if truthy result then JStr "Success" else JStr "Failed")] ;;
  ret {| content := [ {| type := "text"; text := JStr text_ |} ];
         isError := None |}.

Definition handleModelFieldSetFontSize (arguments_ : JSValue) : M ToolResult :=
  If negb (truthy arguments_?.["modelName"]) ||
     negb (typeof arguments_.["modelName"] =? "string")
  ThenThrow (McpError InvalidParams
               "Missing required parameter: modelName") ;;
  If negb (truthy arguments_?.["fieldName"]) ||
     negb (typeof arguments_.["fieldName"] =? "string")
  ThenThrow (McpError InvalidParams
               "Missing required parameter: fieldName") ;;
  If strict_equal arguments_?.["fontSize"] JUndefined ||
     negb (typeof arguments_.["fontSize"] =? "number")
  ThenThrow (McpError InvalidParams
               "Missing required parameter: fontSize") ;;
  result <- invokeAnkiConnect "modelFieldSetFontSize"
      (JObj [("modelName", arguments_.["modelName"]);
            ("fieldName", arguments_.["fieldName"]);
            ("fontSize", arguments_.["fontSize"])]) JUndefined ;;
  text_ <- template
             [Lit "Set model field font size: ";
              Sub (if truthy result then JStr "Success" else JStr "Failed")] ;;
  ret {| content := [ {| type := "text"; text := JStr text_ |} ];
         isError := None |}.

Definition handleModelFieldSetDescription (arguments_ : JSValue) : M ToolResult :=
  If negb (truthy arguments_?.["modelName"]) ||
     negb (typeof arguments_.["modelName"] =? "string")
  ThenThrow (McpError InvalidParams
               "Missing required parameter: modelName") ;;
  If negb (truthy arguments_?.["fieldName"]) ||
     negb (typeof arguments_.["fieldName"] =? "string")
  ThenThrow (McpError InvalidParams
               "Missing required parameter: fieldName") ;;
  If negb (truthy arguments_?.["description"]) ||
     negb (typeof arguments_.["description"] =? "string")
  ThenThrow (McpError InvalidParams
               "Missing required parameter: description") ;;
  result <- invokeAnkiConnect "modelFieldSetDescription"
      (JObj [("modelName", arguments_.["modelName"]);
            ("fieldName", arguments_.["fieldName"]);
            ("description", arguments_.["description"])]) JUndefined ;;
  text_ <- template
             [Lit "Set model field description: ";
              Sub (if truthy result then JStr "Success" else JStr "Failed")] ;;
  ret {| content := [ {| type := "text"; text := JStr text_ |} ];
         isError := None |}.

Definition handleFindModelsById (arguments_ : JSValue) : M ToolResult :=
  If negb (truthy arguments_?.["modelIds"]) ||
     negb (Array_isArray arguments_.["modelIds"])
  ThenThrow (McpError InvalidParams
               "Missing required parameter: modelIds (array of model IDs)") ;;
  models <- invokeAnkiConnect "findModelsById"
      (JObj [("modelIds", arguments_.["modelIds"])]) JUndefined ;;
  ret {| content := [ {| type := "text"; text := JSON_stringify models 2 |} ];
         isError := None |}.

Definition handleFindModelsByName (arguments_ : JSValue) : M ToolResult :=
  If negb (truthy arguments_?.["modelNames"]) ||
     negb (Array_isArray arguments_.["modelNames"])
  ThenThrow (McpError InvalidParams
               "Missing required parameter: modelNames (array of model names)") ;;
  models <- invokeAnkiConnect "findModelsByName"
      (JObj [("modelNames", arguments_.["modelNames"])]) JUndefined ;;
  ret {| content := [ {| type := "text"; text := JSON_stringify models 2 |} ];
         isError := None |}.

Definition handleModelFieldDescriptions (arguments_ : JSValue) : M ToolResult :=
  If negb (truthy arguments_?.["modelName"]) ||
     negb (typeof arguments_.["modelName"] =? "string")
  ThenThrow (McpError InvalidParams
               "Missing required parameter: modelName") ;;
  descriptions <- invokeAnkiConnect "modelFieldDescriptions"
      (JObj [("modelName", arguments_.["modelName"])]) JUndefined ;;
  ret {| content := [ {| type := "text"; text := JSON_stringify descriptions 2 |} ];
         isError := None |}.

Definition handleModelFieldFonts (arguments_ : JSValue) : M ToolResult :=
  If negb (truthy arguments_?.["modelName"]) ||
     negb (typeof arguments_.["modelName"] =? "string")
  ThenThrow (McpError InvalidParams
               "Missing required parameter: modelName") ;;
  fonts <- invokeAnkiConnect "modelFieldFonts"
      (JObj [("modelName", arguments_.["modelName"])]) JUndefined ;;
  ret {| content := [ {| type := "text"; text := JSON_stringify fonts 2 |} ];
         isError := None |}.

Definition handleFindAndReplaceInModels (arguments_ : JSValue) : M ToolResult :=
  If negb (truthy arguments_?.["model"]) ||
     negb (typeof arguments_.["model"] =? "object")
  ThenThrow (McpError InvalidParams
               "Missing required parameter: model") ;;
  If negb (truthy arguments_.["model"].["modelName"]) ||
     negb (typeof arguments_.["model"].["modelName"] =? "string")
  ThenThrow (McpError InvalidParams
               "Missing required parameter: model.modelName") ;;
  If negb (truthy arguments_.["model"].["findText"]) ||
     negb (typeof arguments_.["model"].["findText"] =? "string")
  ThenThrow (McpError InvalidParams
               "Missing required parameter: model.findText") ;;
  If negb (truthy arguments_.["model"].["replaceText"]) ||
     negb (typeof arguments_.["model"].["replaceText"] =? "string")
  ThenThrow (McpError InvalidParams
               "Missing required parameter: model.replaceText") ;;
  result <- invokeAnkiConnect "findAndReplaceInModels"
      (JObj [("model", arguments_.["model"])]) JUndefined ;;
  text_ <- template
             [Lit "Find and replace in models: ";
              Sub (if truthy result then JStr "Success" else JStr "Failed")] ;;
  ret {| content := [ {| type := "text"; text := JStr text_ |} ];
         isError := None |}.

Definition handleModelTemplateRename (arguments_ : JSValue) : M ToolResult :=
  If negb (truthy arguments_?.["modelName"]) ||
     negb (typeof arguments_.["modelName"] =? "string")
  ThenThrow (McpError InvalidParams
               "Missing required parameter: modelName") ;;
  If negb (truthy arguments_?.["oldTemplateName"]) ||
     negb (typeof arguments_.["oldTemplateName"] =? "string")
  ThenThrow (McpError InvalidParams
               "Missing required parameter: oldTemplateName") ;;
  If negb (truthy arguments_?.["newTemplateName"]) ||
     negb (typeof arguments_.["newTemplateName"] =? "string")
  ThenThrow (McpError InvalidParams
               "Missing required parameter: newTemplateName") ;;
  result <- invokeAnkiConnect "modelTemplateRename"
      (JObj [("modelName", arguments_.["modelName"]);
            ("oldTemplateName", arguments_.["oldTemplateName"]);
            ("newTemplateName", arguments_.["newTemplateName"])]) JUndefined ;;
  text_ <- template
             [Lit "Rename model template: ";
              Sub (if truthy result then JStr "Success" else JStr "Failed")] ;;
  ret {| content := [ {| type := "text"; text := JStr text_ |} ];
         isError := None |}.

Definition handleModelTemplateReposition (arguments_ : JSValue) : M ToolResult :=
  If negb (truthy arguments_?.["modelName"]) ||
     negb (typeof arguments_.["modelName"] =? "string")
  ThenThrow (McpError InvalidParams
               "Missing required parameter: modelName") ;;
  If negb (truthy arguments_?.["templateName"]) ||
     negb (typeof arguments_.["templateName"] =? "string")
  ThenThrow (McpError InvalidParams
               "Missing required parameter: templateName") ;;
  If strict_equal arguments_?.["index"] JUndefined ||
     negb (typeof arguments_.["index"] =? "number")
  ThenThrow (McpError InvalidParams
               "Missing required parameter: index") ;;
  result <- invokeAnkiConnect "modelTemplateReposition"
      (JObj [("modelName", arguments_.["modelName"]);
            ("templateName", arguments_.["templateName"]);
            ("index", arguments_.["index"])]) JUndefined ;;
  text_ <- template
             [Lit "Reposition model template: ";
              Sub (if truthy result then JStr "Success" else JStr "Failed")] ;;
  ret {| content := [ {| type := "text"; text := JStr text_ |} ];
         isError := None |}.

Definition handleModelTemplateAdd (arguments_ : JSValue) : M ToolResult :=
  If negb (truthy arguments_?.["modelName"]) ||
     negb (typeof arguments_.["modelName"] =? "string")
  ThenThrow (McpError InvalidParams
               "Missing required parameter: modelName") ;;
  If negb (truthy arguments_?.["template"]) ||
     negb (typeof arguments_.["template"] =? "object")
  ThenThrow (McpError InvalidParams
               "Missing required parameter: template") ;;
  result <- invokeAnkiConnect "modelTemplateAdd"
      (JObj [("modelName", arguments_.["modelName"]);
            ("template", arguments_.["template"])]) JUndefined ;;
  text_ <- template
             [Lit "Add model template: ";
              Sub (if truthy result then JStr "Success" else JStr "Failed")] ;;
  ret {| content := [ {| type := "text"; text := JStr text_ |} ];
         isError := None |}.

Definition handleModelTemplateRemove (arguments_ : JSValue) : M ToolResult :=
  If negb (truthy arguments_?.["modelName"]) ||
     negb (typeof arguments_.["modelName"] =? "string")
  ThenThrow (McpError InvalidParams
               "Missing required parameter: modelName") ;;
  If negb (truthy arguments_?.["templateName"]) ||
     negb (typeof arguments_.["templateName"] =? "string")
  ThenThrow (McpError InvalidParams
               "Missing required parameter: templateName") ;;
  result <- invokeAnkiConnect "modelTemplateRemove"
      (JObj [("modelName", arguments_.["modelName"]);
            ("templateName", arguments_.["templateName"])]) JUndefined ;;
  text_ <- template
             [Lit "Remove model template: ";
              Sub (if truthy result then JStr "Success" else JStr "Failed")] ;;
  ret {| content := [ {| type := "text"; text := JStr text_ |} ];
         isError := None |}.

Definition REQUEST_PERMISSION_TOOL : Tool := {|
  name := "requestPermission";
  description :=
    "Requests permission to use the API exposed by this plugin.";
  inputSchema :=
    SObject (Some []) (Some [])
|}.

Definition API_REFLECT_TOOL : Tool := {|
  name := "apiReflect";
  description :=
    "Gets information about the AnkiConnect APIs available.";
  inputSchema :=
    SObject
      (Some [("scopes", SArray SString None None);
             ("actions", SArray SString None None)])
      None
|}.

Definition GET_PROFILES_TOOL : Tool := {|
  name := "getProfiles";
  description :=
    "Retrieve the list of profiles.";
  inputSchema :=
    SObject (Some []) (Some [])
|}.

Definition GET_ACTIVE_PROFILE_TOOL : Tool := {|
  name := "getActiveProfile";
  description :=
    "Retrieve the active profile.";
  inputSchema :=
    SObject (Some []) (Some [])
|}.

Definition LOAD_PROFILE_TOOL : Tool := {|
  name := "loadProfile";
  description :=
    "Selects the profile specified in request.";
  inputSchema :=
    SObject (Some [("name", SString)]) (Some ["name"])
|}.

Definition MULTI_TOOL : Tool := {|
  name := "multi";
  description :=
    "Performs multiple actions in one request, returning an array with the response of each action.";
  inputSchema :=
    SObject
      (Some [("actions", SArray (SObject None None) None None)])
      (Some ["actions"])
|}.

Definition RELOAD_COLLECTION_TOOL : Tool := {|
  name := "reloadCollection";
  description :=
    "Tells anki to reload all data from the database.";
  inputSchema :=
    SObject (Some []) (Some [])
|}.

Definition GUI_SELECT_CARD_TOOL : Tool := {|
  name := "guiSelectCard";
  description :=
    "Finds the open instance of the Card Browser dialog and selects a card given a card identifier.";
  inputSchema :=
    SObject (Some [("card", SNumber)]) (Some ["card"])
|}.

Definition GUI_SELECTED_NOTES_TOOL : Tool := {|
  name := "guiSelectedNotes";
  description :=
    "Finds the open instance of the Card Browser dialog and returns an array of identifiers of the notes that are selected.";
  inputSchema :=
    SObject (Some []) (Some [])
|}.

Definition GUI_EDIT_NOTE_TOOL : Tool := {|
  name := "guiEditNote";
  description :=
    "Opens the Edit dialog with a note corresponding to given note ID.";
  inputSchema :=
    SObject (Some [("note", SNumber)]) (Some ["note"])
|}.

Definition GUI_UNDO_TOOL : Tool := {|
  name := "guiUndo";
  description :=
    "Undo the last action / card; returns true if succeeded or false otherwise.";
  inputSchema :=
    SObject (Some []) (Some [])
|}.

Definition GUI_IMPORT_FILE_TOOL : Tool := {|
  name := "guiImportFile";
  description :=
    "Invokes the Import dialog with an optional file path.";
  inputSchema :=
    SObject (Some [("path", SString)]) None
|}.

Definition GUI_EXIT_ANKI_TOOL : Tool := {|
  name := "guiExitAnki";
  description :=
    "Schedules a request to gracefully close Anki.";
  inputSchema :=
    SObject (Some []) (Some [])
|}.

Definition GUI_CHECK_DATABASE_TOOL : Tool := {|
  name := "guiCheckDatabase";
  description :=
    "Requests a database check, but returns immediately without waiting for the check to complete.";
  inputSchema :=
    SObject (Some []) (Some [])
|}.

Definition GET_REVIEWS_OF_CARDS_TOOL : Tool := {|
  name := "getReviewsOfCards";
  description :=
    "Requests all card reviews for each card ID.";
  inputSchema :=
    SObject (Some [("cards", SArray SString None None)]) (Some ["cards"])
|}.

Definition GET_LATEST_REVIEW_ID_TOOL : Tool := {|
  name := "getLatestReviewID";
  description :=
    "Returns the unix time of the latest review for the given deck. 0 if no review has ever been made for the deck.";
  inputSchema :=
    SObject (Some [("deck", SString)]) (Some ["deck"])
|}.

Definition INSERT_REVIEWS_TOOL : Tool := {|
  name := "insertReviews";
  description :=
    "Inserts the given reviews into the database.";
  inputSchema :=
    SObject
      (Some [("reviews", SArray (SArray SNumber (Some 9) (Some 9)) None None)])
      (Some ["reviews"])
|}.

Definition CLONE_DECK_CONFIG_ID_TOOL : Tool := {|
  name := "cloneDeckConfigId";
  description :=
    "Creates a new configuration group with the given name, cloning from the group with the given ID.";
  inputSchema :=
    SObject
      (Some [("name", SString);
             ("cloneFrom", SNumber)])
      (Some ["name"; "cloneFrom"])
|}.

Definition REMOVE_DECK_CONFIG_ID_TOOL : Tool := {|
  name := "removeDeckConfigId";
  description :=
    "Removes the configuration group with the given ID.";
  inputSchema :=
    SObject (Some [("configId", SNumber)]) (Some ["configId"])
|}.

Definition CAN_ADD_NOTES_TOOL : Tool := {|
  name := "canAddNotes";
  description :=
    "Accepts an array of objects which define parameters for candidate notes and returns an array of booleans indicating whether the notes can be added.";
  inputSchema :=
    SObject
      (Some [("notes", SArray (SObject
                        (Some [("deckName", SString);
                               ("modelName", SString);
                               ("fields", SObject None None);
                               ("tags", SArray SString None None)])
                        (Some ["deckName"; "modelName"; "fields"])) None None)])
      (Some ["notes"])
|}.

Definition CAN_ADD_NOTES_WITH_ERROR_DETAIL_TOOL : Tool := {|
  name := "canAddNotesWithErrorDetail";
  description :=
    "Similar to canAddNotes but provides error details if notes cannot be added.";
  inputSchema :=
    SObject
      (Some [("notes", SArray (SObject
                        (Some [("deckName", SString);
                               ("modelName", SString);
                               ("fields", SObject None None);
                               ("tags", SArray SString None None)])
                        (Some ["deckName"; "modelName"; "fields"])) None None)])
      (Some ["notes"])
|}.

Definition UPDATE_NOTE_MODEL_TOOL : Tool := {|
  name := "updateNoteModel";
  description :=
    "Update the model, fields, and tags of an existing note.";
  inputSchema :=
    SObject
      (Some [("note", SObject
                (Some [("id", SNumber);
                       ("modelName", SString);
                       ("fields", SObject None None);
                       ("tags", SArray SString None None)])
                (Some ["id"; "modelName"; "fields"]))])
      (Some ["note"])
|}.

Definition NOTES_MOD_TIME_TOOL : Tool := {|
  name := "notesModTime";
  description :=
    "Returns a list of objects containing the modification time for each note ID.";
  inputSchema :=
    SObject (Some [("notes", SArray SNumber None None)]) (Some ["notes"])
|}.

Definition REMOVE_EMPTY_NOTES_TOOL : Tool := {|
  name := "removeEmptyNotes";
  description :=
    "Removes all the empty notes for the current user.";
  inputSchema :=
    SObject (Some []) (Some [])
|}.

Definition MODEL_FIELD_RENAME_TOOL : Tool := {|
  name := "modelFieldRename";
  description :=
    "Rename the field name of a given model.";
  inputSchema :=
    SObject
      (Some [("modelName", SString);
             ("oldFieldName", SString);
             ("newFieldName", SString)])
      (Some ["modelName"; "oldFieldName"; "newFieldName"])
|}.

Definition MODEL_FIELD_REPOSITION_TOOL : Tool := {|
  name := "modelFieldReposition";
  description :=
    "Reposition the field within the field list of a given model.";
  inputSchema :=
    SObject
      (Some [("modelName", SString);
             ("fieldName", SString);
             ("index", SNumber)])
      (Some ["modelName"; "fieldName"; "index"])
|}.

Definition MODEL_FIELD_ADD_TOOL : Tool := {|
  name := "modelFieldAdd";
  description :=
    "Creates a new field within a given model.";
  inputSchema :=
    SObject
      (Some [("modelName", SString);
             ("fieldName", SString);
             ("index", SNumber)])
      (Some ["modelName"; "fieldName"])
|}.

Definition MODEL_FIELD_REMOVE_TOOL : Tool := {|
  name := "modelFieldRemove";
  description :=
    "Deletes a field within a given model.";
  inputSchema :=
    SObject
      (Some [("modelName", SString);
             ("fieldName", SString)])
      (Some ["modelName"; "fieldName"])
|}.

Definition MODEL_FIELD_SET_FONT_TOOL : Tool := {|
  name := "modelFieldSetFont";
  description :=
    "Sets the font for a field within a given model.";
  inputSchema :=
    SObject
      (Some [("modelName", SString);
             ("fieldName", SString);
             ("font", SString)])
      (Some ["modelName"; "fieldName"; "font"])
|}.

Definition MODEL_FIELD_SET_FONT_SIZE_TOOL : Tool := {|
  name := "modelFieldSetFontSize";
  description :=
    "Sets the font size for a field within a given model.";
  inputSchema :=
    SObject
      (Some [("modelName", SString);
             ("fieldName", SString);
             ("fontSize", SNumber)])
      (Some ["modelName"; "fieldName"; "fontSize"])
|}.

Definition MODEL_FIELD_SET_DESCRIPTION_TOOL : Tool := {|
  name := "modelFieldSetDescription";
  description :=
    "Sets the description (the text seen in the gui editor when a field is empty) for a field within a given model.";
  inputSchema :=
    SObject
      (Some [("modelName", SString);
             ("fieldName", SString);
             ("description", SString)])
      (Some ["modelName"; "fieldName"; "description"])
|}.

Definition FIND_MODELS_BY_ID_TOOL : Tool := {|
  name := "findModelsById";
  description :=
    "Gets a list of models for the provided model IDs from the current user.";
  inputSchema :=
    SObject
      (Some [("modelIds", SArray SNumber None None)])
      (Some ["modelIds"])
|}.

Definition FIND_MODELS_BY_NAME_TOOL : Tool := {|
  name := "findModelsByName";
  description :=
    "Gets a list of models for the provided model names from the current user.";
  inputSchema :=
    SObject
      (Some [("modelNames", SArray SString None None)])
      (Some ["modelNames"])
|}.

Definition MODEL_FIELD_DESCRIPTIONS_TOOL : Tool := {|
  name := "modelFieldDescriptions";
  description :=
    "Gets the complete list of field descriptions (the text seen in the gui editor when a field is empty) for the provided model name.";
  inputSchema :=
    SObject (Some [("modelName", SString)]) (Some ["modelName"])
|}.

Definition MODEL_FIELD_FONTS_TOOL : Tool := {|
  name := "modelFieldFonts";
  description :=
    "Gets the complete list of fonts along with their font sizes.";
  inputSchema :=
    SObject (Some [("modelName", SString)]) (Some ["modelName"])
|}.

Definition FIND_AND_REPLACE_IN_MODELS_TOOL : Tool := {|
  name := "findAndReplaceInModels";
  description :=
    "Find and replace string in existing model by model name. Customise to replace in front, back or css by setting to true/false.";
  inputSchema :=
    SObject
      (Some [("model", SObject
                (Some [("modelName", SString);
                       ("findText", SString);
                       ("replaceText", SString);
                       ("front", SBoolean);
                       ("back", SBoolean);
                       ("css", SBoolean)])
                (Some ["modelName"; "findText"; "replaceText"]))])
      (Some ["model"])
|}.

Definition MODEL_TEMPLATE_RENAME_TOOL : Tool := {|
  name := "modelTemplateRename";
  description :=
    "Renames a template in an existing model.";
  inputSchema :=
    SObject
      (Some [("modelName", SString);
             ("oldTemplateName", SString);
             ("newTemplateName", SString)])
      (Some ["modelName"; "oldTemplateName"; "newTemplateName"])
|}.

Definition MODEL_TEMPLATE_REPOSITION_TOOL : Tool := {|
  name := "modelTemplateReposition";
  description :=
    "Repositions a template in an existing model.";
  inputSchema :=
    SObject
      (Some [("modelName", SString);
             ("templateName", SString);
             ("index", SNumber)])
      (Some ["modelName"; "templateName"; "index"])
|}.

Definition MODEL_TEMPLATE_ADD_TOOL : Tool := {|
  name := "modelTemplateAdd";
  description :=
    "Adds a template to an existing model by name.";
  inputSchema :=
    SObject
      (Some [("modelName", SString);
             ("template", SObject
                (Some [("Name", SString);
                       ("Front", SString);
                       ("Back", SString)])
                (Some ["Name"; "Front"; "Back"]))])
      (Some ["modelName"; "template"])
|}.

Definition MODEL_TEMPLATE_REMOVE_TOOL : Tool := {|
  name := "modelTemplateRemove";
  description :=
    "Removes a template from an existing model.";
  inputSchema :=
    SObject
      (Some [("modelName", SString);
             ("templateName", SString)])
      (Some ["modelName"; "templateName"])
|}.

Definition handleGetNumCardsReviewedToday : M ToolResult :=
  count <- invokeAnkiConnect "getNumCardsReviewedToday" JUndefined JUndefined ;;
  text_ <- template [Lit "Cards reviewed today: "; Sub count] ;;
  ret {| content := [ {| type := "text"; text := JStr text_ |} ];
         isError := None |}.

Definition handleGetNumCardsReviewedByDay : M ToolResult :=
  reviews <- invokeAnkiConnect "getNumCardsReviewedByDay"
      JUndefined JUndefined ;;
  ret {| content := [ {| type := "text"; text := JSON_stringify reviews 2 |} ];
         isError := None |}.

Definition handleGetCollectionStatsHTML (arguments_ : JSValue) : M ToolResult :=
  let params := JObj [] in
  let params :=
    if negb (strict_equal arguments_?.["wholeCollection"] JUndefined)
    then js_set params "wholeCollection" arguments_.["wholeCollection"]
    else params in
  html <- invokeAnkiConnect "getCollectionStatsHTML" params JUndefined ;;
  ret {| content := [ {| type := "text"; text := html |} ];
         isError := None |}.

Definition handleCardReviews (arguments_ : JSValue) : M ToolResult :=
  If negb (truthy arguments_?.["deck"]) ||
     negb (typeof arguments_.["deck"] =? "string")
  ThenThrow (McpError InvalidParams
               "Missing required parameter: deck") ;;
  If negb (truthy arguments_?.["startID"]) ||
     negb (typeof arguments_.["startID"] =? "number")
  ThenThrow (McpError InvalidParams
               "Missing required parameter: startID (unix timestamp in milliseconds)") ;;
  reviews <- invokeAnkiConnect "cardReviews"
      (JObj [("deck", arguments_.["deck"]);
            ("startID", arguments_.["startID"])]) JUndefined ;;
  ret {| content := [ {| type := "text"; text := JSON_stringify reviews 2 |} ];
         isError := None |}.

Definition GET_NUM_CARDS_REVIEWED_TODAY_TOOL : Tool := {|
  name := "getNumCardsReviewedToday";
  description :=
    "Gets the count of cards that have been reviewed in the current day (with day start time as configured by user in anki)";
  inputSchema :=
    SObject (Some []) (Some [])
|}.

Definition GET_NUM_CARDS_REVIEWED_BY_DAY_TOOL : Tool := {|
  name := "getNumCardsReviewedByDay";
  description :=
    "Gets the number of cards reviewed as a list of pairs of (dateString, number)";
  inputSchema :=
    SObject (Some []) (Some [])
|}.

Definition GET_COLLECTION_STATS_HTML_TOOL : Tool := {|
  name := "getCollectionStatsHTML";
  description :=
    "Gets the collection statistics report";
  inputSchema :=
    SObject (Some [("wholeCollection", SBoolean)]) None
|}.

Definition CARD_REVIEWS_TOOL : Tool := {|
  name := "cardReviews";
  description :=
    "Requests all card reviews for a specified deck after a certain time.";
  inputSchema :=
    SObject
      (Some [("deck", SString);
             ("startID", SNumber)])
      (Some ["deck"; "startID"])
|}.

Definition handleModelTemplates (arguments_ : JSValue) : M ToolResult :=
  If negb (truthy arguments_?.["modelName"]) ||
     negb (typeof arguments_.["modelName"] =? "string")
  ThenThrow (McpError InvalidParams
               "Missing required parameter: modelName") ;;
  templates <- invokeAnkiConnect "modelTemplates"
      (JObj [("modelName", arguments_.["modelName"])]) JUndefined ;;
  ret {| content := [ {| type := "text"; text := JSON_stringify templates 2 |} ];
         isError := None |}.

Definition handleModelStyling (arguments_ : JSValue) : M ToolResult :=
  If negb (truthy arguments_?.["modelName"]) ||
     negb (typeof arguments_.["modelName"] =? "string")
  ThenThrow (McpError InvalidParams
               "Missing required parameter: modelName") ;;
  styling <- invokeAnkiConnect "modelStyling"
      (JObj [("modelName", arguments_.["modelName"])]) JUndefined ;;
  ret {| content := [ {| type := "text"; text := JSON_stringify styling 2 |} ];
         isError := None |}.

Definition handleUpdateModelTemplates (arguments_ : JSValue) : M ToolResult :=
  If negb (truthy arguments_?.["model"]) ||
     negb (typeof arguments_.["model"] =? "object")
  ThenThrow (McpError InvalidParams
               "Missing required parameter: model") ;;
  If negb (truthy arguments_.["model"].["name"]) ||
     negb (typeof arguments_.["model"].["name"] =? "string")
  ThenThrow (McpError InvalidParams
               "Missing required parameter: model.name") ;;
  If negb (truthy arguments_.["model"].["templates"]) ||
     negb (typeof arguments_.["model"].["templates"] =? "object")
  ThenThrow (McpError InvalidParams
               "Missing required parameter: model.templates") ;;
  result <- invokeAnkiConnect "updateModelTemplates"
      (JObj [("model", arguments_.["model"])]) JUndefined ;;
  text_ <- template
             [Lit "Update model templates: ";
              Sub (if truthy result then JStr "Success" else JStr "Failed")] ;;
  ret {| content := [ {| type := "text"; text := JStr text_ |} ];
         isError := None |}.

Definition handleUpdateModelStyling (arguments_ : JSValue) : M ToolResult :=
  If negb (truthy arguments_?.["model"]) ||
     negb (typeof arguments_.["model"] =? "object")
  ThenThrow (McpError InvalidParams
               "Missing required parameter: model") ;;
  If negb (truthy arguments_.["model"].["name"]) ||
     negb (typeof arguments_.["model"].["name"] =? "string")
  ThenThrow (McpError InvalidParams
               "Missing required parameter: model.name") ;;
  If negb (truthy arguments_.["model"].["css"]) ||
     negb (typeof arguments_.["model"].["css"] =? "string")
  ThenThrow (McpError InvalidParams
               "Missing required parameter: model.css") ;;
  result <- invokeAnkiConnect "updateModelStyling"
      (JObj [("model", arguments_.["model"])]) JUndefined ;;
  text_ <- template
             [Lit "Update model styling: ";
              Sub (if truthy result then JStr "Success" else JStr "Failed")] ;;
  ret {| content := [ {| type := "text"; text := JStr text_ |} ];
         isError := None |}.

Definition handleCreateModel (arguments_ : JSValue) : M ToolResult :=
  If negb (truthy arguments_?.["modelName"]) ||
     negb (typeof arguments_.["modelName"] =? "string")
  ThenThrow (McpError InvalidParams
               "Missing required parameter: modelName") ;;
  If negb (truthy arguments_?.["inOrderFields"]) ||
     negb (Array_isArray arguments_.["inOrderFields"])
  ThenThrow (McpError InvalidParams
               "Missing required parameter: inOrderFields (array of field names)") ;;
  If negb (truthy arguments_?.["cardTemplates"]) ||
     negb (Array_isArray arguments_.["cardTemplates"])
  ThenThrow (McpError InvalidParams
               "Missing required parameter: cardTemplates (array of templates)") ;;
  let params := JObj [("modelName", arguments_.["modelName"]); ("inOrderFields", arguments_.["inOrderFields"]); ("cardTemplates", arguments_.["cardTemplates"])] in
  let params :=
    if truthy arguments_?.["css"]
    then js_set params "css" arguments_.["css"]
    else params in
  let params :=
    if negb (strict_equal arguments_?.["isCloze"] JUndefined)
    then js_set params "isCloze" arguments_.["isCloze"]
    else params in
  result <- invokeAnkiConnect "createModel" params JUndefined ;;
  text_ <- template
             [Lit "Create model: ";
              Sub (if truthy result then JStr "Success" else JStr "Failed")] ;;
  ret {| content := [ {| type := "text"; text := JStr text_ |} ];
         isError := None |}.

Definition MODEL_TEMPLATES_TOOL : Tool := {|
  name := "modelTemplates";
  description :=
    "Returns an object indicating the template content for each card connected to the provided model by name.";
  inputSchema :=
    SObject (Some [("modelName", SString)]) (Some ["modelName"])
|}.

Definition MODEL_STYLING_TOOL : Tool := {|
  name := "modelStyling";
  description :=
    "Gets the CSS styling for the provided model by name.";
  inputSchema :=
    SObject (Some [("modelName", SString)]) (Some ["modelName"])
|}.

Definition UPDATE_MODEL_TEMPLATES_TOOL : Tool := {|
  name := "updateModelTemplates";
  description :=
    "Modify the templates of an existing model by name. Only specified cards and sides will be modified.";
  inputSchema :=
    SObject
      (Some [("model", SObject
                (Some [("name", SString);
                       ("templates", SObject None None)])
                (Some ["name"; "templates"]))])
      (Some ["model"])
|}.

Definition UPDATE_MODEL_STYLING_TOOL : Tool := {|
  name := "updateModelStyling";
  description :=
    "Modify the CSS styling of an existing model by name.";
  inputSchema :=
    SObject
      (Some [("model", SObject
                (Some [("name", SString);
                       ("css", SString)])
                (Some ["name"; "css"]))])
      (Some ["model"])
|}.

Definition CREATE_MODEL_TOOL : Tool := {|
  name := "createModel";
  description :=
    "Creates a new model to be used in Anki.";
  inputSchema :=
    SObject
      (Some [("modelName", SString);
             ("inOrderFields", SArray SString None None);
             ("css", SString);
             ("isCloze", SBoolean);
             ("cardTemplates", SArray (SObject
                        (Some [("Name", SString);
                               ("Front", SString);
                               ("Back", SString)])
                        (Some ["Name"; "Front"; "Back"])) None None)])
      (Some ["modelName"; "inOrderFields"; "cardTemplates"])
|}.

Definition handleGuiCurrentCard : M ToolResult :=
  card <- invokeAnkiConnect "guiCurrentCard" JUndefined JUndefined ;;
  ret {| content := [ {| type := "text"; text := JSON_stringify card 2 |} ];
         isError := None |}.

Definition handleGuiStartCardTimer : M ToolResult :=
  result <- invokeAnkiConnect "guiStartCardTimer" JUndefined JUndefined ;;
  text_ <- template
             [Lit "Start card timer: ";
              Sub (if truthy result then JStr "Success" else JStr "Failed")] ;;
  ret {| content := [ {| type := "text"; text := JStr text_ |} ];
         isError := None |}.

Definition handleGuiShowQuestion : M ToolResult :=
  result <- invokeAnkiConnect "guiShowQuestion" JUndefined JUndefined ;;
  text_ <- template
             [Lit "Show question: ";
              Sub (if truthy result then JStr "Success" else JStr "Failed (not in review mode)")] ;;
  ret {| content := [ {| type := "text"; text := JStr text_ |} ];
         isError := None |}.

Definition handleGuiShowAnswer : M ToolResult :=
  result <- invokeAnkiConnect "guiShowAnswer" JUndefined JUndefined ;;
  text_ <- template
             [Lit "Show answer: ";
              Sub (if truthy result then JStr "Success" else JStr "Failed (not in review mode)")] ;;
  ret {| content := [ {| type := "text"; text := JStr text_ |} ];
         isError := None |}.

Definition handleGuiAnswerCard (arguments_ : JSValue) : M ToolResult :=
  If negb (truthy arguments_?.["ease"]) ||
     negb (typeof arguments_.["ease"] =? "number") ||
     less_than arguments_.["ease"] (JNum 1) ||
     greater_than arguments_.["ease"] (JNum 4)
  ThenThrow (McpError InvalidParams
               "Missing or invalid required parameter: ease (1-4)") ;;
  result <- invokeAnkiConnect "guiAnswerCard"
      (JObj [("ease", arguments_.["ease"])]) JUndefined ;;
  text_ <- template
             [Lit "Answer card with ease ";
              Sub arguments_.["ease"];
              Lit ": ";
              Sub (if truthy result then JStr "Success" else JStr "Failed")] ;;
  ret {| content := [ {| type := "text"; text := JStr text_ |} ];
         isError := None |}.

Definition handleGuiDeckBrowser : M ToolResult :=
  result <- invokeAnkiConnect "guiDeckBrowser" JUndefined JUndefined ;;
  text_ <- template
             [Lit "Open deck browser: ";
              Sub (if truthy result then JStr "Success" else JStr "Failed")] ;;
  ret {| content := [ {| type := "text"; text := JStr text_ |} ];
         isError := None |}.

Definition handleGuiDeckOverview (arguments_ : JSValue) : M ToolResult :=
  If negb (truthy arguments_?.["name"]) ||
     negb (typeof arguments_.["name"] =? "string")
  ThenThrow (McpError InvalidParams
               "Missing required parameter: name (deck name)") ;;
  result <- invokeAnkiConnect "guiDeckOverview"
      (JObj [("name", arguments_.["name"])]) JUndefined ;;
  text_ <- template
             [Lit "Open deck overview for '";
              Sub arguments_.["name"];
              Lit "': ";
              Sub (if truthy result then JStr "Success" else JStr "Failed")] ;;
  ret {| content := [ {| type := "text"; text := JStr text_ |} ];
         isError := None |}.

Definition GET_EASE_FACTORS_TOOL : Tool := {|
  name := "getEaseFactors";
  description :=
    "Returns an array with the ease factor for each of the given cards (in the same order).";
  inputSchema :=
    SObject (Some [("cards", SArray SNumber None None)]) (Some ["cards"])
|}.

Definition SET_EASE_FACTORS_TOOL : Tool := {|
  name := "setEaseFactors";
  description :=
    "Sets ease factor of cards by card ID; returns true if successful (all cards existed) or false otherwise.";
  inputSchema :=
    SObject
      (Some [("cards", SArray SNumber None None);
             ("easeFactors", SArray SNumber None None)])
      (Some ["cards"; "easeFactors"])
|}.

Definition SET_SPECIFIC_VALUE_OF_CARD_TOOL : Tool := {|
  name := "setSpecificValueOfCard";
  description :=
    "Sets specific values of a single card. Given the risk of wreaking havoc in the database when changing some of the values of a card, some of the keys require the argument 'warning_check' set to True.";
  inputSchema :=
    SObject
      (Some [("card", SNumber);
             ("keys", SArray SString None None);
             ("newValues", SArray SString None None);
             ("warning_check", SBoolean)])
      (Some ["card"; "keys"; "newValues"])
|}.

Definition SUSPEND_TOOL : Tool := {|
  name := "suspend";
  description :=
    "Suspend cards by card ID; returns true if successful (at least one card wasn't already suspended) or false";
  inputSchema :=
    SObject (Some [("cards", SArray SNumber None None)]) (Some ["cards"])
|}.

Definition UNSUSPEND_TOOL : Tool := {|
  name := "unsuspend";
  description :=
    "Unsuspend cards by card ID; returns true if successful (at least one card was previously suspended) or false";
  inputSchema :=
    SObject (Some [("cards", SArray SNumber None None)]) (Some ["cards"])
|}.

Definition SUSPENDED_TOOL : Tool := {|
  name := "suspended";
  description :=
    "Check if card is suspended by its ID. Returns true if suspended, false otherwise.";
  inputSchema :=
    SObject (Some [("card", SNumber)]) (Some ["card"])
|}.

Definition ARE_SUSPENDED_TOOL : Tool := {|
  name := "areSuspended";
  description :=
    "Returns an array indicating whether each of the given cards is suspended (in the same order).";
  inputSchema :=
    SObject (Some [("cards", SArray SNumber None None)]) (Some ["cards"])
|}.

Definition ARE_DUE_TOOL : Tool := {|
  name := "areDue";
  description :=
    "Returns an array indicating whether each of the given cards is due (in the same order).";
  inputSchema :=
    SObject (Some [("cards", SArray SNumber None None)]) (Some ["cards"])
|}.

Definition FIND_CARDS_TOOL : Tool := {|
  name := "findCards";
  description :=
    "Returns an array of card IDs for a given query. Functionally identical to guiBrowse but doesn't use the GUI.";
  inputSchema :=
    SObject (Some [("query", SString)]) (Some ["query"])
|}.

Definition CARDS_TO_NOTES_TOOL : Tool := {|
  name := "cardsToNotes";
  description :=
    "Returns an unordered array of note IDs for the given card IDs. For cards with the same note, the ID is only given once.";
  inputSchema :=
    SObject (Some [("cards", SArray SNumber None None)]) (Some ["cards"])
|}.

Definition CARDS_INFO_TOOL : Tool := {|
  name := "cardsInfo";
  description :=
    "Returns information for each card ID including fields, front and back sides, note type, etc.";
  inputSchema :=
    SObject (Some [("cards", SArray SNumber None None)]) (Some ["cards"])
|}.

Definition FORGET_CARDS_TOOL : Tool := {|
  name := "forgetCards";
  description :=
    "Forget cards, making the cards new again.";
  inputSchema :=
    SObject (Some [("cards", SArray SNumber None None)]) (Some ["cards"])
|}.

Definition ANSWER_CARDS_TOOL : Tool := {|
  name := "answerCards";
  description :=
    "Answer cards. Ease is between 1 (Again) and 4 (Easy). Will start the timer immediately before answering.";
  inputSchema :=
    SObject
      (Some [("answers", SArray (SObject
                        (Some [("cardId", SNumber);
                               ("ease", SNumber)])
                        (Some ["cardId"; "ease"])) None None)])
      (Some ["answers"])
|}.

Definition GET_DECK_NAMES_TOOL : Tool := {|
  name := "getDeckNames";
  description :=
    "Returns an array of all deck names for the current AnkiConnect user";
  inputSchema :=
    SObject (Some []) (Some [])
|}.

Definition CREATE_DECK_TOOL : Tool := {|
  name := "createDeck";
  description :=
    "Creates a new deck with the given name. Returns the deck ID.";
  inputSchema :=
    SObject (Some [("deck", SString)]) (Some ["deck"])
|}.

Definition DECK_NAMES_AND_IDS_TOOL : Tool := {|
  name := "deckNamesAndIds";
  description :=
    "Gets the complete list of deck names and their respective IDs for the current user.";
  inputSchema :=
    SObject (Some []) (Some [])
|}.

Definition GET_DECKS_TOOL : Tool := {|
  name := "getDecks";
  description :=
    "Accepts an array of card IDs and returns an object with each deck name as a key and its value an array of the given cards in that deck.";
  inputSchema :=
    SObject (Some [("cards", SArray SNumber None None)]) (Some ["cards"])
|}.

Definition CHANGE_DECK_TOOL : Tool := {|
  name := "changeDeck";
  description :=
    "Moves cards with the given IDs to a different deck, creating the deck if it doesn't exist yet.";
  inputSchema :=
    SObject
      (Some [("cards", SArray SNumber None None);
             ("deck", SString)])
      (Some ["cards"; "deck"])
|}.

Definition DELETE_DECKS_TOOL : Tool := {|
  name := "deleteDecks";
  description :=
    "Deletes decks with the given names.";
  inputSchema :=
    SObject
      (Some [("decks", SArray SString None None);
             ("cardsToo", SBoolean)])
      (Some ["decks"])
|}.

Definition GET_DECK_CONFIG_TOOL : Tool := {|
  name := "getDeckConfig";
  description :=
    "Gets the configuration group object for the given deck.";
  inputSchema :=
    SObject (Some [("deck", SString)]) (Some ["deck"])
|}.

Definition SAVE_DECK_CONFIG_TOOL : Tool := {|
  name := "saveDeckConfig";
  description :=
    "Saves the given configuration group, returning true on success or false if the ID of the configuration group is invalid.";
  inputSchema :=
    SObject (Some [("config", SObject None None)]) (Some ["config"])
|}.

Definition SET_DECK_CONFIG_ID_TOOL : Tool := {|
  name := "setDeckConfigId";
  description :=
    "Changes the configuration group for the given decks to the one with the given ID.";
  inputSchema :=
    SObject
      (Some [("decks", SArray SString None None);
             ("configId", SNumber)])
      (Some ["decks"; "configId"])
|}.

Definition GET_DECK_STATS_TOOL : Tool := {|
  name := "getDeckStats";
  description :=
    "Gets statistics such as total cards and cards due for the given decks.";
  inputSchema :=
    SObject (Some [("decks", SArray SString None None)]) (Some ["decks"])
|}.

Definition MODEL_NAMES_TOOL : Tool := {|
  name := "modelNames";
  description :=
    "Gets the complete list of model names for the current user.";
  inputSchema :=
    SObject (Some []) (Some [])
|}.

Definition MODEL_NAMES_AND_IDS_TOOL : Tool := {|
  name := "modelNamesAndIds";
  description :=
    "Gets the complete list of model names and their corresponding IDs for the current user.";
  inputSchema :=
    SObject (Some []) (Some [])
|}.

Definition MODEL_FIELD_NAMES_TOOL : Tool := {|
  name := "modelFieldNames";
  description :=
    "Gets the complete list of field names for the provided model name.";
  inputSchema :=
    SObject (Some [("modelName", SString)]) (Some ["modelName"])
|}.

Definition MODEL_FIELDS_ON_TEMPLATES_TOOL : Tool := {|
  name := "modelFieldsOnTemplates";
  description :=
    "Returns an object indicating the fields on the question and answer side of each card template for the given model.";
  inputSchema :=
    SObject (Some [("modelName", SString)]) (Some ["modelName"])
|}.

Definition ADD_NOTE_TOOL : Tool := {|
  name := "addNote";
  description :=
    "Creates a note using the given deck and model, with the provided field values and tags. Returns the identifier of the created note.";
  inputSchema :=
    SObject
      (Some [("note", SObject
                (Some [("deckName", SString);
                       ("modelName", SString);
                       ("fields", SObject None None);
                       ("tags", SArray SString None None);
                       ("options", SObject None None)])
                (Some ["deckName"; "modelName"; "fields"]))])
      (Some ["note"])
|}.

Definition ADD_NOTES_TOOL : Tool := {|
  name := "addNotes";
  description :=
    "Creates multiple notes using the given deck and model, with the provided field values and tags. Returns an array of note IDs or null for notes that could not be added.";
  inputSchema :=
    SObject
      (Some [("notes", SArray (SObject
                        (Some [("deckName", SString);
                               ("modelName", SString);
                               ("fields", SObject None None);
                               ("tags", SArray SString None None)])
                        (Some ["deckName"; "modelName"; "fields"])) None None)])
      (Some ["notes"])
|}.

Definition FIND_NOTES_TOOL : Tool := {|
  name := "findNotes";
  description :=
    "Returns an array of note IDs for a given query. Query syntax is documented in Anki's documentation.";
  inputSchema :=
    SObject (Some [("query", SString)]) (Some ["query"])
|}.

Definition GET_INTERVALS_TOOL : Tool := {|
  name := "getIntervals";
  description :=
    "Returns an array of the most recent intervals for each given card ID, or a 2-dimensional array of all the intervals for each card.";
  inputSchema :=
    SObject
      (Some [("cards", SArray SNumber None None);
             ("complete", SBoolean)])
      (Some ["cards"])
|}.

Definition CARDS_MOD_TIME_TOOL : Tool := {|
  name := "cardsModTime";
  description :=
    "Returns a list of objects containing the modification time for each card ID.";
  inputSchema :=
    SObject (Some [("cards", SArray SNumber None None)]) (Some ["cards"])
|}.

Definition RELEARN_CARDS_TOOL : Tool := {|
  name := "relearnCards";
  description :=
    "Make cards be 'relearning'.";
  inputSchema :=
    SObject (Some [("cards", SArray SNumber None None)]) (Some ["cards"])
|}.

Definition SET_DUE_DATE_TOOL : Tool := {|
  name := "setDueDate";
  description :=
    "Set Due Date. Turns cards into review cards if they are new, and makes them due on a certain date.";
  inputSchema :=
    SObject
      (Some [("cards", SArray SNumber None None);
             ("days", SString)])
      (Some ["cards"; "days"])
|}.

Definition GET_TAGS_TOOL : Tool := {|
  name := "getTags";
  description :=
    "Gets the complete list of tags for the current user.";
  inputSchema :=
    SObject (Some []) (Some [])
|}.

Definition UPDATE_NOTE_FIELDS_TOOL : Tool := {|
  name := "updateNoteFields";
  description :=
    "Modify the fields of an existing note.";
  inputSchema :=
    SObject
      (Some [("note", SObject
                (Some [("id", SNumber);
                       ("fields", SObject None None)])
                (Some ["id"; "fields"]))])
      (Some ["note"])
|}.

Definition UPDATE_NOTE_TOOL : Tool := {|
  name := "updateNote";
  description :=
    "Modify the fields and/or tags of an existing note.";
  inputSchema :=
    SObject
      (Some [("note", SObject
                (Some [("id", SNumber);
                       ("fields", SObject None None);
                       ("tags", SArray SString None None)])
                (Some ["id"]))])
      (Some ["note"])
|}.

Definition NOTES_INFO_TOOL : Tool := {|
  name := "notesInfo";
  description :=
    "Returns information for each note ID including fields, tags, note type, etc.";
  inputSchema :=
    SObject (Some [("notes", SArray SNumber None None)]) (Some ["notes"])
|}.

Definition DELETE_NOTES_TOOL : Tool := {|
  name := "deleteNotes";
  description :=
    "Deletes notes with the given IDs. If a note has several cards associated with it, all associated cards will be deleted.";
  inputSchema :=
    SObject (Some [("notes", SArray SNumber None None)]) (Some ["notes"])
|}.

Definition UPDATE_NOTE_TAGS_TOOL : Tool := {|
  name := "updateNoteTags";
  description :=
    "Set a note's tags by note ID. Old tags will be removed.";
  inputSchema :=
    SObject
      (Some [("note", SNumber);
             ("tags", SArray SString None None)])
      (Some ["note"; "tags"])
|}.

Definition GET_NOTE_TAGS_TOOL : Tool := {|
  name := "getNoteTags";
  description :=
    "Get a note's tags by note ID.";
  inputSchema :=
    SObject (Some [("note", SNumber)]) (Some ["note"])
|}.

Definition ADD_TAGS_TOOL : Tool := {|
  name := "addTags";
  description :=
    "Adds tags to notes by note ID.";
  inputSchema :=
    SObject
      (Some [("notes", SArray SNumber None None);
             ("tags", SString)])
      (Some ["notes"; "tags"])
|}.

Definition REMOVE_TAGS_TOOL : Tool := {|
  name := "removeTags";
  description :=
    "Remove tags from notes by note ID.";
  inputSchema :=
    SObject
      (Some [("notes", SArray SNumber None None);
             ("tags", SString)])
      (Some ["notes"; "tags"])
|}.

Definition CLEAR_UNUSED_TAGS_TOOL : Tool := {|
  name := "clearUnusedTags";
  description :=
    "Clears all the unused tags in the notes for the current user.";
  inputSchema :=
    SObject (Some []) (Some [])
|}.

Definition STORE_MEDIA_FILE_TOOL : Tool := {|
  name := "storeMediaFile";
  description :=
    "Stores a file with the specified base64-encoded contents inside the media folder.";
  inputSchema :=
    SObject
      (Some [("filename", SString);
             ("data", SString)])
      (Some ["filename"; "data"])
|}.

Definition RETRIEVE_MEDIA_FILE_TOOL : Tool := {|
  name := "retrieveMediaFile";
  description :=
    "Retrieves the base64-encoded contents of the specified file, returning false if the file does not exist.";
  inputSchema :=
    SObject (Some [("filename", SString)]) (Some ["filename"])
|}.

Definition GET_MEDIA_FILES_NAMES_TOOL : Tool := {|
  name := "getMediaFilesNames";
  description :=
    "Gets the names of media files matched the pattern. Returning all names by default.";
  inputSchema :=
    SObject (Some [("pattern", SString)]) None
|}.

Definition GET_MEDIA_DIR_PATH_TOOL : Tool := {|
  name := "getMediaDirPath";
  description :=
    "Gets the full path to the collection.media folder of the currently opened profile.";
  inputSchema :=
    SObject (Some []) (Some [])
|}.

Definition DELETE_MEDIA_FILE_TOOL : Tool := {|
  name := "deleteMediaFile";
  description :=
    "Deletes the specified file inside the media folder.";
  inputSchema :=
    SObject (Some [("filename", SString)]) (Some ["filename"])
|}.

Definition GUI_BROWSE_TOOL : Tool := {|
  name := "guiBrowse";
  description :=
    "Invokes the Card Browser dialog and searches for a given query. Returns an array of identifiers of the cards that match the query.";
  inputSchema :=
    SObject
      (Some [("query", SString);
             ("reorderCards", SObject
                (Some [("order", SString);
                       ("columnId", SString)])
                None)])
      (Some ["query"])
|}.

Definition GUI_ADD_CARDS_TOOL : Tool := {|
  name := "guiAddCards";
  description :=
    "Invokes the Add Cards dialog, presets the note using the given deck and model, with the provided field values and tags.";
  inputSchema :=
    SObject
      (Some [("note", SObject
                (Some [("deckName", SString);
                       ("modelName", SString);
                       ("fields", SObject None None);
                       ("tags", SArray SString None None)])
                (Some ["deckName"; "modelName"; "fields"]))])
      (Some ["note"])
|}.

Definition GUI_DECK_REVIEW_TOOL : Tool := {|
  name := "guiDeckReview";
  description :=
    "Starts review for the deck with the given name; returns true if succeeded or false otherwise.";
  inputSchema :=
    SObject (Some [("name", SString)]) (Some ["name"])
|}.

Definition GUI_CURRENT_CARD_TOOL : Tool := {|
  name := "guiCurrentCard";
  description :=
    "Returns information about the current card or null if not in review mode.";
  inputSchema :=
    SObject (Some []) (Some [])
|}.

Definition GUI_START_CARD_TIMER_TOOL : Tool := {|
  name := "guiStartCardTimer";
  description :=
    "Starts or resets the timerStarted value for the current card.";
  inputSchema :=
    SObject (Some []) (Some [])
|}.

Definition GUI_SHOW_QUESTION_TOOL : Tool := {|
  name := "guiShowQuestion";
  description :=
    "Shows question text for the current card; returns true if in review mode or false otherwise.";
  inputSchema :=
    SObject (Some []) (Some [])
|}.

Definition GUI_SHOW_ANSWER_TOOL : Tool := {|
  name := "guiShowAnswer";
  description :=
    "Shows answer text for the current card; returns true if in review mode or false otherwise.";
  inputSchema :=
    SObject (Some []) (Some [])
|}.

Definition GUI_ANSWER_CARD_TOOL : Tool := {|
  name := "guiAnswerCard";
  description :=
    "Answers the current card; returns true if succeeded or false otherwise.";
  inputSchema :=
    SObject (Some [("ease", SNumber)]) (Some ["ease"])
|}.

Definition GUI_DECK_BROWSER_TOOL : Tool := {|
  name := "guiDeckBrowser";
  description :=
    "Opens the Deck Browser dialog.";
  inputSchema :=
    SObject (Some []) (Some [])
|}.

Definition GUI_DECK_OVERVIEW_TOOL : Tool := {|
  name := "guiDeckOverview";
  description :=
    "Opens the Deck Overview dialog for the deck with the given name.";
  inputSchema :=
    SObject (Some [("name", SString)]) (Some ["name"])
|}.

Definition SYNC_TOOL : Tool := {|
  name := "sync";
  description :=
    "Synchronizes the local Anki collections with AnkiWeb.";
  inputSchema :=
    SObject (Some []) (Some [])
|}.

Definition VERSION_TOOL : Tool := {|
  name := "version";
  description :=
    "Gets the version of the API exposed by this plugin. Currently versions 1 through 6 are defined.";
  inputSchema :=
    SObject (Some []) (Some [])
|}.

Definition EXPORT_PACKAGE_TOOL : Tool := {|
  name := "exportPackage";
  description :=
    "Exports a given deck in .apkg format. Returns true if successful or false otherwise.";
  inputSchema :=
    SObject
      (Some [("deck", SString);
             ("path", SString);
             ("includeSched", SBoolean)])
      (Some ["deck"; "path"])
|}.

Definition IMPORT_PACKAGE_TOOL : Tool := {|
  name := "importPackage";
  description :=
    "Imports a file in .apkg format into the collection. Returns true if successful or false otherwise.";
  inputSchema :=
    SObject (Some [("path", SString)]) (Some ["path"])
|}.

Definition handleGetEaseFactors (arguments_ : JSValue) : M ToolResult :=
  If negb (truthy arguments_?.["cards"]) ||
     negb (Array_isArray arguments_.["cards"])
  ThenThrow (McpError InvalidParams
               "Missing required parameter: cards (array of card IDs)") ;;
  easeFactors <- invokeAnkiConnect "getEaseFactors"
      (JObj [("cards", arguments_.["cards"])]) JUndefined ;;
  ret {| content := [ {| type := "text"; text := JSON_stringify easeFactors 2 |} ];
         isError := None |}.

Definition handleSetEaseFactors (arguments_ : JSValue) : M ToolResult :=
  If negb (truthy arguments_?.["cards"]) ||
     negb (Array_isArray arguments_.["cards"])
  ThenThrow (McpError InvalidParams
               "Missing required parameter: cards (array of card IDs)") ;;
  If negb (truthy arguments_?.["easeFactors"]) ||
     negb (Array_isArray arguments_.["easeFactors"])
  ThenThrow (McpError InvalidParams
               "Missing required parameter: easeFactors (array of ease factors)") ;;
  If negb (strict_equal arguments_.["cards"].["length"] arguments_.["easeFactors"].["length"])
  ThenThrow (McpError InvalidParams
               "Cards and easeFactors arrays must have the same length") ;;
  result <- invokeAnkiConnect "setEaseFactors"
      (JObj [("cards", arguments_.["cards"]);
            ("easeFactors", arguments_.["easeFactors"])]) JUndefined ;;
  text_ <- template
             [Lit "Set ease factors: ";
              Sub (if truthy result then JStr "Success" else JStr "Failed")] ;;
  ret {| content := [ {| type := "text"; text := JStr text_ |} ];
         isError := None |}.

Definition handleSetSpecificValueOfCard (arguments_ : JSValue) : M ToolResult :=
  If negb (truthy arguments_?.["card"]) ||
     negb (typeof arguments_.["card"] =? "number")
  ThenThrow (McpError InvalidParams
               "Missing required parameter: card (card ID)") ;;
  If negb (truthy arguments_?.["keys"]) ||
     negb (Array_isArray arguments_.["keys"])
  ThenThrow (McpError InvalidParams
               "Missing required parameter: keys (array of property names)") ;;
  If negb (truthy arguments_?.["newValues"]) ||
     negb (Array_isArray arguments_.["newValues"])
  ThenThrow (McpError InvalidParams
               "Missing required parameter: newValues (array of property values)") ;;
  If negb (strict_equal arguments_.["keys"].["length"] arguments_.["newValues"].["length"])
  ThenThrow (McpError InvalidParams
               "Keys and newValues arrays must have the same length") ;;
  let params := JObj [("card", arguments_.["card"]); ("keys", arguments_.["keys"]); ("newValues", arguments_.["newValues"])] in
  let params :=
    if negb (strict_equal arguments_.["warning_check"] JUndefined)
    then js_set params "warning_check" arguments_.["warning_check"]
    else params in
  result <- invokeAnkiConnect "setSpecificValueOfCard" params JUndefined ;;
  text_ <- template
             [Lit "Set specific values of card: ";
              Sub (if truthy result then JStr "Success" else JStr "Failed")] ;;
  ret {| content := [ {| type := "text"; text := JStr text_ |} ];
         isError := None |}.

Definition handleSuspend (arguments_ : JSValue) : M ToolResult :=
  If negb (truthy arguments_?.["cards"]) ||
     negb (Array_isArray arguments_.["cards"])
  ThenThrow (McpError InvalidParams
               "Missing required parameter: cards (array of card IDs)") ;;
  result <- invokeAnkiConnect "suspend"
      (JObj [("cards", arguments_.["cards"])]) JUndefined ;;
  text_ <- template
             [Lit "Suspend cards: ";
              Sub (if truthy result then JStr "Success" else JStr "Failed (possibly already suspended)")] ;;
  ret {| content := [ {| type := "text"; text := JStr text_ |} ];
         isError := None |}.

Definition handleUnsuspend (arguments_ : JSValue) : M ToolResult :=
  If negb (truthy arguments_?.["cards"]) ||
     negb (Array_isArray arguments_.["cards"])
  ThenThrow (McpError InvalidParams
               "Missing required parameter: cards (array of card IDs)") ;;
  result <- invokeAnkiConnect "unsuspend"
      (JObj [("cards", arguments_.["cards"])]) JUndefined ;;
  text_ <- template
             [Lit "Unsuspend cards: ";
              Sub (if truthy result then JStr "Success" else JStr "Failed (possibly not suspended)")] ;;
  ret {| content := [ {| type := "text"; text := JStr text_ |} ];
         isError := None |}.

Definition handleSuspended (arguments_ : JSValue) : M ToolResult :=
  If negb (truthy arguments_?.["card"]) ||
     negb (typeof arguments_.["card"] =? "number")
  ThenThrow (McpError InvalidParams
               "Missing required parameter: card (card ID)") ;;
  result <- invokeAnkiConnect "suspended"
      (JObj [("card", arguments_.["card"])]) JUndefined ;;
  text_ <- template [Lit "Card is suspended: "; Sub result] ;;
  ret {| content := [ {| type := "text"; text := JStr text_ |} ];
         isError := None |}.

Definition handleAreSuspended (arguments_ : JSValue) : M ToolResult :=
  If negb (truthy arguments_?.["cards"]) ||
     negb (Array_isArray arguments_.["cards"])
  ThenThrow (McpError InvalidParams
               "Missing required parameter: cards (array of card IDs)") ;;
  results <- invokeAnkiConnect "areSuspended"
      (JObj [("cards", arguments_.["cards"])]) JUndefined ;;
  ret {| content := [ {| type := "text"; text := JSON_stringify results 2 |} ];
         isError := None |}.

Definition handleAreDue (arguments_ : JSValue) : M ToolResult :=
  If negb (truthy arguments_?.["cards"]) ||
     negb (Array_isArray arguments_.["cards"])
  ThenThrow (McpError InvalidParams
               "Missing required parameter: cards (array of card IDs)") ;;
  results <- invokeAnkiConnect "areDue"
      (JObj [("cards", arguments_.["cards"])]) JUndefined ;;
  ret {| content := [ {| type := "text"; text := JSON_stringify results 2 |} ];
         isError := None |}.

Definition handleFindCards (arguments_ : JSValue) : M ToolResult :=
  If negb (truthy arguments_?.["query"]) ||
     negb (typeof arguments_.["query"] =? "string")
  ThenThrow (McpError InvalidParams
               "Missing required parameter: query") ;;
  cardIds <- invokeAnkiConnect "findCards"
      (JObj [("query", arguments_.["query"])]) JUndefined ;;
  ret {| content := [ {| type := "text"; text := JSON_stringify cardIds 2 |} ];
         isError := None |}.

Definition handleCardsToNotes (arguments_ : JSValue) : M ToolResult :=
  If negb (truthy arguments_?.["cards"]) ||
     negb (Array_isArray arguments_.["cards"])
  ThenThrow (McpError InvalidParams
               "Missing required parameter: cards (array of card IDs)") ;;
  noteIds <- invokeAnkiConnect "cardsToNotes"
      (JObj [("cards", arguments_.["cards"])]) JUndefined ;;
  ret {| content := [ {| type := "text"; text := JSON_stringify noteIds 2 |} ];
         isError := None |}.

Definition handleCardsInfo (arguments_ : JSValue) : M ToolResult :=
  If negb (truthy arguments_?.["cards"]) ||
     negb (Array_isArray arguments_.["cards"])
  ThenThrow (McpError InvalidParams
               "Missing required parameter: cards (array of card IDs)") ;;
  cardsInfo <- invokeAnkiConnect "cardsInfo"
      (JObj [("cards", arguments_.["cards"])]) JUndefined ;;
  ret {| content := [ {| type := "text"; text := JSON_stringify cardsInfo 2 |} ];
         isError := None |}.

Definition handleForgetCards (arguments_ : JSValue) : M ToolResult :=
  If negb (truthy arguments_?.["cards"]) ||
     negb (Array_isArray arguments_.["cards"])
  ThenThrow (McpError InvalidParams
               "Missing required parameter: cards (array of card IDs)") ;;
  result <- invokeAnkiConnect "forgetCards"
      (JObj [("cards", arguments_.["cards"])]) JUndefined ;;
  text_ <- template
             [Lit "Forget cards: ";
              Sub (if truthy result then JStr "Success" else JStr "Failed")] ;;
  ret {| content := [ {| type := "text"; text := JStr text_ |} ];
         isError := None |}.

Definition handleAnswerCards (arguments_ : JSValue) : M ToolResult :=
  If negb (truthy arguments_?.["answers"]) ||
     negb (Array_isArray arguments_.["answers"])
  ThenThrow (McpError InvalidParams
               "Missing required parameter: answers (array of card answers)") ;;
  result <- invokeAnkiConnect "answerCards"
      (JObj [("answers", arguments_.["answers"])]) JUndefined ;;
  text_ <- template
             [Lit "Answer cards: ";
              Sub (if truthy result then JStr "Success" else JStr "Failed")] ;;
  ret {| content := [ {| type := "text"; text := JStr text_ |} ];
         isError := None |}.

Definition handleGetDeckNames : M ToolResult :=
  deckNames <- invokeAnkiConnect "deckNames" JUndefined JUndefined ;;
  ret {| content := [ {| type := "text"; text := JSON_stringify deckNames 2 |} ];
         isError := None |}.

Definition handleCreateDeck (arguments_ : JSValue) : M ToolResult :=
  If negb (truthy arguments_?.["deck"])
  ThenThrow (McpError InvalidParams
               "Missing required parameter: deck") ;;
  let deckName := arguments_.["deck"] in
  deckId <- invokeAnkiConnect "createDeck"
      (JObj [("deck", deckName)]) JUndefined ;;
  text_ <- template [Lit "Deck created with ID: "; Sub deckId] ;;
  ret {| content := [ {| type := "text"; text := JStr text_ |} ];
         isError := None |}.

Definition handleDeckNamesAndIds : M ToolResult :=
  decks <- invokeAnkiConnect "deckNamesAndIds" JUndefined JUndefined ;;
  ret {| content := [ {| type := "text"; text := JSON_stringify decks 2 |} ];
         isError := None |}.

Definition handleGetDecks (arguments_ : JSValue) : M ToolResult :=
  If negb (truthy arguments_?.["cards"]) ||
     negb (Array_isArray arguments_.["cards"])
  ThenThrow (McpError InvalidParams
               "Missing required parameter: cards (array of card IDs)") ;;
  decks <- invokeAnkiConnect "getDecks"
      (JObj [("cards", arguments_.["cards"])]) JUndefined ;;
  ret {| content := [ {| type := "text"; text := JSON_stringify decks 2 |} ];
         isError := None |}.

Definition handleChangeDeck (arguments_ : JSValue) : M ToolResult :=
  If negb (truthy arguments_?.["cards"]) ||
     negb (Array_isArray arguments_.["cards"])
  ThenThrow (McpError InvalidParams
               "Missing required parameter: cards (array of card IDs)") ;;
  If negb (truthy arguments_?.["deck"]) ||
     negb (typeof arguments_.["deck"] =? "string")
  ThenThrow (McpError InvalidParams
               "Missing required parameter: deck") ;;
  result <- invokeAnkiConnect "changeDeck"
      (JObj [("cards", arguments_.["cards"]);
            ("deck", arguments_.["deck"])]) JUndefined ;;
  text_ <- template
             [Lit "Change deck: ";
              Sub (if truthy result then JStr "Success" else JStr "Failed")] ;;
  ret {| content := [ {| type := "text"; text := JStr text_ |} ];
         isError := None |}.

Definition handleDeleteDecks (arguments_ : JSValue) : M ToolResult :=
  If negb (truthy arguments_?.["decks"]) ||
     negb (Array_isArray arguments_.["decks"])
  ThenThrow (McpError InvalidParams
               "Missing required parameter: decks (array of deck names)") ;;
  let params := JObj [("decks", arguments_.["decks"])] in
  let params :=
    if negb (strict_equal arguments_.["cardsToo"] JUndefined)
    then js_set params "cardsToo" arguments_.["cardsToo"]
    else params in
  result <- invokeAnkiConnect "deleteDecks" params JUndefined ;;
  text_ <- template
             [Lit "Delete decks: ";
              Sub (if truthy result then JStr "Success" else JStr "Failed")] ;;
  ret {| content := [ {| type := "text"; text := JStr text_ |} ];
         isError := None |}.

Definition handleAddNote (arguments_ : JSValue) : M ToolResult :=
  If negb (truthy arguments_?.["note"]) ||
     negb (typeof arguments_.["note"] =? "object")
  ThenThrow (McpError InvalidParams
               "Missing required parameter: note") ;;
  If negb (truthy arguments_.["note"].["deckName"]) ||
     negb (typeof arguments_.["note"].["deckName"] =? "string")
  ThenThrow (McpError InvalidParams
               "Missing required parameter: note.deckName") ;;
  If negb (truthy arguments_.["note"].["modelName"]) ||
     negb (typeof arguments_.["note"].["modelName"] =? "string")
  ThenThrow (McpError InvalidParams
               "Missing required parameter: note.modelName") ;;
  If negb (truthy arguments_.["note"].["fields"]) ||
     negb (typeof arguments_.["note"].["fields"] =? "object")
  ThenThrow (McpError InvalidParams
               "Missing required parameter: note.fields") ;;
  noteId <- invokeAnkiConnect "addNote"
      (JObj [("note", arguments_.["note"])]) JUndefined ;;
  text_ <- template [Lit "Note created with ID: "; Sub noteId] ;;
  ret {| content := [ {| type := "text"; text := JStr text_ |} ];
         isError := None |}.

Definition handleFindNotes (arguments_ : JSValue) : M ToolResult :=
  If negb (truthy arguments_?.["query"]) ||
     negb (typeof arguments_.["query"] =? "string")
  ThenThrow (McpError InvalidParams
               "Missing required parameter: query") ;;
  noteIds <- invokeAnkiConnect "findNotes"
      (JObj [("query", arguments_.["query"])]) JUndefined ;;
  ret {| content := [ {| type := "text"; text := JSON_stringify noteIds 2 |} ];
         isError := None |}.

Definition handleGetTags : M ToolResult :=
  tags <- invokeAnkiConnect "getTags" JUndefined JUndefined ;;
  ret {| content := [ {| type := "text"; text := JSON_stringify tags 2 |} ];
         isError := None |}.

Definition handleGetIntervals (arguments_ : JSValue) : M ToolResult :=
  If negb (truthy arguments_?.["cards"]) ||
     negb (Array_isArray arguments_.["cards"])
  ThenThrow (McpError InvalidParams
               "Missing required parameter: cards (array of card IDs)") ;;
  let params := JObj [("cards", arguments_.["cards"])] in
  let params :=
    if negb (strict_equal arguments_.["complete"] JUndefined)
    then js_set params "complete" arguments_.["complete"]
    else params in
  intervals <- invokeAnkiConnect "getIntervals" params JUndefined ;;
  ret {| content := [ {| type := "text"; text := JSON_stringify intervals 2 |} ];
         isError := None |}.

Definition handleCardsModTime (arguments_ : JSValue) : M ToolResult :=
  If negb (truthy arguments_?.["cards"]) ||
     negb (Array_isArray arguments_.["cards"])
  ThenThrow (McpError InvalidParams
               "Missing required parameter: cards (array of card IDs)") ;;
  modTimes <- invokeAnkiConnect "cardsModTime"
      (JObj [("cards", arguments_.["cards"])]) JUndefined ;;
  ret {| content := [ {| type := "text"; text := JSON_stringify modTimes 2 |} ];
         isError := None |}.

Definition handleRelearnCards (arguments_ : JSValue) : M ToolResult :=
  If negb (truthy arguments_?.["cards"]) ||
     negb (Array_isArray arguments_.["cards"])
  ThenThrow (McpError InvalidParams
               "Missing required parameter: cards (array of card IDs)") ;;
  result <- invokeAnkiConnect "relearnCards"
      (JObj [("cards", arguments_.["cards"])]) JUndefined ;;
  text_ <- template
             [Lit "Relearn cards: ";
              Sub (if truthy result then JStr "Success" else JStr "Failed")] ;;
  ret {| content := [ {| type := "text"; text := JStr text_ |} ];
         isError := None |}.

Definition handleSetDueDate (arguments_ : JSValue) : M ToolResult :=
  If negb (truthy arguments_?.["cards"]) ||
     negb (Array_isArray arguments_.["cards"])
  ThenThrow (McpError InvalidParams
               "Missing required parameter: cards (array of card IDs)") ;;
  If negb (truthy arguments_?.["days"])
  ThenThrow (McpError InvalidParams
               "Missing required parameter: days") ;;
  result <- invokeAnkiConnect "setDueDate"
      (JObj [("cards", arguments_.["cards"]);
            ("days", arguments_.["days"])]) JUndefined ;;
  text_ <- template
             [Lit "Set due date: ";
              Sub (if truthy result then JStr "Success" else JStr "Failed")] ;;
  ret {| content := [ {| type := "text"; text := JStr text_ |} ];
         isError := None |}.

Definition handleGetDeckConfig (arguments_ : JSValue) : M ToolResult :=
  If negb (truthy arguments_?.["deck"]) ||
     negb (typeof arguments_.["deck"] =? "string")
  ThenThrow (McpError InvalidParams
               "Missing required parameter: deck") ;;
  config <- invokeAnkiConnect "getDeckConfig"
      (JObj [("deck", arguments_.["deck"])]) JUndefined ;;
  ret {| content := [ {| type := "text"; text := JSON_stringify config 2 |} ];
         isError := None |}.

Definition handleSaveDeckConfig (arguments_ : JSValue) : M ToolResult :=
  If negb (truthy arguments_?.["config"]) ||
     negb (typeof arguments_.["config"] =? "object")
  ThenThrow (McpError InvalidParams
               "Missing required parameter: config") ;;
  result <- invokeAnkiConnect "saveDeckConfig"
      (JObj [("config", arguments_.["config"])]) JUndefined ;;
  text_ <- template
             [Lit "Save deck config: ";
              Sub (if truthy result then JStr "Success" else JStr "Failed")] ;;
  ret {| content := [ {| type := "text"; text := JStr text_ |} ];
         isError := None |}.

Definition handleSetDeckConfigId (arguments_ : JSValue) : M ToolResult :=
  If negb (truthy arguments_?.["decks"]) ||
     negb (Array_isArray arguments_.["decks"])
  ThenThrow (McpError InvalidParams
               "Missing required parameter: decks (array of deck names)") ;;
  If strict_equal arguments_.["configId"] JUndefined ||
     negb (typeof arguments_.["configId"] =? "number")
  ThenThrow (McpError InvalidParams
               "Missing required parameter: configId") ;;
  result <- invokeAnkiConnect "setDeckConfigId"
      (JObj [("decks", arguments_.["decks"]);
            ("configId", arguments_.["configId"])]) JUndefined ;;
  text_ <- template
             [Lit "Set deck config ID: ";
              Sub (if truthy result then JStr "Success" else JStr "Failed")] ;;
  ret {| content := [ {| type := "text"; text := JStr text_ |} ];
         isError := None |}.

Definition handleGetDeckStats (arguments_ : JSValue) : M ToolResult :=
  If negb (truthy arguments_?.["decks"]) ||
     negb (Array_isArray arguments_.["decks"])
  ThenThrow (McpError InvalidParams
               "Missing required parameter: decks (array of deck names)") ;;
  stats <- invokeAnkiConnect "getDeckStats"
      (JObj [("decks", arguments_.["decks"])]) JUndefined ;;
  ret {| content := [ {| type := "text"; text := JSON_stringify stats 2 |} ];
         isError := None |}.

Definition handleModelNames : M ToolResult :=
  modelNames <- invokeAnkiConnect "modelNames" JUndefined JUndefined ;;
  ret {| content := [ {| type := "text"; text := JSON_stringify modelNames 2 |} ];
         isError := None |}.

Definition handleModelNamesAndIds : M ToolResult :=
  models <- invokeAnkiConnect "modelNamesAndIds" JUndefined JUndefined ;;
  ret {| content := [ {| type := "text"; text := JSON_stringify models 2 |} ];
         isError := None |}.

Definition handleModelFieldNames (arguments_ : JSValue) : M ToolResult :=
  If negb (truthy arguments_?.["modelName"]) ||
     negb (typeof arguments_.["modelName"] =? "string")
  ThenThrow (McpError InvalidParams
               "Missing required parameter: modelName") ;;
  fieldNames <- invokeAnkiConnect "modelFieldNames"
      (JObj [("modelName", arguments_.["modelName"])]) JUndefined ;;
  ret {| content := [ {| type := "text"; text := JSON_stringify fieldNames 2 |} ];
         isError := None |}.

Definition handleModelFieldsOnTemplates (arguments_ : JSValue) : M ToolResult :=
  If negb (truthy arguments_?.["modelName"]) ||
     negb (typeof arguments_.["modelName"] =? "string")
  ThenThrow (McpError InvalidParams
               "Missing required parameter: modelName") ;;
  fieldsOnTemplates <- invokeAnkiConnect "modelFieldsOnTemplates"
      (JObj [("modelName", arguments_.["modelName"])]) JUndefined ;;
  ret {| content := [ {| type := "text"; text := JSON_stringify fieldsOnTemplates 2 |} ];
         isError := None |}.

Definition handleAddNotes (arguments_ : JSValue) : M ToolResult :=
  If negb (truthy arguments_?.["notes"]) ||
     negb (Array_isArray arguments_.["notes"])
  ThenThrow (McpError InvalidParams
               "Missing required parameter: notes (array of notes)") ;;
  noteIds <- invokeAnkiConnect "addNotes"
      (JObj [("notes", arguments_.["notes"])]) JUndefined ;;
  ret {| content := [ {| type := "text"; text := JSON_stringify noteIds 2 |} ];
         isError := None |}.

Definition handleUpdateNote (arguments_ : JSValue) : M ToolResult :=
  If negb (truthy arguments_?.["note"]) ||
     negb (typeof arguments_.["note"] =? "object")
  ThenThrow (McpError InvalidParams
               "Missing required parameter: note") ;;
  If negb (truthy arguments_.["note"].["id"]) ||
     negb (typeof arguments_.["note"].["id"] =? "number")
  ThenThrow (McpError InvalidParams
               "Missing required parameter: note.id") ;;
  result <- invokeAnkiConnect "updateNote"
      (JObj [("note", arguments_.["note"])]) JUndefined ;;
  text_ <- template
             [Lit "Update note: ";
              Sub (if truthy result then JStr "Success" else JStr "Failed")] ;;
  ret {| content := [ {| type := "text"; text := JStr text_ |} ];
         isError := None |}.

Definition handleNotesInfo (arguments_ : JSValue) : M ToolResult :=
  If negb (truthy arguments_?.["notes"]) ||
     negb (Array_isArray arguments_.["notes"])
  ThenThrow (McpError InvalidParams
               "Missing required parameter: notes (array of note IDs)") ;;
  notesInfo <- invokeAnkiConnect "notesInfo"
      (JObj [("notes", arguments_.["notes"])]) JUndefined ;;
  ret {| content := [ {| type := "text"; text := JSON_stringify notesInfo 2 |} ];
         isError := None |}.

Definition handleDeleteNotes (arguments_ : JSValue) : M ToolResult :=
  If negb (truthy arguments_?.["notes"]) ||
     negb (Array_isArray arguments_.["notes"])
  ThenThrow (McpError InvalidParams
               "Missing required parameter: notes (array of note IDs)") ;;
  result <- invokeAnkiConnect "deleteNotes"
      (JObj [("notes", arguments_.["notes"])]) JUndefined ;;
  text_ <- template
             [Lit "Delete notes: ";
              Sub (if truthy result then JStr "Success" else JStr "Failed")] ;;
  ret {| content := [ {| type := "text"; text := JStr text_ |} ];
         isError := None |}.

Definition handleSync : M ToolResult :=
  result <- invokeAnkiConnect "sync" JUndefined JUndefined ;;
  text_ <- template
             [Lit "Sync: ";
              Sub (if truthy result then JStr "Success" else JStr "Failed")] ;;
  ret {| content := [ {| type := "text"; text := JStr text_ |} ];
         isError := None |}.

Definition handleVersion : M ToolResult :=
  version <- invokeAnkiConnect "version" JUndefined JUndefined ;;
  text_ <- template [Lit "AnkiConnect API version: "; Sub version] ;;
  ret {| content := [ {| type := "text"; text := JStr text_ |} ];
         isError := None |}.

Definition handleUpdateNoteFields (arguments_ : JSValue) : M ToolResult :=
  If negb (truthy arguments_?.["note"]) ||
     negb (typeof arguments_.["note"] =? "object")
  ThenThrow (McpError InvalidParams
               "Missing required parameter: note") ;;
  If negb (truthy arguments_.["note"].["id"]) ||
     negb (typeof arguments_.["note"].["id"] =? "number")
  ThenThrow (McpError InvalidParams
               "Missing required parameter: note.id") ;;
  If negb (truthy arguments_.["note"].["fields"]) ||
     negb (typeof arguments_.["note"].["fields"] =? "object")
  ThenThrow (McpError InvalidParams
               "Missing required parameter: note.fields") ;;
  result <- invokeAnkiConnect "updateNoteFields"
      (JObj [("note", arguments_.["note"])]) JUndefined ;;
  text_ <- template
             [Lit "Update note fields: ";
              Sub (if truthy result then JStr "Success" else JStr "Failed")] ;;
  ret {| content := [ {| type := "text"; text := JStr text_ |} ];
         isError := None |}.

Definition handleUpdateNoteTags (arguments_ : JSValue) : M ToolResult :=
  If negb (truthy arguments_?.["note"]) ||
     negb (typeof arguments_.["note"] =? "number")
  ThenThrow (McpError InvalidParams
               "Missing required parameter: note (note ID)") ;;
  If negb (truthy arguments_?.["tags"]) ||
     negb (Array_isArray arguments_.["tags"])
  ThenThrow (McpError InvalidParams
               "Missing required parameter: tags (array of tags)") ;;
  result <- invokeAnkiConnect "updateNoteTags"
      (JObj [("note", arguments_.["note"]);
            ("tags", arguments_.["tags"])]) JUndefined ;;
  text_ <- template
             [Lit "Update note tags: ";
              Sub (if truthy result then JStr "Success" else JStr "Failed")] ;;
  ret {| content := [ {| type := "text"; text := JStr text_ |} ];
         isError := None |}.

Definition handleGetNoteTags (arguments_ : JSValue) : M ToolResult :=
  If negb (truthy arguments_?.["note"]) ||
     negb (typeof arguments_.["note"] =? "number")
  ThenThrow (McpError InvalidParams
               "Missing required parameter: note (note ID)") ;;
  tags <- invokeAnkiConnect "getNoteTags"
      (JObj [("note", arguments_.["note"])]) JUndefined ;;
  ret {| content := [ {| type := "text"; text := JSON_stringify tags 2 |} ];
         isError := None |}.

Definition handleAddTags (arguments_ : JSValue) : M ToolResult :=
  If negb (truthy arguments_?.["notes"]) ||
     negb (Array_isArray arguments_.["notes"])
  ThenThrow (McpError InvalidParams
               "Missing required parameter: notes (array of note IDs)") ;;
  If negb (truthy arguments_?.["tags"]) ||
     negb (typeof arguments_.["tags"] =? "string")
  ThenThrow (McpError InvalidParams
               "Missing required parameter: tags (space-separated list of tags)") ;;
  result <- invokeAnkiConnect "addTags"
      (JObj [("notes", arguments_.["notes"]);
            ("tags", arguments_.["tags"])]) JUndefined ;;
  text_ <- template
             [Lit "Add tags: ";
              Sub (if truthy result then JStr "Success" else JStr "Failed")] ;;
  ret {| content := [ {| type := "text"; text := JStr text_ |} ];
         isError := None |}.

Definition handleRemoveTags (arguments_ : JSValue) : M ToolResult :=
  If negb (truthy arguments_?.["notes"]) ||
     negb (Array_isArray arguments_.["notes"])
  ThenThrow (McpError InvalidParams
               "Missing required parameter: notes (array of note IDs)") ;;
  If negb (truthy arguments_?.["tags"]) ||
     negb (typeof arguments_.["tags"] =? "string")
  ThenThrow (McpError InvalidParams
               "Missing required parameter: tags (space-separated list of tags)") ;;
  result <- invokeAnkiConnect "removeTags"
      (JObj [("notes", arguments_.["notes"]);
            ("tags", arguments_.["tags"])]) JUndefined ;;
  text_ <- template
             [Lit "Remove tags: ";
              Sub (if truthy result then JStr "Success" else JStr "Failed")] ;;
  ret {| content := [ {| type := "text"; text := JStr text_ |} ];
         isError := None |}.

Definition handleClearUnusedTags : M ToolResult :=
  result <- invokeAnkiConnect "clearUnusedTags" JUndefined JUndefined ;;
  text_ <- template
             [Lit "Clear unused tags: ";
              Sub (if truthy result then JStr "Success" else JStr "Failed")] ;;
  ret {| content := [ {| type := "text"; text := JStr text_ |} ];
         isError := None |}.

Definition handleStoreMediaFile (arguments_ : JSValue) : M ToolResult :=
  If negb (truthy arguments_?.["filename"]) ||
     negb (typeof arguments_.["filename"] =? "string")
  ThenThrow (McpError InvalidParams
               "Missing required parameter: filename") ;;
  If negb (truthy arguments_?.["data"]) ||
     negb (typeof arguments_.["data"] =? "string")
  ThenThrow (McpError InvalidParams
               "Missing required parameter: data (base64-encoded file content)") ;;
  result <- invokeAnkiConnect "storeMediaFile"
      (JObj [("filename", arguments_.["filename"]);
            ("data", arguments_.["data"])]) JUndefined ;;
  text_ <- template
             [Lit "Store media file: ";
              Sub (if truthy result then JStr "Success" else JStr "Failed")] ;;
  ret {| content := [ {| type := "text"; text := JStr text_ |} ];
         isError := None |}.

Definition handleRetrieveMediaFile (arguments_ : JSValue) : M ToolResult :=
  If negb (truthy arguments_?.["filename"]) ||
     negb (typeof arguments_.["filename"] =? "string")
  ThenThrow (McpError InvalidParams
               "Missing required parameter: filename") ;;
  data <- invokeAnkiConnect "retrieveMediaFile"
      (JObj [("filename", arguments_.["filename"])]) JUndefined ;;
  if strict_equal data (JBool false)
  then ret {| content := [ {| type := "text"; text := (JStr "File not found") |} ];
         isError := None |}
  else
  ret {| content := [ {| type := "text"; text := data |} ];
         isError := None |}.

Definition handleGetMediaFilesNames (arguments_ : JSValue) : M ToolResult :=
  let params := JObj [] in
  let params :=
    if truthy arguments_?.["pattern"]
    then js_set params "pattern" arguments_.["pattern"]
    else params in
  filenames <- invokeAnkiConnect "getMediaFilesNames" params JUndefined ;;
  ret {| content := [ {| type := "text"; text := JSON_stringify filenames 2 |} ];
         isError := None |}.

Definition handleGetMediaDirPath : M ToolResult :=
  path <- invokeAnkiConnect "getMediaDirPath" JUndefined JUndefined ;;
  ret {| content := [ {| type := "text"; text := path |} ];
         isError := None |}.

Definition handleDeleteMediaFile (arguments_ : JSValue) : M ToolResult :=
  If negb (truthy arguments_?.["filename"]) ||
     negb (typeof arguments_.["filename"] =? "string")
  ThenThrow (McpError InvalidParams
               "Missing required parameter: filename") ;;
  result <- invokeAnkiConnect "deleteMediaFile"
      (JObj [("filename", arguments_.["filename"])]) JUndefined ;;
  text_ <- template
             [Lit "Delete media file: ";
              Sub (if truthy result then JStr "Success" else JStr "Failed")] ;;
  ret {| content := [ {| type := "text"; text := JStr text_ |} ];
         isError := None |}.

Definition handleGuiBrowse (arguments_ : JSValue) : M ToolResult :=
  If negb (truthy arguments_?.["query"]) ||
     negb (typeof arguments_.["query"] =? "string")
  ThenThrow (McpError InvalidParams
               "Missing required parameter: query") ;;
  let params := JObj [("query", arguments_.["query"])] in
  let params :=
    if truthy arguments_?.["reorderCards"]
    then js_set params "reorderCards" arguments_.["reorderCards"]
    else params in
  cardIds <- invokeAnkiConnect "guiBrowse" params JUndefined ;;
  ret {| content := [ {| type := "text"; text := JSON_stringify cardIds 2 |} ];
         isError := None |}.

Definition handleGuiAddCards (arguments_ : JSValue) : M ToolResult :=
  If negb (truthy arguments_?.["note"]) ||
     negb (typeof arguments_.["note"] =? "object")
  ThenThrow (McpError InvalidParams
               "Missing required parameter: note") ;;
  If negb (truthy arguments_.["note"].["deckName"]) ||
     negb (typeof arguments_.["note"].["deckName"] =? "string")
  ThenThrow (McpError InvalidParams
               "Missing required parameter: note.deckName") ;;
  If negb (truthy arguments_.["note"].["modelName"]) ||
     negb (typeof arguments_.["note"].["modelName"] =? "string")
  ThenThrow (McpError InvalidParams
               "Missing required parameter: note.modelName") ;;
  If negb (truthy arguments_.["note"].["fields"]) ||
     negb (typeof arguments_.["note"].["fields"] =? "object")
  ThenThrow (McpError InvalidParams
               "Missing required parameter: note.fields") ;;
  result <- invokeAnkiConnect "guiAddCards"
      (JObj [("note", arguments_.["note"])]) JUndefined ;;
  ret {| content := [ {| type := "text"; text := JSON_stringify result 2 |} ];
         isError := None |}.

Definition handleGuiDeckReview (arguments_ : JSValue) : M ToolResult :=
  If negb (truthy arguments_?.["name"]) ||
     negb (typeof arguments_.["name"] =? "string")
  ThenThrow (McpError InvalidParams
               "Missing required parameter: name (deck name)") ;;
  result <- invokeAnkiConnect "guiDeckReview"
      (JObj [("name", arguments_.["name"])]) JUndefined ;;
  text_ <- template
             [Lit "Start deck review: ";
              Sub (if truthy result then JStr "Success" else JStr "Failed")] ;;
  ret {| content := [ {| type := "text"; text := JStr text_ |} ];
         isError := None |}.

Definition handleExportPackage (arguments_ : JSValue) : M ToolResult :=
  If negb (truthy arguments_?.["deck"]) ||
     negb (typeof arguments_.["deck"] =? "string")
  ThenThrow (McpError InvalidParams
               "Missing required parameter: deck") ;;
  If negb (truthy arguments_?.["path"]) ||
     negb (typeof arguments_.["path"] =? "string")
  ThenThrow (McpError InvalidParams
               "Missing required parameter: path") ;;
  let params := JObj [("deck", arguments_.["deck"]); ("path", arguments_.["path"])] in
  let params :=
    if negb (strict_equal arguments_?.["includeSched"] JUndefined)
    then js_set params "includeSched" arguments_.["includeSched"]
    else params in
  result <- invokeAnkiConnect "exportPackage" params JUndefined ;;
  text_ <- template
             [Lit "Export package: ";
              Sub (if truthy result then JStr "Success" else JStr "Failed")] ;;
  ret {| content := [ {| type := "text"; text := JStr text_ |} ];
         isError := None |}.

Definition handleImportPackage (arguments_ : JSValue) : M ToolResult :=
  If negb (truthy arguments_?.["path"]) ||
     negb (typeof arguments_.["path"] =? "string")
  ThenThrow (McpError InvalidParams
               "Missing required parameter: path") ;;
  result <- invokeAnkiConnect "importPackage"
      (JObj [("path", arguments_.["path"])]) JUndefined ;;
  text_ <- template
             [Lit "Import package: ";
              Sub (if truthy result then JStr "Success" else JStr "Failed")] ;;
  ret {| content := [ {| type := "text"; text := JStr text_ |} ];
         isError := None |}.

(** [getTools()]: the catalogue, in the order of the source. *)
Definition getTools : list Tool :=
  [ GET_EASE_FACTORS_TOOL;
    SET_EASE_FACTORS_TOOL;
    SET_SPECIFIC_VALUE_OF_CARD_TOOL;
    SUSPEND_TOOL;
    UNSUSPEND_TOOL;
    SUSPENDED_TOOL;
    ARE_SUSPENDED_TOOL;
    ARE_DUE_TOOL;
    GET_INTERVALS_TOOL;
    FIND_CARDS_TOOL;
    CARDS_TO_NOTES_TOOL;
    CARDS_MOD_TIME_TOOL;
    CARDS_INFO_TOOL;
    FORGET_CARDS_TOOL;
    RELEARN_CARDS_TOOL;
    ANSWER_CARDS_TOOL;
    SET_DUE_DATE_TOOL;
    GET_DECK_NAMES_TOOL;
    CREATE_DECK_TOOL;
    DECK_NAMES_AND_IDS_TOOL;
    GET_DECKS_TOOL;
    CHANGE_DECK_TOOL;
    DELETE_DECKS_TOOL;
    GET_DECK_CONFIG_TOOL;
    SAVE_DECK_CONFIG_TOOL;
    SET_DECK_CONFIG_ID_TOOL;
    CLONE_DECK_CONFIG_ID_TOOL;
    REMOVE_DECK_CONFIG_ID_TOOL;
    GET_DECK_STATS_TOOL;
    MODEL_NAMES_TOOL;
    MODEL_NAMES_AND_IDS_TOOL;
    FIND_MODELS_BY_ID_TOOL;
    FIND_MODELS_BY_NAME_TOOL;
    MODEL_FIELD_NAMES_TOOL;
    MODEL_FIELD_DESCRIPTIONS_TOOL;
    MODEL_FIELD_FONTS_TOOL;
    MODEL_FIELDS_ON_TEMPLATES_TOOL;
    MODEL_TEMPLATES_TOOL;
    MODEL_STYLING_TOOL;
    UPDATE_MODEL_TEMPLATES_TOOL;
    UPDATE_MODEL_STYLING_TOOL;
    FIND_AND_REPLACE_IN_MODELS_TOOL;
    MODEL_TEMPLATE_RENAME_TOOL;
    MODEL_TEMPLATE_REPOSITION_TOOL;
    MODEL_TEMPLATE_ADD_TOOL;
    MODEL_TEMPLATE_REMOVE_TOOL;
    MODEL_FIELD_RENAME_TOOL;
    MODEL_FIELD_REPOSITION_TOOL;
    MODEL_FIELD_ADD_TOOL;
    MODEL_FIELD_REMOVE_TOOL;
    MODEL_FIELD_SET_FONT_TOOL;
    MODEL_FIELD_SET_FONT_SIZE_TOOL;
    MODEL_FIELD_SET_DESCRIPTION_TOOL;
    CREATE_MODEL_TOOL;
    ADD_NOTE_TOOL;
    ADD_NOTES_TOOL;
    CAN_ADD_NOTES_TOOL;
    CAN_ADD_NOTES_WITH_ERROR_DETAIL_TOOL;
    FIND_NOTES_TOOL;
    NOTES_INFO_TOOL;
    NOTES_MOD_TIME_TOOL;
    UPDATE_NOTE_FIELDS_TOOL;
    UPDATE_NOTE_TOOL;
    UPDATE_NOTE_MODEL_TOOL;
    DELETE_NOTES_TOOL;
    REMOVE_EMPTY_NOTES_TOOL;
    GET_TAGS_TOOL;
    UPDATE_NOTE_TAGS_TOOL;
    GET_NOTE_TAGS_TOOL;
    ADD_TAGS_TOOL;
    REMOVE_TAGS_TOOL;
    CLEAR_UNUSED_TAGS_TOOL;
    REPLACE_TAGS_TOOL;
    REPLACE_TAGS_IN_ALL_NOTES_TOOL;
    STORE_MEDIA_FILE_TOOL;
    RETRIEVE_MEDIA_FILE_TOOL;
    GET_MEDIA_FILES_NAMES_TOOL;
    GET_MEDIA_DIR_PATH_TOOL;
    DELETE_MEDIA_FILE_TOOL;
    GUI_BROWSE_TOOL;
    GUI_SELECT_CARD_TOOL;
    GUI_SELECTED_NOTES_TOOL;
    GUI_ADD_CARDS_TOOL;
    GUI_EDIT_NOTE_TOOL;
    GUI_CURRENT_CARD_TOOL;
    GUI_START_CARD_TIMER_TOOL;
    GUI_SHOW_QUESTION_TOOL;
    GUI_SHOW_ANSWER_TOOL;
    GUI_ANSWER_CARD_TOOL;
    GUI_UNDO_TOOL;
    GUI_DECK_BROWSER_TOOL;
    GUI_DECK_OVERVIEW_TOOL;
    GUI_DECK_REVIEW_TOOL;
    GUI_IMPORT_FILE_TOOL;
    GUI_EXIT_ANKI_TOOL;
    GUI_CHECK_DATABASE_TOOL;
    GET_NUM_CARDS_REVIEWED_TODAY_TOOL;
    GET_NUM_CARDS_REVIEWED_BY_DAY_TOOL;
    GET_COLLECTION_STATS_HTML_TOOL;
    CARD_REVIEWS_TOOL;
    GET_REVIEWS_OF_CARDS_TOOL;
    GET_LATEST_REVIEW_ID_TOOL;
    INSERT_REVIEWS_TOOL;
    REQUEST_PERMISSION_TOOL;
    VERSION_TOOL;
    API_REFLECT_TOOL;
    SYNC_TOOL;
    GET_PROFILES_TOOL;
    GET_ACTIVE_PROFILE_TOOL;
    LOAD_PROFILE_TOOL;
    MULTI_TOOL;
    EXPORT_PACKAGE_TOOL;
    IMPORT_PACKAGE_TOOL;
    RELOAD_COLLECTION_TOOL ].

(** The [case] labels of the [switch] of [handleToolCall] with the call
    each one returns, in the order of the source. *)
Definition cases : list (string * (JSValue -> M ToolResult)) :=
  [ ("getEaseFactors", fun arguments_ => handleGetEaseFactors arguments_);
    ("setEaseFactors", fun arguments_ => handleSetEaseFactors arguments_);
    ("setSpecificValueOfCard", fun arguments_ => handleSetSpecificValueOfCard arguments_);
    ("suspend", fun arguments_ => handleSuspend arguments_);
    ("unsuspend", fun arguments_ => handleUnsuspend arguments_);
    ("suspended", fun arguments_ => handleSuspended arguments_);
    ("areSuspended", fun arguments_ => handleAreSuspended arguments_);
    ("areDue", fun arguments_ => handleAreDue arguments_);
    ("getIntervals", fun arguments_ => handleGetIntervals arguments_);
    ("findCards", fun arguments_ => handleFindCards arguments_);
    ("cardsToNotes", fun arguments_ => handleCardsToNotes arguments_);
    ("cardsModTime", fun arguments_ => handleCardsModTime arguments_);
    ("cardsInfo", fun arguments_ => handleCardsInfo arguments_);
    ("forgetCards", fun arguments_ => handleForgetCards arguments_);
    ("relearnCards", fun arguments_ => handleRelearnCards arguments_);
    ("answerCards", fun arguments_ => handleAnswerCards arguments_);
    ("setDueDate", fun arguments_ => handleSetDueDate arguments_);
    ("getDeckNames", fun arguments_ => handleGetDeckNames);
    ("createDeck", fun arguments_ => handleCreateDeck arguments_);
    ("deckNamesAndIds", fun arguments_ => handleDeckNamesAndIds);
    ("getDecks", fun arguments_ => handleGetDecks arguments_);
    ("changeDeck", fun arguments_ => handleChangeDeck arguments_);
    ("deleteDecks", fun arguments_ => handleDeleteDecks arguments_);
    ("getDeckConfig", fun arguments_ => handleGetDeckConfig arguments_);
    ("saveDeckConfig", fun arguments_ => handleSaveDeckConfig arguments_);
    ("setDeckConfigId", fun arguments_ => handleSetDeckConfigId arguments_);
    ("cloneDeckConfigId", fun arguments_ => handleCloneDeckConfigId arguments_);
    ("removeDeckConfigId", fun arguments_ => handleRemoveDeckConfigId arguments_);
    ("getDeckStats", fun arguments_ => handleGetDeckStats arguments_);
    ("modelNames", fun arguments_ => handleModelNames);
    ("modelNamesAndIds", fun arguments_ => handleModelNamesAndIds);
    ("findModelsById", fun arguments_ => handleFindModelsById arguments_);
    ("findModelsByName", fun arguments_ => handleFindModelsByName arguments_);
    ("modelFieldNames", fun arguments_ => handleModelFieldNames arguments_);
    ("modelFieldDescriptions", fun arguments_ => handleModelFieldDescriptions arguments_);
    ("modelFieldFonts", fun arguments_ => handleModelFieldFonts arguments_);
    ("modelFieldsOnTemplates", fun arguments_ => handleModelFieldsOnTemplates arguments_);
    ("modelTemplates", fun arguments_ => handleModelTemplates arguments_);
    ("modelStyling", fun arguments_ => handleModelStyling arguments_);
    ("updateModelTemplates", fun arguments_ => handleUpdateModelTemplates arguments_);
    ("updateModelStyling", fun arguments_ => handleUpdateModelStyling arguments_);
    ("findAndReplaceInModels", fun arguments_ => handleFindAndReplaceInModels arguments_);
    ("modelTemplateRename", fun arguments_ => handleModelTemplateRename arguments_);
    ("modelTemplateReposition", fun arguments_ => handleModelTemplateReposition arguments_);
    ("modelTemplateAdd", fun arguments_ => handleModelTemplateAdd arguments_);
    ("modelTemplateRemove", fun arguments_ => handleModelTemplateRemove arguments_);
    ("modelFieldRename", fun arguments_ => handleModelFieldRename arguments_);
    ("modelFieldReposition", fun arguments_ => handleModelFieldReposition arguments_);
    ("modelFieldAdd", fun arguments_ => handleModelFieldAdd arguments_);
    ("modelFieldRemove", fun arguments_ => handleModelFieldRemove arguments_);
    ("modelFieldSetFont", fun arguments_ => handleModelFieldSetFont arguments_);
    ("modelFieldSetFontSize", fun arguments_ => handleModelFieldSetFontSize arguments_);
    ("modelFieldSetDescription", fun arguments_ => handleModelFieldSetDescription arguments_);
    ("createModel", fun arguments_ => handleCreateModel arguments_);
    ("addNote", fun arguments_ => handleAddNote arguments_);
    ("addNotes", fun arguments_ => handleAddNotes arguments_);
    ("canAddNotes", fun arguments_ => handleCanAddNotes arguments_);
    ("canAddNotesWithErrorDetail", fun arguments_ => handleCanAddNotesWithErrorDetail arguments_);
    ("findNotes", fun arguments_ => handleFindNotes arguments_);
    ("notesInfo", fun arguments_ => handleNotesInfo arguments_);
    ("notesModTime", fun arguments_ => handleNotesModTime arguments_);
    ("updateNoteFields", fun arguments_ => handleUpdateNoteFields arguments_);
    ("updateNote", fun arguments_ => handleUpdateNote arguments_);
    ("updateNoteModel", fun arguments_ => handleUpdateNoteModel arguments_);
    ("deleteNotes", fun arguments_ => handleDeleteNotes arguments_);
    ("removeEmptyNotes", fun arguments_ => handleRemoveEmptyNotes);
    ("getTags", fun arguments_ => handleGetTags);
    ("updateNoteTags", fun arguments_ => handleUpdateNoteTags arguments_);
    ("getNoteTags", fun arguments_ => handleGetNoteTags arguments_);
    ("addTags", fun arguments_ => handleAddTags arguments_);
    ("removeTags", fun arguments_ => handleRemoveTags arguments_);
    ("clearUnusedTags", fun arguments_ => handleClearUnusedTags);
    ("replaceTags", fun arguments_ => handleReplaceTags arguments_);
    ("replaceTagsInAllNotes", fun arguments_ => handleReplaceTagsInAllNotes arguments_);
    ("storeMediaFile", fun arguments_ => handleStoreMediaFile arguments_);
    ("retrieveMediaFile", fun arguments_ => handleRetrieveMediaFile arguments_);
    ("getMediaFilesNames", fun arguments_ => handleGetMediaFilesNames arguments_);
    ("getMediaDirPath", fun arguments_ => handleGetMediaDirPath);
    ("deleteMediaFile", fun arguments_ => handleDeleteMediaFile arguments_);
    ("guiBrowse", fun arguments_ => handleGuiBrowse arguments_);
    ("guiSelectCard", fun arguments_ => handleGuiSelectCard arguments_);
    ("guiSelectedNotes", fun arguments_ => handleGuiSelectedNotes);
    ("guiAddCards", fun arguments_ => handleGuiAddCards arguments_);
    ("guiEditNote", fun arguments_ => handleGuiEditNote arguments_);
    ("guiCurrentCard", fun arguments_ => handleGuiCurrentCard);
    ("guiStartCardTimer", fun arguments_ => handleGuiStartCardTimer);
    ("guiShowQuestion", fun arguments_ => handleGuiShowQuestion);
    ("guiShowAnswer", fun arguments_ => handleGuiShowAnswer);
    ("guiAnswerCard", fun arguments_ => handleGuiAnswerCard arguments_);
    ("guiUndo", fun arguments_ => handleGuiUndo);
    ("guiDeckBrowser", fun arguments_ => handleGuiDeckBrowser);
    ("guiDeckOverview", fun arguments_ => handleGuiDeckOverview arguments_);
    ("guiDeckReview", fun arguments_ => handleGuiDeckReview arguments_);
    ("guiImportFile", fun arguments_ => handleGuiImportFile arguments_);
    ("guiExitAnki", fun arguments_ => handleGuiExitAnki);
    ("guiCheckDatabase", fun arguments_ => handleGuiCheckDatabase);
    ("getNumCardsReviewedToday", fun arguments_ => handleGetNumCardsReviewedToday);
    ("getNumCardsReviewedByDay", fun arguments_ => handleGetNumCardsReviewedByDay);
    ("getCollectionStatsHTML", fun arguments_ => handleGetCollectionStatsHTML arguments_);
    ("cardReviews", fun arguments_ => handleCardReviews arguments_);
    ("getReviewsOfCards", fun arguments_ => handleGetReviewsOfCards arguments_);
    ("getLatestReviewID", fun arguments_ => handleGetLatestReviewID arguments_);
    ("insertReviews", fun arguments_ => handleInsertReviews arguments_);
    ("requestPermission", fun arguments_ => handleRequestPermission);
    ("version", fun arguments_ => handleVersion);
    ("apiReflect", fun arguments_ => handleApiReflect arguments_);
    ("sync", fun arguments_ => handleSync);
    ("getProfiles", fun arguments_ => handleGetProfiles);
    ("getActiveProfile", fun arguments_ => handleGetActiveProfile);
    ("loadProfile", fun arguments_ => handleLoadProfile arguments_);
    ("multi", fun arguments_ => handleMulti arguments_);
    ("exportPackage", fun arguments_ => handleExportPackage arguments_);
    ("importPackage", fun arguments_ => handleImportPackage arguments_);
    ("reloadCollection", fun arguments_ => handleReloadCollection) ].

(** ** Dispatch *)

(** A [switch] over strings whose every [case] returns: the first label
    strictly equal to the scrutinee selects the call; [None] is the
    [default] branch. *)
Fixpoint switch_case {A : Type} (scrutinee : string) (cs : list (string * A))
  : option A :=
  match cs with
  | [] => None
  | (label, call) :: cs' =>
      if scrutinee =? label then Some call else switch_case scrutinee cs'
  end.

Definition handleToolCall (toolName : string) (arguments_ : JSValue)
  : M ToolResult :=
  match switch_case toolName cases with
  | Some call => call arguments_
  | None =>
      text_ <- template [Lit "Tool not found: "; Sub (JStr toolName)] ;;
      throw (McpError ToolNotFound text_)
  end.

(** ** The boundary: the request handlers of [index.js] *)

(** The handler registered for [ListToolsRequestSchema]; it answers
    [{tools: getTools()}]. *)
Definition listTools : M (list Tool) :=
  ret getTools.

(** The handler registered for [CallToolRequestSchema], applied to
    [request.params.name] and [request.params.arguments]. *)
Definition callTool (name_ : string) (arguments_ : JSValue) : M ToolResult :=
  try_catch
    (handleToolCall name_ arguments_)
    (fun error =>
       if instanceof_McpError error then throw error
       else
         text_ <- template [Lit "Error: "; Sub (JStr (error_message error))] ;;
         ret {| content := [ {| type := "text"; text := JStr text_ |} ];
                isError := Some true |}).

(** ** Vocabulary of the specification *)

(** The request the invoker is to send for [{action, params, version}]:
    one POST to the fixed endpoint carrying the serialized triple. *)
Definition request_of (action : string) (params version : JSValue) : HttpRequest :=
  {| url := "http://127.0.0.1:8765";
     method := "POST";
     headers := [("Content-Type", "application/json")];
     body := JSON_stringify
               (JObj [("action", JStr action);
                      ("params", params);
                      ("version", version)]) 0 |}.

(** The response envelope [{error, result}]: a decoded object holding both
    keys (and no property shadowing the inherited [hasOwnProperty]). *)
Definition is_envelope (data error result : JSValue) : Prop :=
  exists ps,
    data = JObj ps /\
    own_property ps "error" = Some error /\
    own_property ps "result" = Some result /\
    own_property ps "hasOwnProperty" = None.

(** The endpoint answers every request with a success status and the
    envelope [{error, result}]. *)
Definition replies_with (ep : Endpoint) (error result : JSValue) : Prop :=
  forall request,
    exists response data,
      ep request = Resolved response /\
      ok response = true /\
      payload response = BodyJson data /\
      is_envelope data error result.

(** Every body the endpoint has decoded is a JSON value. *)
Definition decodes_json (ep : Endpoint) : Prop :=
  forall request response data,
    ep request = Resolved response ->
    payload response = BodyJson data ->
    is_json data = true.

(** What the invoker makes of a decoded body, and of an exchange. *)
Definition unwrap (data : JSValue) : Outcome JSValue :=
  match data with
  | JUndefined | JNull =>
      Throw (TypeError "Cannot read properties of null (reading 'hasOwnProperty')")
  | _ =>
      if has_own_property data "hasOwnProperty"
      then Throw (TypeError "data.hasOwnProperty is not a function")
      else if negb (has_own_property data "error")
      then Throw (Error "Response is missing required error field")
      else if negb (has_own_property data "result")
      then Throw (Error "Response is missing required result field")
      else if truthy data.["error"]
      then match ToString data.["error"] with
           | Some s => Throw (Error s)
           | None => Throw (TypeError "Cannot convert object to primitive value")
           end
      else Return data.["result"]
  end.

Definition settle (o : FetchOutcome) : Outcome JSValue :=
  match o with
  | Rejected reason => Throw (FetchError reason)
  | Resolved response =>
      if negb (ok response)
      then Throw (Error ("HTTP error! Status: " ++ Number_toString (status response)))
      else match payload response with
           | BodyJson data => unwrap data
           | BodyInvalid reason => Throw (SyntaxError reason)
           end
  end.

(** The registry: each descriptor of the catalogue with the call its
    [case] makes. *)
Definition registry : list (Tool * (JSValue -> M ToolResult)) :=
  combine getTools (map snd cases).

Definition registered_names : list string := map name getTools.

(** The fields a schema names and those it requires. *)
Definition property_names (s : Schema) : list string :=
  match s with
  | SObject (Some props) _ => map fst props
  | _ => []
  end.

Definition required_names (s : Schema) : list string :=
  match s with
  | SObject _ (Some req) => req
  | _ => []
  end.

Fixpoint schema_of (props : list (string * Schema)) (k : string) : option Schema :=
  match props with
  | [] => None
  | (k', s) :: props' => if k' =? k then Some s else schema_of props' k
  end.

Definition field_schema (s : Schema) (k : string) : option Schema :=
  match s with
  | SObject (Some props) _ => schema_of props k
  | _ => None
  end.

Definition mem (k : string) (l : list string) : bool :=
  existsb (fun k' => k' =? k) l.

Definition within (n : nat) (lo hi : option nat) : bool :=
  match lo with Some m => (m <=? n)%nat | None => true end &&
  match hi with Some m => (n <=? m)%nat | None => true end.

(** Validity of a value against a schema: its type, the items of an array
    and their number, the declared properties that are present and the
    presence of the required ones. *)
Fixpoint conforms (s : Schema) (v : JSValue) {struct s} : bool :=
  match s with
  | SString => typeof v =? "string"
  | SNumber => typeof v =? "number"
  | SBoolean => typeof v =? "boolean"
  | SArray items lo hi =>
      match v with
      | JArr xs => forallb (conforms items) xs && within (List.length xs) lo hi
      | _ => false
      end
  | SObject props req =>
      match v with
      | JObj ps =>
          match props with
          | None => true
          | Some l =>
              (fix each (l : list (string * Schema)) : bool :=
                 match l with
                 | [] => true
                 | (k, sk) :: l' =>
                     match own_property ps k with
                     | Some x => conforms sk x
                     | None => true
                     end && each l'
                 end) l
          end &&
          match req with
          | None => true
          | Some ks => forallb (has_own_property v) ks
          end
      | _ => false
      end
  end.

(** A value that is truthy and valid for its schema, and whose required
    members, where the schema is an object's, are so in turn: a field
    that is present, of the declared type and not a falsy value. *)
Fixpoint provided (s : Schema) (v : JSValue) {struct s} : bool :=
  truthy v && conforms s v &&
  match s, v with
  | SObject (Some props) (Some req), JObj ps =>
      (fix each (l : list (string * Schema)) : bool :=
         match l with
         | [] => true
         | (k, sk) :: l' =>
             (if mem k req
              then match own_property ps k with
                   | Some x => provided sk x
                   | None => false
                   end
              else true) && each l'
         end) props
  | _, _ => true
  end.

(** The field [k] of the arguments is provided as the schema of the tool
    declares it. *)
Definition field_provided (s : Schema) (arguments_ : JSValue) (k : string) : bool :=
  match field_schema s k with
  | Some sk => provided sk arguments_.[k]
  | None => false
  end.

(** The checks of a handler that concern the shape of a value rather than
    its presence: the two length comparisons, the 9-tuples of
    [insertReviews] and the range of [ease]. *)
Definition shape_messages : list string :=
  [ "Cards and easeFactors arrays must have the same length";
    "Keys and newValues arrays must have the same length";
    "Each review must be a tuple with 9 values";
    "Missing or invalid required parameter: ease (1-4)" ].

(** The actions with paired arrays: the tool, the two fields and the
    message of its length comparison. *)
Definition paired_arrays : list (string * (string * string) * string) :=
  [ ("setEaseFactors", ("cards", "easeFactors"),
     "Cards and easeFactors arrays must have the same length");
    ("setSpecificValueOfCard", ("keys", "newValues"),
     "Keys and newValues arrays must have the same length") ].

(** The tools whose text is the pretty-printed JSON of the result. *)
Definition json_rendered (toolName : string) : bool :=
  mem toolName
    [ "getEaseFactors"; "areSuspended"; "areDue"; "getIntervals"; "findCards";
      "cardsToNotes"; "cardsModTime"; "cardsInfo"; "getDeckNames";
      "deckNamesAndIds"; "getDecks"; "getDeckConfig"; "getDeckStats";
      "modelNames"; "modelNamesAndIds"; "findModelsById"; "findModelsByName";
      "modelFieldNames"; "modelFieldDescriptions"; "modelFieldFonts";
      "modelFieldsOnTemplates"; "modelTemplates"; "modelStyling"; "addNotes";
      "canAddNotes"; "canAddNotesWithErrorDetail"; "findNotes"; "notesInfo";
      "notesModTime"; "getTags"; "getNoteTags"; "getMediaFilesNames";
      "guiBrowse"; "guiSelectedNotes"; "guiAddCards"; "guiCurrentCard";
      "getNumCardsReviewedByDay"; "cardReviews"; "getReviewsOfCards";
      "apiReflect"; "getProfiles"; "multi" ].

(** The tools whose text is the remote result itself. *)
Definition raw_text (toolName : string) : bool :=
  mem toolName [ "getCollectionStatsHTML"; "retrieveMediaFile"; "getMediaDirPath" ].

(** The optional fields a handler copies under a truthiness test; the
    other optional fields are copied when they are not [undefined]. *)
Definition truthy_gated (toolName field : string) : bool :=
  existsb (fun p => (fst p =? toolName) && (snd p =? field))
    [ ("apiReflect", "scopes"); ("apiReflect", "actions");
      ("guiImportFile", "path"); ("createModel", "css");
      ("getMediaFilesNames", "pattern"); ("guiBrowse", "reorderCards") ].

(** Whether the handler of [t] forwards the field [k] of the arguments. *)
Definition forwards (t : Tool) (arguments_ : JSValue) (k : string) : bool :=
  mem k (property_names (inputSchema t)) &&
  (if truthy_gated (name t) k
   then truthy arguments_.[k]
   else negb (strict_equal arguments_.[k] JUndefined)).

(** The keys of the members of a value, at every depth. *)
Fixpoint member_keys (v : JSValue) : list string :=
  match v with
  | JArr xs => flat_map member_keys xs
  | JObj ps => flat_map (fun p => fst p :: member_keys (snd p)) ps
  | _ => []
  end.

(** [needle] occurs in [s]. *)
Definition occurs_in (needle s : string) : Prop :=
  exists a b, s = a ++ needle ++ b.

Definition text_result (t : JSValue) : ToolResult :=
  {| content := [ {| type := "text"; text := t |} ]; isError := None |}.

(** The course of every handler: it rejects the arguments before any
    exchange, or issues one request and then lets the invoker's error
    through or renders the result as one text block, by the convention of
    its tool. *)
Definition anatomy (label : string) (call : JSValue -> M ToolResult) : Prop :=
  forall arguments_ ep out sent,
    call arguments_ ep = (out, sent) ->
    (sent = [] /\ exists msg, out = Throw (McpError InvalidParams msg)) \/
    (exists action params,
        sent = [request_of action params (JNum 6)] /\
        match settle (ep (request_of action params (JNum 6))) with
        | Throw e => out = Throw e
        | Return r =>
            if raw_text label
            then out = Return (text_result r) \/
                 out = Return (text_result (JStr "File not found"))
            else if json_rendered label
            then out = Return (text_result (JSON_stringify r 2))
            else (ToString r = None /\
                  out = Throw (TypeError "Cannot convert object to primitive value")) \/
                 (exists s, out = Return (text_result (JStr s)))
        end).

(** The rendering of a tool: the outcome of a call whose exchange
    succeeded is a function of the remote result, and of the argument the
    two status lines that quote one repeat. *)
Definition rendering (label : string) (call : JSValue -> M ToolResult) : Prop :=
  exists render : JSValue -> JSValue -> Outcome ToolResult,
    (forall arguments_ ep out request r,
        call arguments_ ep = (out, [request]) ->
        settle (ep request) = Return r ->
        out = render arguments_ r) /\
    (forall a a' r,
        (label = "guiAnswerCard" -> a.["ease"] = a'.["ease"]) ->
        (label = "guiDeckOverview" -> a.["name"] = a'.["name"]) ->
        render a r = render a' r).

(** A handler reads of its arguments only the fields its schema names:
    two argument values that agree on them are treated alike. *)
Definition reads_declared (t : Tool) (h : JSValue -> M ToolResult) : Prop :=
  forall a a',
    (forall k, In k (property_names (inputSchema t)) -> a.[k] = a'.[k]) ->
    h a = h a'.

(** The parameters of the request a handler issues: the fields [forwards]
    selects, each with the value the caller gave it. *)
Definition forwards_declared (t : Tool) (h : JSValue -> M ToolResult) : Prop :=
  forall arguments_ ep out sent,
    h arguments_ ep = (out, sent) ->
    sent <> [] ->
    exists action ps,
      sent = [request_of action (JObj ps) (JNum 6)] /\
      forall k, own_property ps k =
                if forwards t arguments_ k then Some arguments_.[k] else None.

(** A handler refuses arguments that lack a required field, before any
    exchange; the message quotes the field when the other required fields
    are provided. *)
Definition rejects_omitted (t : Tool) (h : JSValue -> M ToolResult) : Prop :=
  forall arguments_ ep f,
    In f (required_names (inputSchema t)) ->
    arguments_.[f] = JUndefined ->
    exists msg,
      h arguments_ ep = (Throw (McpError InvalidParams msg), []) /\
      ((forall g, In g (required_names (inputSchema t)) -> g <> f ->
                  field_provided (inputSchema t) arguments_ g = true) ->
       contains f msg = true).

(** With every required field provided a handler reaches the endpoint,
    unless one of the checks of shape stops it. *)
Definition accepts_provided (t : Tool) (h : JSValue -> M ToolResult) : Prop :=
  forall arguments_ ep out sent,
    (forall f, In f (required_names (inputSchema t)) ->
               field_provided (inputSchema t) arguments_ f = true) ->
    h arguments_ ep = (out, sent) ->
    sent <> [] \/
    exists msg, out = Throw (McpError InvalidParams msg) /\ In msg shape_messages.

(** * The standalone server *)

(** The older server of the repository keeps the invoker, two descriptors
    and both request handlers in one file. Its invoker writes the keys of
    the body in the order [action], [version], [params]. *)
Module Legacy.

Definition ANKI_CONNECT_URL : string := "http://127.0.0.1:8765".

Definition invokeAnkiConnect (action : string) (params version : JSValue) : M JSValue :=
  let params := default_parameter params (JObj []) in
  let version := default_parameter version (JNum 6) in
  try_catch
    (response <- fetch ANKI_CONNECT_URL "POST"
                   [("Content-Type", "application/json")]
                   (JSON_stringify
                      (JObj [("action", JStr action);
                             ("version", version);
                             ("params", params)]) 0) ;;
     If negb (ok response)
     ThenThrow (Error ("HTTP error! Status: " ++ Number_toString (status response))) ;;
     data <- response_json response ;;
     has_error <- call_hasOwnProperty data "error" ;;
     If negb has_error
     ThenThrow (Error "Response is missing required error field") ;;
     has_result <- call_hasOwnProperty data "result" ;;
     If negb has_result
     ThenThrow (Error "Response is missing required result field") ;;
     (if truthy data.["error"]
      then (error <- new_Error data.["error"] ;; throw error)
      else ret data.["result"]))
    (fun error => throw error).

Definition GET_DECK_NAMES_TOOL : Tool := {|
  name := "getDeckNames";
  description :=
    "Returns an array of all deck names for the current AnkiConnect user";
  inputSchema :=
    SObject (Some []) (Some [])
|}.

Definition CREATE_DECK_TOOL : Tool := {|
  name := "createDeck";
  description :=
    "Creates a new deck with the given name. Returns the deck ID.";
  inputSchema :=
    SObject (Some [("deck", SString)]) (Some ["deck"])
|}.

(** The handler registered for [ListToolsRequestSchema]. *)
Definition listTools : M (list Tool) :=
  ret [GET_DECK_NAMES_TOOL; CREATE_DECK_TOOL].

(** The handler registered for [CallToolRequestSchema], applied to
    [request.params.name] and [request.params.arguments]. *)
Definition callTool (name_ : string) (arguments_ : JSValue) : M ToolResult :=
  try_catch
    (if name_ =? "getDeckNames" then
       deckNames <- invokeAnkiConnect "deckNames" JUndefined JUndefined ;;
       ret {| content := [ {| type := "text"; text := JSON_stringify deckNames 2 |} ];
              isError := None |}
     else if name_ =? "createDeck" then
       If negb (truthy arguments_?.["deck"])
       ThenThrow (McpError InvalidParams "Missing required parameter: deck") ;;
       let deckName := arguments_.["deck"] in
       deckId <- invokeAnkiConnect "createDeck" (JObj [("deck", deckName)]) JUndefined ;;
       text_ <- template [Lit "Deck created with ID: "; Sub deckId] ;;
       ret {| content := [ {| type := "text"; text := JStr text_ |} ]; isError := None |}
     else
       text_ <- template [Lit "Tool not found: "; Sub (JStr name_)] ;;
       throw (McpError ToolNotFound text_))
    (fun error =>
       if instanceof_McpError error then throw error
       else
         text_ <- template [Lit "Error: "; Sub (JStr (error_message error))] ;;
         ret {| content := [ {| type := "text"; text := JStr text_ |} ];
                isError := Some true |}).

End Legacy.

(** ** Further vocabulary *)

(** The remote action a tool stands for: its own name, except for
    [getDeckNames], whose handler invokes [deckNames]. *)
Definition action_of (toolName : string) : string :=
  if toolName =? "getDeckNames" then "deckNames" else toolName.

(** Whenever a handler issues a request, it is the request of the action
    of its tool, at version 6. *)
Definition calls_action (t : Tool) (h : JSValue -> M ToolResult) : Prop :=
  forall arguments_ ep out sent,
    h arguments_ ep = (out, sent) ->
    sent <> [] ->
    exists params, sent = [request_of (action_of (name t)) params (JNum 6)].

(** A handler whose tool requires no field always reaches the endpoint. *)
Definition unconstrained (t : Tool) (h : JSValue -> M ToolResult) : Prop :=
  required_names (inputSchema t) = [] ->
  forall arguments_ ep, snd (h arguments_ ep) <> [].

(** The tools whose text interpolates the remote result itself. *)
Definition interpolated (toolName : string) : bool :=
  mem toolName
    [ "getActiveProfile"; "getLatestReviewID"; "cloneDeckConfigId";
      "getNumCardsReviewedToday"; "suspended"; "createDeck"; "addNote";
      "version" ].




(** The required numbers tested against [undefined] instead of for
    truthiness: the tool and the field. *)
Definition defined_guarded : list (Tool * string) :=
  [ (MODEL_FIELD_REPOSITION_TOOL, "index");
    (MODEL_FIELD_SET_FONT_SIZE_TOOL, "fontSize");
    (MODEL_TEMPLATE_REPOSITION_TOOL, "index");
    (SET_DECK_CONFIG_ID_TOOL, "configId") ].

(** Called with arguments that hold no field at all, a handler whose tool
    requires none asks for its action with empty parameters. *)
Definition asks_plainly (t : Tool) (h : JSValue -> M ToolResult) : Prop :=
  required_names (inputSchema t) = [] ->
  forall arguments_ ep,
    (forall k, arguments_.[k] = JUndefined) ->
    snd (h arguments_ ep) = [request_of (action_of (name t)) (JObj []) (JNum 6)].

(** The request of the standalone server for [{action, version, params}]. *)
Definition legacy_request_of (action : string) (params version : JSValue) : HttpRequest :=
  {| url := "http://127.0.0.1:8765";
     method := "POST";
     headers := [("Content-Type", "application/json")];
     body := JSON_stringify
               (JObj [("action", JStr action);
                      ("version", version);
                      ("params", params)]) 0 |}.

(** Two endpoints that answer alike, one asked in the order of keys of the
    standalone server, the other in that of the current one. *)
Definition answer_alike (legacy current : Endpoint) : Prop :=
  forall action params version,
    legacy (legacy_request_of action params version) =
    current (request_of action params version).

(** A value whose type is not the one a schema declares, as the guards
    of the handlers test it: by [typeof], and by [Array.isArray] for an
    array. *)
Definition mistyped (s : Schema) (v : JSValue) : bool :=
  match s with
  | SString => negb (typeof v =? "string")
  | SNumber => negb (typeof v =? "number")
  | SBoolean => negb (typeof v =? "boolean")
  | SArray _ _ _ => negb (Array_isArray v)
  | SObject _ _ => negb (typeof v =? "object")
  end.

(** The two required fields tested for truthiness only. *)
Definition type_unchecked (toolName field : string) : bool :=
  existsb (fun p => (fst p =? toolName) && (snd p =? field))
    [ ("createDeck", "deck"); ("setDueDate", "days") ].

Definition checks_types (t : Tool) (h : JSValue -> M ToolResult) : Prop :=
  forall arguments_ ep f sk,
    In f (required_names (inputSchema t)) ->
    field_schema (inputSchema t) f = Some sk ->
    type_unchecked (name t) f = false ->
    mistyped sk arguments_.[f] = true ->
    exists msg, h arguments_ ep = (Throw (McpError InvalidParams msg), []).

(** The members an object among the properties of a schema requires:
    the property and the member. *)
Definition required_members (s : Schema) : list (string * string) :=
  match s with
  | SObject (Some props) _ =>
      flat_map (fun p => match snd p with
                         | SObject _ (Some req) => map (pair (fst p)) req
                         | _ => []
                         end) props
  | _ => []
  end.

Definition checks_members (t : Tool) (h : JSValue -> M ToolResult) : Prop :=
  forall arguments_ ep f g,
    In (f, g) (required_members (inputSchema t)) ->
    name t <> "modelTemplateAdd" ->
    arguments_.[f].[g] = JUndefined ->
    exists msg, h arguments_ ep = (Throw (McpError InvalidParams msg), []).

(** The text of a tool that interpolates the result: a fixed prefix and
    the conversion of the result to string. *)
Definition interpolates (label : string) (h : JSValue -> M ToolResult) : Prop :=
  interpolated label = true ->
  exists prefix,
    forall arguments_ ep out request r,
      h arguments_ ep = (out, [request]) ->
      settle (ep request) = Return r ->
      out = match ToString r with
            | Some s => Return (text_result (JStr (prefix ++ s)))
            | None => Throw (TypeError "Cannot convert object to primitive value")
            end.

(** * Properties *)

(** ** The monad and the invoker *)

Lemma append_empty (s : string) : s ++ EmptyString = s.
Proof. induction s as [|c s IH]; simpl; [reflexivity | now rewrite IH]. Qed.

(** The invoker issues exactly the request of its triple and settles on
    what the exchange yields. *)
Lemma invoke_run (action : string) (params version : JSValue) (ep : Endpoint) :
  let request :=
    request_of action (default_parameter params (JObj []))
                      (default_parameter version (JNum 6)) in
  invokeAnkiConnect action params version ep = (settle (ep request), [request]).
Proof.
  intro request. unfold invokeAnkiConnect, try_catch, fetch, ANKI_CONNECT_URL.
  change {| url := "http://127.0.0.1:8765"; method := "POST";
            headers := [("Content-Type", "application/json")];
            body := JSON_stringify
                      (JObj [("action", JStr action);
                             ("params", default_parameter params (JObj []));
                             ("version", default_parameter version (JNum 6))]) 0 |}
    with request.
  unfold settle, unwrap, response_json, call_hasOwnProperty, new_Error.
  cbv beta iota delta [bind ret throw].
  destruct (ep request) as [reason|response]; [reflexivity|].
  destruct (ok response); cbv beta iota delta [negb]; [|reflexivity].
  destruct (payload response) as [data|reason]; [|reflexivity].
  destruct data; try reflexivity.
  all: destruct (has_own_property _ "hasOwnProperty"); [reflexivity|].
  all: destruct (has_own_property _ "error"); cbv beta iota delta [negb]; [|reflexivity].
  all: destruct (has_own_property _ "result"); cbv beta iota delta [negb]; [|reflexivity].
  all: match goal with |- context [truthy ?v] => destruct (truthy v) end; [|reflexivity].
  all: match goal with |- context [ToString ?v] => destruct (ToString v) end; reflexivity.
Qed.

(** A handler awaiting the invoker: it continues with the result or
    lets the error through. *)
Lemma bind_invoke {B : Type} (action : string) (params : JSValue)
    (k : JSValue -> M B) (ep : Endpoint) :
  bind (invokeAnkiConnect action params JUndefined) k ep =
  match settle (ep (request_of action (default_parameter params (JObj [])) (JNum 6))) with
  | Return r =>
      (fst (k r ep),
       request_of action (default_parameter params (JObj [])) (JNum 6) :: snd (k r ep))
  | Throw e =>
      (Throw e, [request_of action (default_parameter params (JObj [])) (JNum 6)])
  end.
Proof.
  unfold bind. rewrite invoke_run. cbv zeta.
  change (default_parameter JUndefined (JNum 6)) with (JNum 6).
  destruct (settle _); [|reflexivity].
  now destruct (k a ep).
Qed.

Lemma bind_template {B : Type} (parts : list TemplatePart) (k : string -> M B)
    (ep : Endpoint) :
  bind (template parts) k ep =
  match template_string parts with
  | Some s => k s ep
  | None => (Throw (TypeError "Cannot convert object to primitive value"), [])
  end.
Proof.
  unfold bind, template. destruct (template_string parts); [|reflexivity].
  cbv [ret]. now destruct (k s ep).
Qed.

(** The loop of [insertReviews]: it throws at the first element its test
    rejects and issues no request. *)
Lemma for_each_guard (c : JSValue -> bool) (e : Exn) (xs : list JSValue)
    (ep : Endpoint) :
  for_each xs (fun x => If c x ThenThrow e ;; ret tt) ep =
  if existsb c xs then (Throw e, []) else (Return tt, []).
Proof.
  induction xs as [|x xs IH]; [reflexivity|].
  cbn [for_each existsb]. unfold bind at 1.
  destruct (c x); [reflexivity|]. cbn. rewrite IH.
  now destruct (existsb c xs).
Qed.

Lemma bind_for_of_guard {B : Type} (c : JSValue -> bool) (e : Exn) (v : JSValue)
    (k : unit -> M B) (ep : Endpoint) :
  Array_isArray v = true ->
  bind (for_of v (fun x => If c x ThenThrow e ;; ret tt)) k ep =
  if existsb c (match v with JArr xs => xs | _ => [] end)
  then (Throw e, []) else k tt ep.
Proof.
  destruct v; try discriminate. intros _.
  unfold bind, for_of. rewrite for_each_guard.
  destruct (existsb c elements); [reflexivity|]. now destruct (k tt ep).
Qed.

(** ** Dispatch *)

Lemma switch_case_In {A : Type} (cs : list (string * A)) (l : string) (c : A) :
  switch_case l cs = Some c -> In (l, c) cs.
Proof.
  induction cs as [|[l' c'] cs IH]; simpl; [discriminate|].
  destruct (String.eqb_spec l l') as [->|_].
  - intros [= ->]. now left.
  - intros H. right. now apply IH.
Qed.

Lemma switch_case_None {A : Type} (cs : list (string * A)) (l : string) :
  ~ In l (map fst cs) -> switch_case l cs = None.
Proof.
  induction cs as [|[l' c'] cs IH]; simpl; [reflexivity|].
  intros H. destruct (String.eqb_spec l l') as [->|_].
  - exfalso. apply H. now left.
  - apply IH. intros Hin. apply H. now right.
Qed.

Lemma switch_case_first {A : Type} (cs : list (string * A)) (l : string) (c : A) :
  NoDup (map fst cs) -> In (l, c) cs -> switch_case l cs = Some c.
Proof.
  induction cs as [|[l' c'] cs IH]; simpl; [intros _ []|].
  intros Hnd [[= -> ->]|Hin].
  - now rewrite String.eqb_refl.
  - inversion Hnd as [|? ? Hnotin Hnd']; subst.
    destruct (String.eqb_spec l l') as [->|_].
    + exfalso. apply Hnotin. apply in_map_iff. now exists (l', c).
    + now apply IH.
Qed.

Lemma mem_In (k : string) (l : list string) : mem k l = true <-> In k l.
Proof.
  unfold mem. rewrite existsb_exists. split.
  - intros [k' [Hin Heq]]. apply String.eqb_eq in Heq. now subst.
  - intros Hin. exists k. split; [assumption | apply String.eqb_refl].
Qed.

Lemma mem_not_In (k : string) (l : list string) : mem k l = false <-> ~ In k l.
Proof.
  rewrite <- mem_In. destruct (mem k l); split; congruence.
Qed.

Lemma names_of_cases : map fst cases = map name getTools.
Proof. reflexivity. Qed.

Lemma registered_names_NoDup : NoDup (map name getTools).
Proof.
  assert (H : forall l : list string,
             (fix nodup (l : list string) : bool :=
                match l with
                | [] => true
                | x :: l' => negb (mem x l') && nodup l'
                end) l = true -> NoDup l).
  { induction l as [|x l IH]; [constructor|].
    intros H. apply andb_true_iff in H as [H1 H2]. constructor.
    - apply mem_not_In. now destruct (mem x l).
    - now apply IH. }
  apply H. vm_compute. reflexivity.
Qed.

(** ** The registry *)

Lemma combine_map_snd {A B C : Type} (f : A -> C) (l1 : list A) (l2 : list (C * B))
    (a : A) (b : B) :
  map f l1 = map fst l2 ->
  In (a, b) (combine l1 (map snd l2)) -> In (f a, b) l2.
Proof.
  revert l2. induction l1 as [|x l1 IH]; intros [|[c y] l2]; simpl; try tauto;
    try discriminate.
  intros [= Hx Hl] [[= -> ->]|Hin].
  - left. now rewrite Hx.
  - right. now apply IH.
Qed.

Lemma combine_In_l {A B : Type} (l1 : list A) (l2 : list B) (a : A) :
  List.length l1 = List.length l2 -> In a l1 -> exists b, In (a, b) (combine l1 l2).
Proof.
  revert l2. induction l1 as [|x l1 IH]; intros [|y l2]; simpl; try tauto;
    try discriminate.
  intros [= Hlen] [->|Hin].
  - exists y. now left.
  - destruct (IH l2 Hlen Hin) as [b Hb]. exists b. now right.
Qed.

Lemma combine_map_snd_inv {A B C : Type} (f : A -> C) (l1 : list A)
    (l2 : list (C * B)) (c : C) (b : B) :
  map f l1 = map fst l2 ->
  In (c, b) l2 -> exists a, In (a, b) (combine l1 (map snd l2)) /\ f a = c.
Proof.
  revert l2. induction l1 as [|x l1 IH]; intros [|[c' y] l2]; simpl; try tauto;
    try discriminate.
  intros [= Hx Hl] [[= -> ->]|Hin].
  - exists x. split; [now left | assumption].
  - destruct (IH l2 Hl Hin) as [a [Ha Hf]]. exists a. split; [now right | assumption].
Qed.

Lemma registry_cases (t : Tool) (h : JSValue -> M ToolResult) :
  In (t, h) registry -> In (name t, h) cases.
Proof. apply combine_map_snd. reflexivity. Qed.

Lemma registry_dispatch (t : Tool) (h : JSValue -> M ToolResult) :
  In (t, h) registry -> forall arguments_, handleToolCall (name t) arguments_ = h arguments_.
Proof.
  intros Hin arguments_. unfold handleToolCall.
  rewrite (switch_case_first cases (name t) h); [reflexivity | |].
  - rewrite names_of_cases. apply registered_names_NoDup.
  - now apply registry_cases.
Qed.

Lemma registered_tool (t : Tool) :
  In t getTools -> exists h, In (t, h) registry.
Proof. apply combine_In_l. reflexivity. Qed.

Lemma case_registered (l : string) (c : JSValue -> M ToolResult) :
  In (l, c) cases -> exists t, In (t, c) registry /\ name t = l.
Proof. apply combine_map_snd_inv. reflexivity. Qed.

Lemma registry_tool (t : Tool) (h : JSValue -> M ToolResult) :
  In (t, h) registry -> In t getTools.
Proof. intros H. unfold registry in H. now apply in_combine_l in H. Qed.

(** A property of every registered tool with its handler follows from the
    property of each entry of the registry. *)
Lemma for_all_registered (P : Tool -> (JSValue -> M ToolResult) -> Prop) :
  Forall (fun th => P (fst th) (snd th)) registry ->
  forall t, In t getTools ->
    exists h, P t h /\ forall arguments_, handleToolCall (name t) arguments_ = h arguments_.
Proof.
  intros HF t Hin. destruct (registered_tool t Hin) as [h Hh].
  exists h. split.
  - rewrite Forall_forall in HF. apply (HF (t, h) Hh).
  - now apply registry_dispatch.
Qed.

(** A call of [handleToolCall] either runs the handler of a registered
    tool or falls to the [default] branch. *)
Lemma handleToolCall_cases (toolName : string) (arguments_ : JSValue) :
  (exists t h, In (t, h) registry /\ name t = toolName /\
               handleToolCall toolName arguments_ = h arguments_) \/
  (~ In toolName registered_names /\
   handleToolCall toolName arguments_ =
   throw (McpError ToolNotFound ("Tool not found: " ++ toolName))).
Proof.
  unfold handleToolCall. destruct (switch_case toolName cases) as [c|] eqn:E.
  - left. apply switch_case_In in E. destruct (case_registered _ _ E) as [t [Ht Hn]].
    exists t, c. auto.
  - right. split.
    + intros Hin. unfold registered_names in Hin. rewrite <- names_of_cases in Hin.
      apply in_map_iff in Hin as [[l c] [Hl Hin]]. simpl in Hl. subst l.
      rewrite (switch_case_first cases toolName c) in E; [discriminate | | assumption].
      rewrite names_of_cases. apply registered_names_NoDup.
    + unfold bind, template. simpl. now rewrite append_empty.
Qed.

(** A name outside the catalogue reaches the [default] branch. *)
Lemma default_branch (toolName : string) (arguments_ : JSValue) (ep : Endpoint) :
  ~ In toolName registered_names ->
  handleToolCall toolName arguments_ ep =
    (Throw (McpError ToolNotFound ("Tool not found: " ++ toolName)), []).
Proof.
  intros Hnot.
  destruct (handleToolCall_cases toolName arguments_) as
    [[t [h [Hin [Hn _]]]] | [_ ->]]; [|reflexivity].
  exfalso. apply Hnot. subst toolName. unfold registered_names.
  apply in_map. now apply registry_tool in Hin.
Qed.

(** ** Running a handler *)

(** The steps of a handler on a hypothesis [H : h arguments_ ep = (out, sent)]:
    its guards in order, then the call of the invoker, then the rendering
    of the result. *)
Ltac unfold_handler H :=
  cbv beta in H;
  lazymatch type of H with
  | ?h ?a ?ep = _ => unfold h in H
  | ?h ?ep = _ => unfold h in H
  end.

Ltac guard_step H :=
  match type of H with
  | (if ?c then throw ?e else _) ?ep = _ =>
      let G := fresh "G" in
      destruct c eqn:G;
      [ cbv beta iota delta [throw] in H;
        first [ discriminate H | injection H as <- <- ] | ]
  | bind (for_of ?v _) _ _ = _ =>
      rewrite bind_for_of_guard in H
        by (match goal with
            | G : _ || negb (Array_isArray ?w) = false |- _ =>
                apply orb_false_iff in G as [_ G];
                now destruct (Array_isArray w)
            end);
      let G := fresh "G" in
      match type of H with
      | (if ?c then _ else _) = _ =>
          destruct c eqn:G;
          [ first [ discriminate H | injection H as <- <- ] | ]
      end
  end.

Ltac invoke_step H r :=
  cbv zeta in H;
  rewrite bind_invoke in H;
  let Hsettle := fresh "Hsettle" in
  match type of H with
  | match settle ?o with _ => _ end = _ =>
      destruct (settle o) as [r|] eqn:Hsettle
  end.

Ltac split_guards :=
  repeat match goal with
  | G : _ || _ = false |- _ =>
      let G1 := fresh "G" in let G2 := fresh "G" in
      apply orb_false_iff in G as [G1 G2]
  end.

(** The value a validated argument has inside a template: the one its
    [typeof] guard leaves. *)
Ltac known_argument H :=
  match type of H with
  | context [ToString (js_get ?a ?k)] =>
      let E := fresh "E" in
      split_guards;
      destruct (js_get a k) eqn:E;
      try (match goal with
           | G : negb (typeof _ =? _) = false |- _ => now cbn in G
           end)
  end.

Ltac render_step H r :=
  cbv beta in H;
  try rewrite bind_template in H;
  cbn [template_string] in H;
  try known_argument H;
  try match type of H with
      | context [truthy r] => destruct (truthy r) eqn:?
      end;
  try match type of H with
      | context [ToString r] => destruct (ToString r) eqn:?
      end;
  try match type of H with
      | context [strict_equal r ?v] => destruct (strict_equal r v) eqn:?
      end;
  cbn [template_string ToString fst snd ret append] in H;
  injection H as <- <-.

(** All the ways through a handler. *)
Ltac run_handler H r :=
  unfold_handler H;
  repeat guard_step H;
  [ .. | invoke_step H r; [ render_step H r | injection H as <- <- ] ].

Ltac anatomy_invalid := left; split; [reflexivity | eexists; reflexivity].

(** Deciding a closed boolean test of the vocabulary. *)
Ltac decide_test f :=
  repeat match goal with
  | |- context [f ?l] =>
      let b := eval vm_compute in (f l) in change (f l) with b
  end.

Ltac anatomy_sent ep :=
  right; do 2 eexists; split; [reflexivity|];
  lazymatch goal with
  | Hs : settle (ep ?x) = _ |- context [settle (ep ?y)] =>
      change y with x; rewrite Hs
  end;
  first
    [ reflexivity
    | decide_test raw_text; decide_test json_rendered; cbv iota;
      first [ reflexivity
            | left; reflexivity
            | right; reflexivity
            | left; split; [assumption | reflexivity]
            | right; eexists; reflexivity ] ].

Ltac prove_anatomy :=
  let H := fresh "H" in let ep := fresh "ep" in
  intros ? ep ? ? H; run_handler H ident:(r);
  first [ anatomy_invalid | anatomy_sent ep ].


Lemma bind_template_ret {B : Type} (parts : list TemplatePart) (f : string -> B)
    (ep : Endpoint) :
  bind (template parts) (fun s => ret (f s)) ep =
  (match template_string parts with
   | Some s => Return (f s)
   | None => Throw (TypeError "Cannot convert object to primitive value")
   end, []).
Proof. rewrite bind_template. now destruct (template_string parts). Qed.

Lemma if_ret {B : Type} (c : bool) (x y : B) (ep : Endpoint) :
  (if c then ret x else ret y) ep = (if c then Return x else Return y, []).
Proof. now destruct c. Qed.

Lemma ret_run {B : Type} (x : B) (ep : Endpoint) : ret x ep = (Return x, []).
Proof. reflexivity. Qed.

Ltac render_of H r :=
  cbv zeta in H;
  rewrite bind_invoke in H;
  lazymatch goal with
  | Hr : settle (?ep ?q) = Return r |- _ =>
      lazymatch type of H with
      | match settle (ep ?q') with _ => _ end = (_, [_]) =>
          let Hq := fresh "Hq" in
          assert (Hq : q' = q)
            by (destruct (settle (ep q')); now injection H);
          rewrite Hq in H; clear Hq;
          rewrite Hr in H
      end
  end;
  cbv beta in H;
  first [ rewrite bind_template_ret in H
        | rewrite if_ret in H
        | rewrite ret_run in H ];
  cbn [fst snd] in H;
  injection H as <-.

Ltac prove_rendering :=
  eexists; split;
  [ let H := fresh "H" in
    intros ? ? ? ? r H ?;
    unfold_handler H; repeat guard_step H;
    render_of H r; reflexivity
  | let H1 := fresh "H" in let H2 := fresh "H" in
    intros ? ? ? H1 H2; cbv beta;
    try rewrite (H1 eq_refl); try rewrite (H2 eq_refl); reflexivity ].


Lemma handlers_anatomy :
  Forall (fun c => anatomy (fst c) (snd c)) cases.
Proof.
  unfold cases.
  repeat (apply Forall_cons; [cbn [fst snd]; prove_anatomy |]).
  apply Forall_nil.
Qed.

Lemma handlers_rendering :
  Forall (fun c => rendering (fst c) (snd c)) cases.
Proof.
  unfold cases.
  repeat (apply Forall_cons; [cbn [fst snd]; prove_rendering |]).
  apply Forall_nil.
Qed.

Lemma registered_anatomy (t : Tool) (h : JSValue -> M ToolResult) :
  In (t, h) registry -> anatomy (name t) h.
Proof.
  intros Hin. apply registry_cases in Hin.
  pose proof handlers_anatomy as HF. rewrite Forall_forall in HF.
  apply (HF _ Hin).
Qed.

(** ** What the invoker makes of an envelope *)

Lemma unwrap_envelope (data error result : JSValue) :
  is_envelope data error result ->
  unwrap data =
  if truthy error
  then match ToString error with
       | Some s => Throw (Error s)
       | None => Throw (TypeError "Cannot convert object to primitive value")
       end
  else Return result.
Proof.
  intros [ps [-> [He [Hr Hh]]]].
  unfold unwrap, has_own_property, js_get. now rewrite Hh, He, Hr.
Qed.

Lemma settle_envelope (ep : Endpoint) (error result : JSValue) (request : HttpRequest) :
  replies_with ep error result ->
  settle (ep request) =
  if truthy error
  then match ToString error with
       | Some s => Throw (Error s)
       | None => Throw (TypeError "Cannot convert object to primitive value")
       end
  else Return result.
Proof.
  intros H. destruct (H request) as [response [data [-> [Hok [Hp He]]]]].
  unfold settle. rewrite Hok, Hp. now apply unwrap_envelope.
Qed.

Lemma truthy_nonempty (X : string) : X <> EmptyString -> truthy (JStr X) = true.
Proof.
  intros H. simpl. destruct (String.eqb_spec X EmptyString); [contradiction | reflexivity].
Qed.

(** A reply whose envelope misses a key is refused with the message of the
    missing field, whatever the other field holds, provided no property
    of the reply shadows [hasOwnProperty]. *)
Lemma missing_key_refused (ep : Endpoint) (request : HttpRequest)
    (response : Response) (ps : list (string * JSValue)) :
  ep request = Resolved response ->
  ok response = true ->
  payload response = BodyJson (JObj ps) ->
  own_property ps "hasOwnProperty" = None ->
  (own_property ps "error" = None ->
   settle (ep request) = Throw (Error "Response is missing required error field")) /\
  (own_property ps "error" <> None -> own_property ps "result" = None ->
   settle (ep request) = Throw (Error "Response is missing required result field")).
Proof.
  intros -> Hok Hp Hh. unfold settle, unwrap, has_own_property.
  rewrite Hok, Hp, Hh. cbn [negb]. split.
  - intros ->. reflexivity.
  - intros He ->. destruct (own_property ps "error"); [reflexivity | contradiction].
Qed.

(** ** Unknown tools *)

(** C7. For every tool name absent from the registry and every argument
    value, [handleToolCall] throws the [ToolNotFound] error of its default
    branch without any exchange, and the boundary lets that error
    through. *)
Theorem unknown_tool_not_found :
  forall (toolName : string) (arguments_ : JSValue) (ep : Endpoint),
    ~ In toolName registered_names ->
    handleToolCall toolName arguments_ ep =
      (Throw (McpError ToolNotFound ("Tool not found: " ++ toolName)), []) /\
    callTool toolName arguments_ ep =
      (Throw (McpError ToolNotFound ("Tool not found: " ++ toolName)), []).
Proof.
  intros toolName arguments_ ep Hnot.
  pose proof (default_branch toolName arguments_ ep Hnot) as H.
  split; [exact H|].
  unfold callTool, try_catch. now rewrite H.
Qed.

Lemma unknown_tool_not_found_witness :
  handleToolCall "doesNotExist" (JObj [("deck", JStr "Spanish")])
    (fun _ => Rejected "unreachable") =
  (Throw (McpError ToolNotFound "Tool not found: doesNotExist"), []).
Proof.
  apply (unknown_tool_not_found "doesNotExist" (JObj [("deck", JStr "Spanish")])
           (fun _ => Rejected "unreachable")).
  apply mem_not_In. vm_compute. reflexivity.
Defined.

(** ** The catalogue *)

(** C8. [listTools] answers the whole static catalogue; the names of its
    descriptors are pairwise distinct and are, in order, the labels of the
    [switch] of [handleToolCall]: every label has exactly one descriptor,
    and a name is advertised exactly when the dispatcher has a handler for
    it, that is when a call of it does not end in the default branch. *)
Theorem catalogue_is_registry :
  (forall ep, listTools ep = (Return getTools, [])) /\
  NoDup (map name getTools) /\
  map name getTools = map fst cases /\
  (forall n, In n (map fst cases) ->
             count_occ string_dec (map name getTools) n = 1) /\
  (forall n, In n (map name getTools) <->
             exists call, switch_case n cases = Some call /\
                          forall arguments_, handleToolCall n arguments_ = call arguments_) /\
  (forall n, In n (map name getTools) <->
             forall arguments_ ep msg,
               fst (handleToolCall n arguments_ ep) <> Throw (McpError ToolNotFound msg)).
Proof.
  split; [reflexivity|].
  split; [exact registered_names_NoDup|].
  split; [reflexivity|].
  split.
  { intros n Hin. rewrite names_of_cases in Hin.
    apply NoDup_count_occ'; [exact registered_names_NoDup | exact Hin]. }
  split.
  { intros n. split.
    - intros Hin. rewrite <- names_of_cases in Hin.
      apply in_map_iff in Hin as [[l c] [Hl Hin]]. simpl in Hl. subst l.
      exists c. assert (E : switch_case n cases = Some c).
      { apply switch_case_first; [|assumption].
        rewrite names_of_cases. apply registered_names_NoDup. }
      split; [exact E|]. intros arguments_. unfold handleToolCall. now rewrite E.
    - intros [call [E _]]. apply switch_case_In in E.
      rewrite <- names_of_cases. apply in_map_iff. now exists (n, call). }
  intros n. split.
  - intros Hin arguments_ ep msg Hthrow.
    destruct (handleToolCall_cases n arguments_) as
      [[t [h [Hreg [Hn Hcall]]]] | [Hnot _]]; [|contradiction].
    rewrite Hcall in Hthrow.
    destruct (h arguments_ ep) as [out sent] eqn:Hrun.
    destruct (registered_anatomy t h Hreg arguments_ ep out sent Hrun)
      as [[_ [m ->]] | [action [params [_ Hs]]]]; [discriminate|].
    simpl in Hthrow. subst out.
    destruct (settle _) as [r|e] eqn:Hsettle.
    + destruct (raw_text (name t)); [destruct Hs as [[=]|[=]]|].
      destruct (json_rendered (name t)); [discriminate|].
      destruct Hs as [[_ [=]] | [s [=]]].
    + injection Hs as <-. clear -Hsettle.
      unfold settle in Hsettle.
      destruct (ep _) as [|response]; [discriminate|].
      destruct (negb (ok response)); [discriminate|].
      destruct (payload response) as [data|]; [|discriminate].
      unfold unwrap in Hsettle.
      destruct data; try discriminate;
        repeat match type of Hsettle with
               | (if ?c then _ else _) = _ => destruct c; try discriminate
               | match ?c with _ => _ end = _ => destruct c; try discriminate
               end.
  - intros H. destruct (in_dec string_dec n (map name getTools)) as [Hin|Hnot];
      [assumption|].
    exfalso.
    apply (H JUndefined (fun _ => Rejected EmptyString) ("Tool not found: " ++ n)).
    now rewrite (default_branch n JUndefined _ Hnot).
Qed.

(** ** Errors reported by the endpoint *)

(** C1, as the code has it. When the endpoint answers with an envelope
    whose error field is a non-empty string [X], the invoker throws an
    [Error] whose message is [X] itself, and every tool call that reached
    the endpoint fails with that very error. *)
Theorem remote_error_passthrough :
  forall (ep : Endpoint) (X : string) (R : JSValue),
    X <> EmptyString ->
    replies_with ep (JStr X) R ->
    (forall action params version,
        fst (invokeAnkiConnect action params version ep) = Throw (Error X)) /\
    (forall toolName arguments_ out sent,
        handleToolCall toolName arguments_ ep = (out, sent) ->
        sent <> [] ->
        out = Throw (Error X)).
Proof.
  intros ep X R HX Hep.
  assert (Hs : forall request, settle (ep request) = Throw (Error X)).
  { intros request. rewrite (settle_envelope ep (JStr X) R request Hep).
    now rewrite truthy_nonempty. }
  split.
  - intros action params version. rewrite invoke_run. cbv zeta. simpl. apply Hs.
  - intros toolName arguments_ out sent Hrun Hsent.
    destruct (handleToolCall_cases toolName arguments_) as
      [[t [h [Hreg [Hn Hcall]]]] | [_ Hcall]]; rewrite Hcall in Hrun.
    + destruct (registered_anatomy t h Hreg arguments_ ep out sent Hrun)
        as [[-> _] | [action [params [_ Hout]]]]; [contradiction|].
      now rewrite Hs in Hout.
    + injection Hrun as <- <-. contradiction.
Qed.

Lemma remote_error_passthrough_witness :
  handleToolCall "createDeck" (JObj [("deck", JStr "Spanish")])
    (fun _ => Resolved {| status := 200;
                          payload := BodyJson (JObj [("result", JNull);
                                                     ("error", JStr "deck was not created")]) |})
  = (Throw (Error "deck was not created"),
     [request_of "createDeck" (JObj [("deck", JStr "Spanish")]) (JNum 6)]).
Proof.
  set (ep := fun _ : HttpRequest =>
               Resolved {| status := 200;
                           payload := BodyJson (JObj [("result", JNull);
                                                      ("error", JStr "deck was not created")]) |}).
  assert (Hep : replies_with ep (JStr "deck was not created") JNull).
  { intros request. do 2 eexists. split; [reflexivity|]. split; [reflexivity|].
    split; [reflexivity|]. eexists. repeat split; reflexivity. }
  destruct (handleToolCall "createDeck" (JObj [("deck", JStr "Spanish")]) ep)
    as [out sent] eqn:Hrun.
  assert (Hsent : sent = [request_of "createDeck" (JObj [("deck", JStr "Spanish")]) (JNum 6)]).
  { vm_compute in Hrun. now injection Hrun as _ <-. }
  rewrite (proj2 (remote_error_passthrough ep "deck was not created" JNull
                    ltac:(discriminate) Hep)
             "createDeck" (JObj [("deck", JStr "Spanish")]) out sent Hrun
             ltac:(rewrite Hsent; discriminate)).
  now rewrite Hsent.
Defined.

(** C1 as stated fails for the empty string: an envelope whose error field
    is the empty string is not an error to the invoker, and the call
    succeeds with the result. *)
Lemma remote_error_empty_string_succeeds :
  handleToolCall "getDeckNames" JUndefined
    (fun _ => Resolved {| status := 200;
                          payload := BodyJson (JObj [("error", JStr EmptyString);
                                                     ("result", JNull)]) |})
  = (Return (text_result (JStr "null")),
     [request_of "deckNames" (JObj []) (JNum 6)]).
Proof. reflexivity. Qed.

(** ** Malformed replies *)

(** C3, at the reply [{hasOwnProperty: 1, error: null}], which misses the
    result key: the own property shadows the method the invoker calls, and
    the call fails with the engine's TypeError instead of the error of the
    missing field. *)
Lemma shadowed_hasOwnProperty_reply :
  invokeAnkiConnect "deckNames" JUndefined JUndefined
    (fun _ => Resolved {| status := 200;
                          payload := BodyJson (JObj [("hasOwnProperty", JNum 1);
                                                     ("error", JNull)]) |})
  = (Throw (TypeError "data.hasOwnProperty is not a function"),
     [request_of "deckNames" (JObj []) (JNum 6)]).
Proof. reflexivity. Qed.

(** ** The request *)

(** C4. Every invocation issues exactly one request: a POST to the fixed
    endpoint whose body is the serialized [{action, params, version}],
    with [params] defaulting to the empty object and [version] to 6. So
    [createDeck] with [{deck: "Spanish"}] sends
    [{action: "createDeck", params: {deck: "Spanish"}, version: 6}], and on
    the reply [{error: null, result: 1694938000000}] the text of the result
    contains that number. *)
Theorem invoker_request :
  (forall action params version ep,
      snd (invokeAnkiConnect action params version ep) =
      [ {| url := "http://127.0.0.1:8765";
           method := "POST";
           headers := [("Content-Type", "application/json")];
           body := JSON_stringify
                     (JObj [("action", JStr action);
                            ("params", default_parameter params (JObj []));
                            ("version", default_parameter version (JNum 6))]) 0 |} ]) /\
  (forall action ep,
      snd (invokeAnkiConnect action JUndefined JUndefined ep) =
      [request_of action (JObj []) (JNum 6)]) /\
  (forall ep,
      replies_with ep JNull (JNum 1694938000000) ->
      handleToolCall "createDeck" (JObj [("deck", JStr "Spanish")]) ep =
        (Return (text_result (JStr "Deck created with ID: 1694938000000")),
         [request_of "createDeck" (JObj [("deck", JStr "Spanish")]) (JNum 6)]) /\
      contains "1694938000000" "Deck created with ID: 1694938000000" = true).
Proof.
  split; [|split].
  - intros action params version ep. now rewrite invoke_run.
  - intros action ep. now rewrite invoke_run.
  - intros ep Hep. split; [|reflexivity].
    unfold handleToolCall. cbn [switch_case cases String.eqb Ascii.eqb Bool.eqb].
    unfold handleCreateDeck. cbn [js_get own_property String.eqb Ascii.eqb Bool.eqb
                                    truthy negb].
    rewrite bind_invoke. cbn [default_parameter].
    rewrite (settle_envelope ep JNull (JNum 1694938000000) _ Hep).
    reflexivity.
Qed.

Lemma invoker_request_witness :
  handleToolCall "createDeck" (JObj [("deck", JStr "Spanish")])
    (fun _ => Resolved {| status := 200;
                          payload := BodyJson (JObj [("error", JNull);
                                                     ("result", JNum 1694938000000)]) |})
  = (Return (text_result (JStr "Deck created with ID: 1694938000000")),
     [request_of "createDeck" (JObj [("deck", JStr "Spanish")]) (JNum 6)]).
Proof.
  apply (proj2 (proj2 invoker_request)).
  intros request. do 2 eexists. split; [reflexivity|]. split; [reflexivity|].
  split; [reflexivity|]. eexists. repeat split; reflexivity.
Defined.

(** ** Paired arrays *)

Lemma settle_not_McpError (o : FetchOutcome) (code : ErrorCode) (msg : string) :
  settle o <> Throw (McpError code msg).
Proof.
  unfold settle. destruct o as [|response]; [discriminate|].
  destruct (negb (ok response)); [discriminate|].
  destruct (payload response) as [data|]; [|discriminate].
  unfold unwrap.
  destruct data; try discriminate;
    repeat match goal with
           | |- (if ?c then _ else _) <> _ => destruct c; try discriminate
           | |- match ?c with _ => _ end <> _ => destruct c; try discriminate
           end.
Qed.

Lemma length_strict_equal (xs ys : list JSValue) :
  strict_equal (JArr xs).["length"] (JArr ys).["length"] =
  (List.length xs =? List.length ys)%nat.
Proof.
  cbn. destruct (Nat.eqb_spec (List.length xs) (List.length ys)) as [->|Hne].
  - apply Z.eqb_refl.
  - apply Z.eqb_neq. intros H. apply Hne. now apply Nat2Z.inj.
Qed.

(** C6. For both actions with paired arrays, supplying the two arrays with
    unequal lengths always fails with an [InvalidParams] error before any
    exchange (the error of the length comparison, unless the card
    identifier of [setSpecificValueOfCard] is rejected first), and arrays
    of equal length, the empty ones included, never raise the error of the
    length comparison; in particular [setEaseFactors] with two cards and
    one ease factor fails so. *)
Theorem paired_arrays_length_check :
  (forall toolName a b message,
      In (toolName, (a, b), message) paired_arrays ->
      forall arguments_ xs ys ep,
        arguments_.[a] = JArr xs ->
        arguments_.[b] = JArr ys ->
        (List.length xs <> List.length ys ->
         exists msg,
           handleToolCall toolName arguments_ ep =
             (Throw (McpError InvalidParams msg), []) /\
           (msg = message \/
            toolName = "setSpecificValueOfCard" /\
            msg = "Missing required parameter: card (card ID)")) /\
        (List.length xs = List.length ys ->
         fst (handleToolCall toolName arguments_ ep) <>
           Throw (McpError InvalidParams message))) /\
  (forall ep,
      handleToolCall "setEaseFactors"
        (JObj [("cards", JArr [JNum 1; JNum 2]); ("easeFactors", JArr [JNum 2500])]) ep =
      (Throw (McpError InvalidParams
                "Cards and easeFactors arrays must have the same length"), [])).
Proof.
  split; [|reflexivity].
  intros toolName a b message Hin arguments_ xs ys ep Ha Hb.
  destruct Hin as [[= <- <- <- <-] | [[= <- <- <- <-] | []]].
  - (* setEaseFactors *)
    change (handleToolCall "setEaseFactors" arguments_)
      with (handleSetEaseFactors arguments_).
    unfold handleSetEaseFactors. rewrite !Ha, !Hb, length_strict_equal.
    cbn [truthy Array_isArray negb orb]. split.
    + intros Hne. apply Nat.eqb_neq in Hne. rewrite Hne. cbn [negb].
      eexists. split; [reflexivity | now left].
    + intros Heq. apply Nat.eqb_eq in Heq. rewrite Heq. cbn [negb].
      rewrite bind_invoke. destruct (settle _) as [r|e] eqn:Hs.
      * cbv beta. rewrite bind_template. cbn [template_string].
        destruct (truthy r); cbn; discriminate.
      * cbn. intros [= ->]. now apply settle_not_McpError in Hs.
  - (* setSpecificValueOfCard *)
    change (handleToolCall "setSpecificValueOfCard" arguments_)
      with (handleSetSpecificValueOfCard arguments_).
    unfold handleSetSpecificValueOfCard. rewrite !Ha, !Hb, length_strict_equal.
    cbn [truthy Array_isArray negb orb].
    destruct (negb (truthy arguments_?.["card"]) ||
              negb (typeof arguments_?.["card"] =? "number")).
    + split.
      * intros _. eexists. split; [reflexivity | right; now split].
      * intros _. cbn. discriminate.
    + split.
      * intros Hne. apply Nat.eqb_neq in Hne. rewrite Hne. cbn [negb].
        eexists. split; [reflexivity | now left].
      * intros Heq. apply Nat.eqb_eq in Heq. rewrite Heq. cbn [negb]. cbv zeta.
        rewrite bind_invoke. destruct (settle _) as [r|e] eqn:Hs.
        -- cbv beta. rewrite bind_template. cbn [template_string].
           destruct (truthy r); cbn; discriminate.
        -- cbn. intros [= ->]. now apply settle_not_McpError in Hs.
Qed.

Lemma paired_arrays_length_check_witness :
  (exists msg,
      handleToolCall "setSpecificValueOfCard"
        (JObj [("card", JNum 7); ("keys", JArr [JStr "flags"; JStr "odue"]);
               ("newValues", JArr [JStr "1"])])
        (fun _ => Rejected "unreachable") =
      (Throw (McpError InvalidParams msg), [])) /\
  fst (handleToolCall "setEaseFactors"
         (JObj [("cards", JArr []); ("easeFactors", JArr [])])
         (fun _ => Rejected "unreachable")) <>
  Throw (McpError InvalidParams
           "Cards and easeFactors arrays must have the same length").
Proof.
  split.
  - destruct (proj1 (proj1 paired_arrays_length_check
                       "setSpecificValueOfCard" "keys" "newValues"
                       "Keys and newValues arrays must have the same length"
                       ltac:(simpl; tauto)
                       (JObj [("card", JNum 7); ("keys", JArr [JStr "flags"; JStr "odue"]);
                              ("newValues", JArr [JStr "1"])])
                       [JStr "flags"; JStr "odue"] [JStr "1"]
                       (fun _ => Rejected "unreachable") eq_refl eq_refl)
                ltac:(simpl; lia)) as [msg [H _]].
    now exists msg.
  - apply (proj2 (proj1 paired_arrays_length_check
                    "setEaseFactors" "cards" "easeFactors"
                    "Cards and easeFactors arrays must have the same length"
                    ltac:(simpl; tauto)
                    (JObj [("cards", JArr []); ("easeFactors", JArr [])])
                    [] [] (fun _ => Rejected "unreachable") eq_refl eq_refl)).
    reflexivity.
Defined.

(** ** The shape of a tool result *)

Lemma own_property_In (ps : list (string * JSValue)) (k : string) (x : JSValue) :
  own_property ps k = Some x -> In (k, x) ps.
Proof.
  induction ps as [|[k' v] ps IH]; simpl; [discriminate|].
  destruct (String.eqb_spec k' k) as [->|_].
  - intros [= ->]. now left.
  - intros H. right. now apply IH.
Qed.

Lemma string_nth_length (s : string) (i : nat) :
  (i < String.length s)%nat -> exists c, string_nth s i = Some c.
Proof.
  revert i. induction s as [|c s IH]; simpl; intros i Hi; [lia|].
  destruct i as [|i]; [now exists c|]. apply IH. lia.
Qed.

Lemma index_of_key_lt (len : nat) (k : string) (i : nat) :
  index_of_key len k = Some i -> (i < len)%nat.
Proof.
  unfold index_of_key. intros H. apply find_some in H as [H _].
  apply in_seq in H. lia.
Qed.

(** A property a JSON value owns is a JSON value. *)
Lemma own_member_json (data : JSValue) (k : string) :
  is_json data = true -> has_own_property data k = true -> is_json data.[k] = true.
Proof.
  destruct data; simpl; try discriminate.
  - (* string *)
    intros _. destruct (k =? "length"); [reflexivity|]. simpl.
    destruct (index_of_key (String.length s) k) as [i|] eqn:E; [|discriminate].
    intros _. apply index_of_key_lt in E.
    destruct (string_nth_length s i E) as [c ->]. reflexivity.
  - (* array *)
    intros Hj. destruct (k =? "length"); [reflexivity|]. simpl.
    destruct (index_of_key (List.length elements) k) as [i|] eqn:E; [|discriminate].
    intros _. apply index_of_key_lt in E.
    rewrite forallb_forall in Hj. apply Hj. now apply nth_In.
  - (* object *)
    intros Hj. destruct (own_property properties k) as [x|] eqn:E; [|discriminate].
    intros _. apply own_property_In in E.
    rewrite forallb_forall in Hj. apply (Hj (k, x) E).
Qed.

(** [JSON.stringify] yields a string for everything but [undefined]. *)
Lemma stringify_defined (v : JSValue) (space : nat) :
  v <> JUndefined -> exists s, JSON_stringify v space = JStr s.
Proof.
  intros Hv. unfold JSON_stringify.
  destruct v; cbn [SerializeJSONProperty]; try (eexists; reflexivity);
    try contradiction.
  - destruct b; eexists; reflexivity.
  - match goal with |- context [match ?l with [] => _ | _ :: _ => _ end] =>
      destruct l end; [eexists; reflexivity|].
    destruct (spaces (Nat.min space 10) =? EmptyString); eexists; reflexivity.
  - match goal with |- context [match ?l with [] => _ | _ :: _ => _ end] =>
      destruct l end; [eexists; reflexivity|].
    destruct (spaces (Nat.min space 10) =? EmptyString); eexists; reflexivity.
Qed.

Lemma json_defined (v : JSValue) : is_json v = true -> v <> JUndefined.
Proof. intros H ->. discriminate. Qed.

(** A result the invoker returns is the [result] member the decoded reply
    owns. *)
Lemma settle_Return (ep : Endpoint) (request : HttpRequest) (r : JSValue) :
  settle (ep request) = Return r ->
  exists response data,
    ep request = Resolved response /\
    payload response = BodyJson data /\
    has_own_property data "result" = true /\
    r = data.["result"].
Proof.
  unfold settle. destruct (ep request) as [|response]; [discriminate|].
  destruct (negb (ok response)); [discriminate|].
  destruct (payload response) as [data|] eqn:Hp; [|discriminate].
  intros H. exists response, data. split; [reflexivity|]. split; [exact Hp|].
  unfold unwrap in H.
  destruct data; try discriminate;
    (destruct (has_own_property _ "hasOwnProperty"); [discriminate|];
     destruct (has_own_property _ "error"); [|discriminate];
     destruct (has_own_property _ "result"); [|discriminate];
     cbn [negb] in H;
     match type of H with
     | (if ?c then _ else _) = _ => destruct c
     end;
     [ match type of H with
       | match ?c with _ => _ end = _ => destruct c; discriminate
       end
     | injection H as <-; split; reflexivity ]).
Qed.

(** What the boundary makes of a call of the dispatcher. *)
Lemma callTool_run (toolName : string) (arguments_ : JSValue) (ep : Endpoint) :
  callTool toolName arguments_ ep =
  match handleToolCall toolName arguments_ ep with
  | (Return res, sent) => (Return res, sent)
  | (Throw e, sent) =>
      if instanceof_McpError e then (Throw e, sent)
      else (Return {| content := [ {| type := "text";
                                      text := JStr ("Error: " ++ error_message e) |} ];
                      isError := Some true |}, sent)
  end.
Proof.
  unfold callTool, try_catch.
  destruct (handleToolCall toolName arguments_ ep) as [[res|e] sent]; [reflexivity|].
  destruct (instanceof_McpError e).
  - cbv [throw]. now rewrite app_nil_r.
  - rewrite bind_template. cbn [template_string ToString ret].
    now rewrite append_empty, app_nil_r.
Qed.

(** C9, as the code has it. Every call the dispatcher completes returns
    exactly one content block of type text and sets no [isError] flag; its
    text is a string, except for the three tools that hand the remote
    result through, whose text is that result itself (or the string of a
    file not found). The boundary returns what the dispatcher returns,
    rethrows an [McpError], and turns any other error into one text block
    flagged [isError]. *)
Theorem tool_result_shape :
  forall (toolName : string) (arguments_ : JSValue) (ep : Endpoint),
    decodes_json ep ->
    (forall res sent,
        handleToolCall toolName arguments_ ep = (Return res, sent) ->
        isError res = None /\
        exists t,
          content res = [ {| type := "text"; text := t |} ] /\
          if raw_text toolName
          then exists request response data,
                 sent = [request] /\
                 ep request = Resolved response /\
                 payload response = BodyJson data /\
                 (t = data.["result"] \/ t = JStr "File not found")
          else exists s, t = JStr s) /\
    callTool toolName arguments_ ep =
    match handleToolCall toolName arguments_ ep with
    | (Return res, sent) => (Return res, sent)
    | (Throw e, sent) =>
        if instanceof_McpError e then (Throw e, sent)
        else (Return {| content := [ {| type := "text";
                                        text := JStr ("Error: " ++ error_message e) |} ];
                        isError := Some true |}, sent)
    end.
Proof.
  intros toolName arguments_ ep Hjson. split; [|apply callTool_run].
  intros res sent Hrun.
  destruct (handleToolCall_cases toolName arguments_) as
    [[t [h [Hreg [Hn Hcall]]]] | [_ Hcall]]; rewrite Hcall in Hrun;
    [|discriminate].
  subst toolName.
  destruct (registered_anatomy t h Hreg arguments_ ep _ _ Hrun)
    as [[_ [msg [=]]] | [action [params [Hsent Hout]]]].
  destruct (settle _) as [r|e] eqn:Hs; [|discriminate].
  destruct (settle_Return _ _ _ Hs) as [response [data [Hep [Hp [Hown Hr]]]]].
  destruct (raw_text (name t)).
  - destruct Hout as [[= ->]|[= ->]]; (split; [reflexivity|]).
    + exists r. split; [reflexivity|].
      exists (request_of action params (JNum 6)), response, data.
      repeat split; try assumption. left. exact Hr.
    + exists (JStr "File not found"). split; [reflexivity|].
      exists (request_of action params (JNum 6)), response, data.
      repeat split; try assumption. now right.
  - destruct (json_rendered (name t)).
    + injection Hout as ->. split; [reflexivity|].
      destruct (stringify_defined r 2) as [s Hstr].
      { apply json_defined. subst r. apply own_member_json; [|assumption].
        now apply (Hjson _ _ _ Hep Hp). }
      exists (JStr s). split; [cbn; now rewrite Hstr | now exists s].
    + destruct Hout as [[_ [=]] | [s [= ->]]].
      split; [reflexivity|]. exists (JStr s). split; [reflexivity | now exists s].
Qed.

Lemma tool_result_shape_witness :
  exists t,
    fst (handleToolCall "getDeckNames" JUndefined
           (fun _ => Resolved {| status := 200;
                                 payload := BodyJson (JObj [("result", JArr [JStr "Default"]);
                                                            ("error", JNull)]) |}))
    = Return (text_result (JStr t)).
Proof.
  set (ep := fun _ : HttpRequest =>
               Resolved {| status := 200;
                           payload := BodyJson (JObj [("result", JArr [JStr "Default"]);
                                                      ("error", JNull)]) |}).
  assert (Hep : decodes_json ep).
  { intros request response data [= <-] [= <-]. reflexivity. }
  destruct (handleToolCall "getDeckNames" JUndefined ep) as [out sent] eqn:Hrun.
  assert (Hout : exists res, out = Return res).
  { vm_compute in Hrun. injection Hrun as <- _. eexists. reflexivity. }
  destruct Hout as [res ->].
  destruct (proj1 (tool_result_shape "getDeckNames" JUndefined ep Hep) res sent Hrun)
    as [He [t [Hc Ht]]].
  cbn in Ht. destruct Ht as [s ->]. exists s. cbn [fst].
  destruct res as [c e]. cbn in He, Hc. now subst.
Defined.

(** C9 as stated fails on the text being a string: [getMediaDirPath]
    hands the remote result through, here the number 42. *)
Lemma raw_text_is_not_always_a_string :
  handleToolCall "getMediaDirPath" JUndefined
    (fun _ => Resolved {| status := 200;
                          payload := BodyJson (JObj [("result", JNum 42);
                                                     ("error", JNull)]) |})
  = (Return {| content := [ {| type := "text"; text := JNum 42 |} ];
               isError := None |},
     [request_of "getMediaDirPath" (JObj []) (JNum 6)]).
Proof. reflexivity. Qed.

(** ** The JSON rendering keeps every member *)

Lemma JSValue_induction (P : JSValue -> Prop) :
  P JUndefined -> P JNull -> (forall b, P (JBool b)) -> (forall n, P (JNum n)) ->
  (forall s, P (JStr s)) ->
  (forall xs, Forall P xs -> P (JArr xs)) ->
  (forall ps, Forall (fun p => P (snd p)) ps -> P (JObj ps)) ->
  forall v, P v.
Proof.
  intros Hu Hn Hb Hz Hs Ha Ho.
  fix IH 1. intros [| |b|n|s|xs|ps].
  - exact Hu.
  - exact Hn.
  - apply Hb.
  - apply Hz.
  - apply Hs.
  - apply Ha. induction xs as [|x xs IHxs]; constructor; [apply IH | exact IHxs].
  - apply Ho. induction ps as [|[k x] ps IHps]; constructor; [apply IH | exact IHps].
Qed.

Lemma append_assoc (a b c : string) : (a ++ b) ++ c = a ++ (b ++ c).
Proof. induction a as [|x a IH]; simpl; [reflexivity | now rewrite IH]. Qed.

Lemma occurs_refl (s : string) : occurs_in s s.
Proof. exists EmptyString, EmptyString. simpl. now rewrite append_empty. Qed.

Lemma occurs_app_l (n s a : string) : occurs_in n s -> occurs_in n (a ++ s).
Proof.
  intros [x [y ->]]. exists (a ++ x), y. now rewrite append_assoc.
Qed.

Lemma occurs_app_r (n s b : string) : occurs_in n s -> occurs_in n (s ++ b).
Proof.
  intros [x [y ->]]. exists x, (y ++ b). now rewrite !append_assoc.
Qed.

Lemma occurs_trans (n m s : string) : occurs_in n m -> occurs_in m s -> occurs_in n s.
Proof.
  intros Hnm [x [y ->]]. apply occurs_app_l. now apply occurs_app_r.
Qed.

Lemma occurs_concat (sep p : string) (l : list string) :
  In p l -> occurs_in p (String.concat sep l).
Proof.
  induction l as [|x l IH]; [intros []|].
  intros [->|Hin]; simpl; destruct l as [|y l].
  - apply occurs_refl.
  - apply occurs_app_r. apply occurs_refl.
  - destruct Hin.
  - apply occurs_app_l. apply occurs_app_l. now apply IH.
Qed.

Lemma prefix_append (n b : string) : prefix n (n ++ b) = true.
Proof.
  induction n as [|c n IH]; simpl; [now destruct b|].
  destruct (ascii_dec c c) as [_|Hne]; [exact IH | contradiction].
Qed.

Lemma contains_prefix (n s : string) : prefix n s = true -> contains n s = true.
Proof. intros H. destruct s; cbn [contains]; now rewrite H. Qed.

Lemma occurs_contains (n s : string) : occurs_in n s -> contains n s = true.
Proof.
  intros [a [b ->]]. induction a as [|c a IH].
  - cbn [append]. apply contains_prefix. apply prefix_append.
  - cbn [append contains]. rewrite IH. apply orb_true_r.
Qed.

Lemma serialize_defined (gap indent : string) (v : JSValue) :
  v <> JUndefined -> exists s, SerializeJSONProperty gap indent v = Some s.
Proof.
  intros Hv.
  destruct v; cbn [SerializeJSONProperty]; try (eexists; reflexivity);
    try contradiction.
  - destruct b; eexists; reflexivity.
  - match goal with |- context [match ?l with [] => _ | _ :: _ => _ end] =>
      destruct l end; [eexists; reflexivity|].
    destruct (gap =? EmptyString); eexists; reflexivity.
  - match goal with |- context [match ?l with [] => _ | _ :: _ => _ end] =>
      destruct l end; [eexists; reflexivity|].
    destruct (gap =? EmptyString); eexists; reflexivity.
Qed.

(** Every key of every member of a JSON value occurs, quoted, in its
    serialization. *)
Lemma serialize_keeps_keys (gap : string) (v : JSValue) :
  is_json v = true ->
  forall indent s k,
    SerializeJSONProperty gap indent v = Some s ->
    In k (member_keys v) ->
    occurs_in (QuoteJSONString k) s.
Proof.
  induction v as [| |b|n|str|xs IH|ps IH] using JSValue_induction;
    intros Hj indent s k Hs Hk; try (now destruct Hk).
  - (* array *)
    cbn [member_keys] in Hk. apply in_flat_map in Hk as [x [Hx Hkx]].
    cbn [is_json] in Hj. rewrite forallb_forall in Hj.
    rewrite Forall_forall in IH.
    destruct (serialize_defined gap (indent ++ gap) x
                (json_defined x (Hj x Hx))) as [sx Hsx].
    pose proof (IH x Hx (Hj x Hx) _ _ _ Hsx Hkx) as Hocc.
    cbn [SerializeJSONProperty] in Hs.
    match type of Hs with
    | context [match ?l with [] => _ | _ :: _ => _ end] =>
        assert (Hin : In sx l); [|set (partial := l) in *]
    end.
    { clear -Hx Hsx. induction xs as [|y xs IHxs]; [destruct Hx|].
      destruct Hx as [->|Hx]; [left; now rewrite Hsx | right; now apply IHxs]. }
    destruct partial as [|p partial'] eqn:Ep; [destruct Hin|]. rewrite <- Ep in *.
    apply (occurs_trans _ sx _ Hocc).
    destruct (gap =? EmptyString);
      match type of Hs with
      | Some ?X = Some s => replace s with X by congruence
      end.
    + apply occurs_app_l, occurs_app_r. now apply occurs_concat.
    + do 3 apply occurs_app_l. apply occurs_app_r. now apply occurs_concat.
  - (* object *)
    cbn [member_keys] in Hk. apply in_flat_map in Hk as [[k' x] [Hx Hkx]].
    cbn [fst snd] in Hkx.
    cbn [is_json] in Hj. rewrite forallb_forall in Hj.
    rewrite Forall_forall in IH.
    pose proof (Hj (k', x) Hx) as Hjx. cbn [snd] in Hjx.
    destruct (serialize_defined gap (indent ++ gap) x (json_defined x Hjx))
      as [sx Hsx].
    set (entry := QuoteJSONString k' ++ ":" ++
                  (if gap =? EmptyString then EmptyString else " ") ++ sx).
    assert (Hocc : occurs_in (QuoteJSONString k) entry).
    { destruct Hkx as [->|Hkx].
      - apply occurs_app_r. apply occurs_refl.
      - unfold entry. do 3 apply occurs_app_l.
        apply (IH (k', x) Hx Hjx _ _ _ Hsx Hkx). }
    cbn [SerializeJSONProperty] in Hs.
    match type of Hs with
    | context [match ?l with [] => _ | _ :: _ => _ end] =>
        assert (Hin : In entry l); [|set (partial := l) in *]
    end.
    { clear -Hx Hsx. induction ps as [|[k0 y] ps IHps]; [destruct Hx|].
      destruct Hx as [[= -> ->]|Hx].
      - rewrite Hsx. now left.
      - destruct (SerializeJSONProperty gap (indent ++ gap) y);
          [right|]; now apply IHps. }
    destruct partial as [|p partial'] eqn:Ep; [destruct Hin|]. rewrite <- Ep in *.
    apply (occurs_trans _ entry _ Hocc).
    destruct (gap =? EmptyString);
      match type of Hs with
      | Some ?X = Some s => replace s with X by congruence
      end.
    + apply occurs_app_l, occurs_app_r. now apply occurs_concat.
    + do 3 apply occurs_app_l. apply occurs_app_r. now apply occurs_concat.
Qed.

Lemma stringify_keeps_keys (R : JSValue) (space : nat) :
  is_json R = true ->
  exists s, JSON_stringify R space = JStr s /\
            forall k, In k (member_keys R) -> contains (QuoteJSONString k) s = true.
Proof.
  intros Hj. unfold JSON_stringify.
  destruct (serialize_defined (spaces (Nat.min space 10)) EmptyString R
              (json_defined R Hj)) as [s Hs].
  rewrite Hs. exists s. split; [reflexivity|].
  intros k Hk. apply occurs_contains.
  now apply (serialize_keeps_keys _ R Hj EmptyString s k Hs).
Qed.

(** ** Round trip of a successful exchange *)

Lemma registered_rendering (t : Tool) (h : JSValue -> M ToolResult) :
  In (t, h) registry -> rendering (name t) h.
Proof.
  intros Hin. apply registry_cases in Hin.
  pose proof handlers_rendering as HF. rewrite Forall_forall in HF.
  apply (HF _ Hin).
Qed.

Lemma json_rendered_not_raw (toolName : string) :
  json_rendered toolName = true -> raw_text toolName = false.
Proof.
  intros Hj. destruct (raw_text toolName) eqn:Hr; [|reflexivity].
  unfold raw_text in Hr. apply mem_In in Hr.
  destruct Hr as [<-|[<-|[<-|[]]]]; discriminate Hj.
Qed.

(** C5, as the code has it. On the reply [{error: null, result: R}] the
    invoker returns [R] itself, and the outcome of the tool call is a
    function of [R] alone, except for [guiAnswerCard] and
    [guiDeckOverview], whose status line also repeats the validated
    argument. The call returns one text block, unless the tool
    interpolates [R] and [R] has no string conversion, which is the
    TypeError of the template; for the JSON-rendered tools the text is the
    pretty-printed JSON of [R], in which the key of every member of [R]
    occurs. In particular [suspend] answered with the result [false]
    returns the text of a failure and does not throw. *)
Theorem success_round_trip :
  (forall ep R action params version,
      replies_with ep JNull R ->
      fst (invokeAnkiConnect action params version ep) = Return R) /\
  (forall toolName,
      exists render : JSValue -> JSValue -> Outcome ToolResult,
        (forall a a' R,
            (toolName = "guiAnswerCard" -> a.["ease"] = a'.["ease"]) ->
            (toolName = "guiDeckOverview" -> a.["name"] = a'.["name"]) ->
            render a R = render a' R) /\
        (forall ep R arguments_ out sent,
            replies_with ep JNull R ->
            handleToolCall toolName arguments_ ep = (out, sent) ->
            sent <> [] ->
            out = render arguments_ R /\
            ((exists t, out = Return (text_result t)) \/
             (ToString R = None /\
              out = Throw (TypeError "Cannot convert object to primitive value"))) /\
            (json_rendered toolName = true ->
             out = Return (text_result (JSON_stringify R 2))))) /\
  (forall R,
      is_json R = true ->
      exists s, JSON_stringify R 2 = JStr s /\
                forall k, In k (member_keys R) ->
                          contains (QuoteJSONString k) s = true) /\
  (forall ep,
      replies_with ep JNull (JBool false) ->
      handleToolCall "suspend" (JObj [("cards", JArr [JNum 12345])]) ep =
      (Return (text_result (JStr "Suspend cards: Failed (possibly already suspended)")),
       [request_of "suspend" (JObj [("cards", JArr [JNum 12345])]) (JNum 6)])).
Proof.
  assert (Hsettle : forall ep R request,
             replies_with ep JNull R -> settle (ep request) = Return R).
  { intros ep R request Hep. now rewrite (settle_envelope ep JNull R request Hep). }
  split; [|split; [|split]].
  - intros ep R action params version Hep. rewrite invoke_run. cbv zeta.
    now apply Hsettle.
  - intros toolName.
    destruct (handleToolCall_cases toolName JUndefined) as
      [[t [h [Hreg [Hn _]]]] | [Hnot _]].
    + destruct (registered_rendering t h Hreg) as [render [Hrender Hsame]].
      exists render. rewrite Hn in Hsame. split; [exact Hsame|].
      intros ep R arguments_ out sent Hep Hrun Hsent. subst toolName.
      rewrite (registry_dispatch t h Hreg) in Hrun.
      destruct (registered_anatomy t h Hreg arguments_ ep out sent Hrun)
        as [[-> _] | [action [params [-> Hout]]]]; [contradiction|].
      rewrite (Hsettle ep R _ Hep) in Hout.
      split; [apply (Hrender arguments_ ep out _ R Hrun); now apply Hsettle|].
      split.
      * destruct (raw_text (name t)).
        { destruct Hout as [->| ->]; left; eexists; reflexivity. }
        destruct (json_rendered (name t)).
        { subst out. left; eexists; reflexivity. }
        destruct Hout as [[Hnone ->] | [s ->]];
          [right; now split | left; eexists; reflexivity].
      * intros Hj. rewrite (json_rendered_not_raw _ Hj), Hj in Hout. exact Hout.
    + exists (fun _ _ => Throw (Error EmptyString)). split; [reflexivity|].
      intros ep R arguments_ out sent _ Hrun Hsent.
      rewrite (default_branch toolName arguments_ ep Hnot) in Hrun.
      injection Hrun as _ <-. contradiction.
  - intros R HR. now apply stringify_keeps_keys.
  - intros ep Hep.
    change (handleToolCall "suspend" (JObj [("cards", JArr [JNum 12345])]))
      with (handleSuspend (JObj [("cards", JArr [JNum 12345])])).
    unfold handleSuspend.
    cbn [js_get own_property String.eqb Ascii.eqb Bool.eqb truthy negb orb
           Array_isArray].
    rewrite bind_invoke. cbn [default_parameter].
    now rewrite (Hsettle ep (JBool false) _ Hep).
Qed.

Lemma success_round_trip_witness :
  handleToolCall "suspend" (JObj [("cards", JArr [JNum 12345])])
    (fun _ => Resolved {| status := 200;
                          payload := BodyJson (JObj [("error", JNull);
                                                     ("result", JBool false)]) |})
  = (Return (text_result (JStr "Suspend cards: Failed (possibly already suspended)")),
     [request_of "suspend" (JObj [("cards", JArr [JNum 12345])]) (JNum 6)]).
Proof.
  apply (proj2 (proj2 (proj2 success_round_trip))).
  intros request. do 2 eexists. split; [reflexivity|]. split; [reflexivity|].
  split; [reflexivity|]. eexists. repeat split; reflexivity.
Defined.

(** C5 as stated fails on the payload being derived from the result alone:
    the same reply gives [guiDeckOverview] two different texts for two
    deck names. *)
Lemma status_line_repeats_argument :
  fst (handleToolCall "guiDeckOverview" (JObj [("name", JStr "Spanish")])
         (fun _ => Resolved {| status := 200;
                               payload := BodyJson (JObj [("error", JNull);
                                                          ("result", JBool true)]) |}))
  = Return (text_result (JStr "Open deck overview for 'Spanish': Success")) /\
  fst (handleToolCall "guiDeckOverview" (JObj [("name", JStr "French")])
         (fun _ => Resolved {| status := 200;
                               payload := BodyJson (JObj [("error", JNull);
                                                          ("result", JBool true)]) |}))
  = Return (text_result (JStr "Open deck overview for 'French': Success")).
Proof. split; reflexivity. Qed.

(** ** The fields a handler reads and forwards *)

Ltac in_list := cbv; repeat first [left; reflexivity | right].

Ltac prove_reads :=
  let H := fresh "H" in
  intros ? ? H; cbv beta;
  lazymatch goal with
  | |- ?h ?a = ?h ?a' =>
      unfold h;
      repeat match goal with
             | |- context [js_get a ?k] => rewrite (H k) by in_list
             end
  | _ => idtac
  end;
  reflexivity.

Lemma handlers_read_declared :
  Forall (fun th => reads_declared (fst th) (snd th)) registry.
Proof.
  unfold registry, getTools, cases. cbn [combine map snd].
  repeat (apply Forall_cons; [cbn [fst snd]; prove_reads |]).
  apply Forall_nil.
Qed.

Lemma bind_invoke_sent {B : Type} (action : string) (params : JSValue)
    (k : JSValue -> M B) (ep : Endpoint) :
  (forall r, snd (k r ep) = []) ->
  snd (bind (invokeAnkiConnect action params JUndefined) k ep) =
  [request_of action (default_parameter params (JObj [])) (JNum 6)].
Proof.
  intros Hk. rewrite bind_invoke. destruct (settle _); [|reflexivity].
  cbn [snd]. now rewrite Hk.
Qed.

Lemma truthy_defined (v : JSValue) :
  truthy v = true -> strict_equal v JUndefined = false.
Proof. now destruct v. Qed.

(** The facts the guards leave about the arguments, as rewriting rules. *)
Ltac guard_facts :=
  split_guards;
  repeat match goal with
  | G : negb ?b = false |- _ => apply negb_false_iff in G
  | G : negb ?b = true |- _ => apply negb_true_iff in G
  end;
  repeat match goal with
  | G : truthy ?v = true |- _ =>
      lazymatch goal with
      | _ : strict_equal v JUndefined = false |- _ => fail
      | _ => pose proof (truthy_defined v G)
      end
  end.

Ltac rewrite_facts :=
  repeat match goal with
  | E : ?b = true |- context [?b] => rewrite E
  | E : ?b = false |- context [?b] => rewrite E
  end.

(** Case analysis of a key against the names of a concrete list: the goal
    for each name, then the goal for a key that is none of them. *)
Ltac key_cases k names named other :=
  lazymatch names with
  | ?p :: ?rest =>
      let Hne := fresh "Hne" in
      destruct (String.eqb_spec p k) as [<-|Hne];
      [ named | apply String.eqb_neq in Hne; key_cases k rest named other ]
  | _ => other
  end.

Ltac forwarded_named :=
  repeat match goal with
  | |- context [mem ?a ?l] =>
      let b := eval vm_compute in (mem a l) in change (mem a l) with b
  | |- context [truthy_gated ?a ?l] =>
      let b := eval vm_compute in (truthy_gated a l) in
      change (truthy_gated a l) with b
  end;
  cbn [own_property String.eqb Ascii.eqb Bool.eqb andb];
  rewrite_facts; cbn [negb andb]; reflexivity.

Ltac forwarded_other k :=
  cbn [own_property mem existsb];
  repeat match goal with
  | Hne : (?p =? k) = false |- _ => rewrite Hne; clear Hne
  end;
  cbn [orb andb]; reflexivity.

Ltac prove_forwards :=
  let H := fresh "H" in let Hsent := fresh "Hsent" in
  intros ? ep ? ? H Hsent;
  unfold_handler H; repeat guard_step H;
  [ try (now destruct Hsent) .. | ];
  try (now destruct Hsent);
  cbv zeta in H;
  apply (f_equal snd) in H;
  rewrite bind_invoke_sent in H
    by (intros; cbv beta;
        first [ rewrite bind_template_ret | rewrite if_ret | rewrite ret_run ];
        reflexivity);
  cbn [snd] in H; subst;
  repeat match goal with
         | |- context [if ?c then js_set _ _ _ else _] => destruct c eqn:?
         end;
  cbn [default_parameter js_set set_property String.eqb Ascii.eqb Bool.eqb];
  do 2 eexists; (split; [reflexivity|]);
  guard_facts;
  let k := fresh "k" in
  intros k; unfold forwards;
  lazymatch goal with
  | |- context [property_names (inputSchema ?t)] =>
      let l := eval cbv in (property_names (inputSchema t)) in
      let n := eval cbv in (name t) in
      change (property_names (inputSchema t)) with l;
      change (name t) with n;
      key_cases k l ltac:(forwarded_named) ltac:(forwarded_other k)
  end.

Lemma handlers_forward_declared :
  Forall (fun th => forwards_declared (fst th) (snd th)) registry.
Proof.
  unfold registry, getTools, cases. cbn [combine map snd].
  repeat (apply Forall_cons; [cbn [fst snd]; prove_forwards |]).
  apply Forall_nil.
Qed.

(** Writing a property leaves the others as they are. *)
Lemma own_property_set_other (ps : list (string * JSValue)) (k k' : string)
    (v : JSValue) :
  k <> k' -> own_property (set_property ps k v) k' = own_property ps k'.
Proof.
  intros Hne. apply String.eqb_neq in Hne.
  induction ps as [|[k0 v0] ps IH]; cbn [set_property own_property].
  - now rewrite Hne.
  - destruct (k0 =? k) eqn:E; cbn [own_property].
    + apply String.eqb_eq in E. subst k0. now rewrite Hne.
    + now rewrite IH.
Qed.

Lemma js_get_set_other (ps : list (string * JSValue)) (k k' : string) (v : JSValue) :
  k <> k' -> (js_set (JObj ps) k v).[k'] = (JObj ps).[k'].
Proof.
  intros Hne. cbn [js_set js_get]. now rewrite own_property_set_other.
Qed.

(** ** Validation of the required fields *)

Lemma provided_truthy (s : Schema) (v : JSValue) :
  provided s v = true -> truthy v = true.
Proof.
  destruct s; cbn [provided]; intros H;
    repeat (apply andb_true_iff in H as [H _]); exact H.
Qed.

Lemma provided_conforms (s : Schema) (v : JSValue) :
  provided s v = true -> conforms s v = true.
Proof.
  destruct s; cbn [provided]; intros H;
    apply andb_true_iff in H as [H _]; apply andb_true_iff in H as [_ H]; exact H.
Qed.

Lemma provided_string (v : JSValue) :
  provided SString v = true -> (typeof v =? "string") = true.
Proof. intros H. now apply provided_conforms in H. Qed.

Lemma provided_number (v : JSValue) :
  provided SNumber v = true -> (typeof v =? "number") = true.
Proof. intros H. now apply provided_conforms in H. Qed.

Lemma provided_boolean (v : JSValue) :
  provided SBoolean v = true -> (typeof v =? "boolean") = true.
Proof. intros H. now apply provided_conforms in H. Qed.

Lemma provided_array (items : Schema) (lo hi : option nat) (v : JSValue) :
  provided (SArray items lo hi) v = true -> Array_isArray v = true.
Proof. intros H. apply provided_conforms in H. now destruct v. Qed.

Lemma provided_object (props : option (list (string * Schema)))
    (req : option (list string)) (v : JSValue) :
  provided (SObject props req) v = true -> (typeof v =? "object") = true.
Proof. intros H. apply provided_conforms in H. now destruct v. Qed.

Lemma provided_member (props : list (string * Schema)) (req : list string)
    (v : JSValue) (k : string) (sk : Schema) :
  provided (SObject (Some props) (Some req)) v = true ->
  In (k, sk) props ->
  mem k req = true ->
  provided sk v.[k] = true.
Proof.
  intros H Hin Hreq. pose proof (provided_conforms _ _ H) as Hc.
  destruct v; try discriminate Hc. clear Hc.
  cbn [provided] in H. apply andb_true_iff in H as [_ H].
  induction props as [|[k' s'] props IH]; [destruct Hin|].
  apply andb_true_iff in H as [H1 H2].
  destruct Hin as [[= -> ->]|Hin]; [|now apply IH].
  rewrite Hreq in H1. cbn [js_get].
  destruct (own_property properties k); [exact H1 | discriminate].
Qed.

(** What the schema of a provided field tells the guards of its handler. *)
Ltac members_facts Hf props :=
  lazymatch props with
  | (?k, ?sk) :: ?rest =>
      try (let Hm := fresh "Hm" in
           lazymatch type of Hf with
           | provided (SObject (Some ?ps) (Some ?rq)) ?v = true =>
               pose proof (provided_member ps rq v k sk Hf
                             ltac:(in_list) eq_refl) as Hm
           end;
           provided_facts Hm);
      members_facts Hf rest
  | _ => idtac
  end
with provided_facts Hf :=
  pose proof (provided_truthy _ _ Hf);
  lazymatch type of Hf with
  | provided SString _ = true => pose proof (provided_string _ Hf)
  | provided SNumber _ = true => pose proof (provided_number _ Hf)
  | provided SBoolean _ = true => pose proof (provided_boolean _ Hf)
  | provided (SArray _ _ _) _ = true => pose proof (provided_array _ _ _ _ Hf)
  | provided (SObject (Some ?props) (Some _)) _ = true =>
      pose proof (provided_object _ _ _ Hf); members_facts Hf props
  | provided (SObject _ _) _ = true => pose proof (provided_object _ _ _ Hf)
  end.

(** The facts of every required field of [t], from a hypothesis [Hprov]
    that gives [field_provided] for each of them. *)
Ltac field_facts t a f Hf :=
  let s := eval cbv in (field_schema (inputSchema t) f) in
  lazymatch s with
  | Some ?sk =>
      change (provided sk (js_get a f) = true) in Hf;
      provided_facts Hf
  end.

Ltac required_facts t a Hprov fields :=
  lazymatch fields with
  | ?f :: ?rest =>
      let Hf := fresh "Hf" in
      pose proof (Hprov f ltac:(in_list)) as Hf;
      field_facts t a f Hf;
      required_facts t a Hprov rest
  | _ => idtac
  end.

(** The same for the required fields other than the omitted one. *)
Ltac other_facts t a Hothers fields :=
  lazymatch fields with
  | ?f :: ?rest =>
      try (let Hf := fresh "Hf" in
           assert (Hf : field_provided (inputSchema t) a f = true)
             by (apply Hothers; [in_list | discriminate]);
           field_facts t a f Hf);
      other_facts t a Hothers rest
  | _ => idtac
  end.

Ltac all_facts :=
  repeat match goal with
  | G : truthy ?v = true |- _ =>
      lazymatch goal with
      | _ : strict_equal v JUndefined = false |- _ => fail
      | _ => pose proof (truthy_defined v G)
      end
  end.

Ltac refute_guard G :=
  repeat match goal with
  | E : truthy _ = true |- _ => rewrite E in G
  | E : (typeof _ =? _) = true |- _ => rewrite E in G
  | E : Array_isArray _ = true |- _ => rewrite E in G
  | E : strict_equal _ JUndefined = false |- _ => rewrite E in G
  end;
  cbn [negb orb] in G; discriminate G.

Ltac prove_accepts t :=
  let H := fresh "H" in let Hprov := fresh "Hprov" in let a := fresh "a" in
  intros a ep ? ? Hprov H;
  let fields := eval cbv in (required_names (inputSchema t)) in
  required_facts t a Hprov fields; all_facts;
  unfold_handler H;
  repeat (guard_step H;
          [ first [ match goal with
                    | G : _ || _ = true |- _ => refute_guard G
                    | G : negb _ = true |- _ => refute_guard G
                    end
                  | right; eexists; split; [reflexivity | in_list] ] | ]);
  left; cbv zeta in H; apply (f_equal snd) in H;
  rewrite bind_invoke_sent in H
    by (intros; cbv beta;
        first [ rewrite bind_template_ret | rewrite if_ret | rewrite ret_run ];
        reflexivity);
  cbn [snd] in H; subst; discriminate.


Ltac absurd_guard :=
  exfalso; split_guards;
  match goal with
  | G : _ = false |- _ => now cbn in G
  end.

Ltac reject_step t a Hf :=
  lazymatch goal with
  | |- exists msg, (if ?c then throw ?e else _) ?ep = _ /\ _ =>
      let G := fresh "G" in
      destruct c eqn:G;
      [ eexists; split;
        [ reflexivity
        | let Hothers := fresh "Hothers" in
          intros Hothers;
          first [ vm_compute; reflexivity
                | exfalso;
                  let fields := eval cbv in (required_names (inputSchema t)) in
                  other_facts t a Hothers fields; all_facts;
                  refute_guard G ] ]
      | rewrite ?Hf in G; try absurd_guard ]
  end.

Ltac reject_field t a :=
  let Hf := fresh "Hf" in
  intros Hf; cbv beta;
  lazymatch goal with
  | |- exists msg, ?h ?x ?ep = _ /\ _ => unfold h
  | |- exists msg, ?h ?ep = _ /\ _ => unfold h
  end;
  repeat reject_step t a Hf.

Ltac prove_rejects t :=
  let a := fresh "a" in let f := fresh "f" in let Hin := fresh "Hin" in
  intros a ? f Hin;
  cbv in Hin;
  repeat (destruct Hin as [<-|Hin]; [reject_field t a|]);
  destruct Hin.

Lemma handlers_reject_omitted :
  Forall (fun th => rejects_omitted (fst th) (snd th)) registry.
Proof.
  unfold registry, getTools, cases. cbn [combine map snd].
  repeat (apply Forall_cons;
          [cbn [fst snd];
           lazymatch goal with |- rejects_omitted ?t _ => prove_rejects t end |]).
  apply Forall_nil.
Qed.

Lemma handlers_accept_provided :
  Forall (fun th => accepts_provided (fst th) (snd th)) registry.
Proof.
  unfold registry, getTools, cases. cbn [combine map snd].
  repeat (apply Forall_cons;
          [cbn [fst snd];
           lazymatch goal with |- accepts_provided ?t _ => prove_accepts t end |]).
  apply Forall_nil.
Qed.

(** ** Required fields *)

Lemma registered_validation (t : Tool) :
  In t getTools ->
  exists h,
    (rejects_omitted t h /\ accepts_provided t h) /\
    forall arguments_, handleToolCall (name t) arguments_ = h arguments_.
Proof.
  apply (for_all_registered (fun t h => rejects_omitted t h /\ accepts_provided t h)).
  pose proof handlers_reject_omitted as Hr.
  pose proof handlers_accept_provided as Ha.
  rewrite Forall_forall in *. intros th Hin. split; [now apply Hr | now apply Ha].
Qed.

(** C2, as the code has it. For every tool of the catalogue: a call in
    which a required field is left out fails with an [InvalidParams] error
    before any exchange, and the message quotes the field when the other
    required fields are provided; and a call in which every required field
    is provided (present, of the declared type and truthy, its required
    members likewise) reaches the endpoint, unless one of the four checks
    of shape refuses it. *)
Theorem required_fields_validated :
  forall (t : Tool) (arguments_ : JSValue) (ep : Endpoint),
    In t getTools ->
    (forall f,
        In f (required_names (inputSchema t)) ->
        arguments_.[f] = JUndefined ->
        exists msg,
          handleToolCall (name t) arguments_ ep =
            (Throw (McpError InvalidParams msg), []) /\
          ((forall g, In g (required_names (inputSchema t)) -> g <> f ->
                      field_provided (inputSchema t) arguments_ g = true) ->
           contains f msg = true)) /\
    ((forall f, In f (required_names (inputSchema t)) ->
                field_provided (inputSchema t) arguments_ f = true) ->
     forall out sent,
       handleToolCall (name t) arguments_ ep = (out, sent) ->
       sent <> [] \/
       exists msg, out = Throw (McpError InvalidParams msg) /\ In msg shape_messages).
Proof.
  intros t arguments_ ep Hin.
  destruct (registered_validation t Hin) as [h [[Hr Ha] Hcall]].
  rewrite Hcall. split.
  - intros f Hf Hu. exact (Hr arguments_ ep f Hf Hu).
  - intros Hp out sent Hrun. exact (Ha arguments_ ep out sent Hp Hrun).
Qed.

Lemma required_fields_validated_witness :
  exists msg,
    handleToolCall "setEaseFactors" (JObj [("cards", JArr [JNum 1])])
      (fun _ => Rejected "unreachable") =
      (Throw (McpError InvalidParams msg), []) /\
    contains "easeFactors" msg = true.
Proof.
  destruct (proj1 (required_fields_validated SET_EASE_FACTORS_TOOL
                     (JObj [("cards", JArr [JNum 1])])
                     (fun _ => Rejected "unreachable")
                     ltac:(in_list))
              "easeFactors" ltac:(in_list) eq_refl) as [msg [Hrun Hmsg]].
  exists msg. split; [exact Hrun|]. apply Hmsg.
  intros g [<-|[<-|[]]] Hne; [reflexivity | now destruct Hne].
Defined.

(** C2 as stated fails for falsy values: the deck name [""] is present and
    a string, and [createDeck] refuses it as missing. *)
Lemma empty_deck_name_refused :
  has_own_property (JObj [("deck", JStr EmptyString)]) "deck" = true /\
  conforms (inputSchema CREATE_DECK_TOOL) (JObj [("deck", JStr EmptyString)]) = true /\
  handleToolCall "createDeck" (JObj [("deck", JStr EmptyString)])
    (fun _ => Rejected "unreachable")
  = (Throw (McpError InvalidParams "Missing required parameter: deck"), []).
Proof. repeat split. Qed.

(** ** Undeclared and optional fields *)

Lemma registered_fields (t : Tool) :
  In t getTools ->
  exists h,
    (reads_declared t h /\ forwards_declared t h) /\
    forall arguments_, handleToolCall (name t) arguments_ = h arguments_.
Proof.
  apply (for_all_registered (fun t h => reads_declared t h /\ forwards_declared t h)).
  pose proof handlers_read_declared as Hr.
  pose proof handlers_forward_declared as Hf.
  rewrite Forall_forall in *. intros th Hin. split; [now apply Hr | now apply Hf].
Qed.

(** C10, as the code has it. For every tool of the catalogue: the call
    depends on its arguments through the fields the schema names only, so
    that adding or changing any other field changes neither the outcome
    nor the request; and the parameters of the request hold exactly the
    named fields the handler forwards, each with the caller's value: a
    field copied under a truthiness test when its value is truthy, any
    other named field when its value is not [undefined]. *)
Theorem undeclared_fields_ignored :
  forall (t : Tool),
    In t getTools ->
    (forall a a',
        (forall k, In k (property_names (inputSchema t)) -> a.[k] = a'.[k]) ->
        handleToolCall (name t) a = handleToolCall (name t) a') /\
    (forall ps k v,
        ~ In k (property_names (inputSchema t)) ->
        handleToolCall (name t) (js_set (JObj ps) k v) =
        handleToolCall (name t) (JObj ps)) /\
    (forall arguments_ ep out sent,
        handleToolCall (name t) arguments_ ep = (out, sent) ->
        sent <> [] ->
        exists action ps,
          sent = [request_of action (JObj ps) (JNum 6)] /\
          forall k, own_property ps k =
                    if forwards t arguments_ k then Some arguments_.[k] else None).
Proof.
  intros t Hin. destruct (registered_fields t Hin) as [h [[Hr Hf] Hcall]].
  assert (Hframe : forall a a',
             (forall k, In k (property_names (inputSchema t)) -> a.[k] = a'.[k]) ->
             handleToolCall (name t) a = handleToolCall (name t) a').
  { intros a a' Hk. rewrite !Hcall. now apply Hr. }
  split; [exact Hframe|]. split.
  - intros ps k v Hk. apply Hframe. intros k' Hk'.
    apply js_get_set_other. intros ->. contradiction.
  - intros arguments_ ep out sent Hrun Hsent. rewrite Hcall in Hrun.
    exact (Hf arguments_ ep out sent Hrun Hsent).
Qed.

Lemma undeclared_fields_ignored_witness :
  handleToolCall "createDeck"
    (JObj [("deck", JStr "Spanish"); ("colour", JStr "red")]) =
  handleToolCall "createDeck" (JObj [("deck", JStr "Spanish")]).
Proof.
  apply (proj1 (proj2 (undeclared_fields_ignored CREATE_DECK_TOOL ltac:(in_list)))
           [("deck", JStr "Spanish")] "colour" (JStr "red")).
  intros [[=]|[]].
Defined.

(** C10 as stated fails on the optional fields being forwarded exactly
    when supplied: the pattern [""] is supplied to [getMediaFilesNames]
    and the parameters sent are empty. *)
Lemma empty_pattern_not_forwarded :
  has_own_property (JObj [("pattern", JStr EmptyString)]) "pattern" = true /\
  snd (handleToolCall "getMediaFilesNames" (JObj [("pattern", JStr EmptyString)])
         (fun _ => Rejected "unreachable"))
  = [request_of "getMediaFilesNames" (JObj []) (JNum 6)].
Proof. split; reflexivity. Qed.

(** * Further properties of the invoker *)

(** ** Failures of the exchange *)

(** X1. Before the envelope is looked at, the invoker fails in three ways,
    each after its one request: a rejected [fetch] and a body that is not
    JSON are rethrown as they are, and a status outside 200-299 is
    refused with the status in the message, whatever the body holds. *)
Theorem exchange_failures :
  forall (ep : Endpoint) (action : string) (params version : JSValue),
    (forall reason,
        ep (request_of action (default_parameter params (JObj []))
                              (default_parameter version (JNum 6))) = Rejected reason ->
        fst (invokeAnkiConnect action params version ep) = Throw (FetchError reason)) /\
    (forall response,
        ep (request_of action (default_parameter params (JObj []))
                              (default_parameter version (JNum 6))) = Resolved response ->
        ((status response < 200)%Z \/ (300 <= status response)%Z) ->
        fst (invokeAnkiConnect action params version ep) =
          Throw (Error ("HTTP error! Status: " ++ Number_toString (status response)))) /\
    (forall response reason,
        ep (request_of action (default_parameter params (JObj []))
                              (default_parameter version (JNum 6))) = Resolved response ->
        (200 <= status response < 300)%Z ->
        payload response = BodyInvalid reason ->
        fst (invokeAnkiConnect action params version ep) = Throw (SyntaxError reason)).
Proof.
  intros ep action params version. rewrite invoke_run. cbv zeta. cbn [fst].
  split; [|split].
  - intros reason ->. reflexivity.
  - intros response -> Hs. unfold settle, ok.
    replace ((200 <=? status response)%Z && (status response <? 300)%Z) with false;
      [reflexivity|].
    symmetry. apply andb_false_iff. destruct Hs as [Hs|Hs].
    + left. now apply Z.leb_gt.
    + right. now apply Z.ltb_ge.
  - intros response reason -> [Hlo Hhi] Hp. unfold settle, ok.
    apply Z.leb_le in Hlo. apply Z.ltb_lt in Hhi. now rewrite Hlo, Hhi, Hp.
Qed.

Lemma exchange_failures_witness :
  fst (invokeAnkiConnect "deckNames" JUndefined JUndefined
         (fun _ => Resolved {| status := 503;
                               payload := BodyJson (JObj [("error", JNull);
                                                          ("result", JArr [])]) |}))
  = Throw (Error "HTTP error! Status: 503").
Proof.
  apply (proj1 (proj2 (exchange_failures
                         (fun _ => Resolved {| status := 503;
                                               payload := BodyJson (JObj [("error", JNull);
                                                                          ("result", JArr [])]) |})
                         "deckNames" JUndefined JUndefined))
           {| status := 503;
              payload := BodyJson (JObj [("error", JNull); ("result", JArr [])]) |}
           eq_refl).
  right. simpl. lia.
Defined.

(** ** Replies that are no object *)

(** X2. A reply that decodes to a JSON value other than an object never
    counts as a success: on [null] the member access throws a TypeError,
    and a number, a boolean, a string or an array owns no [error] property
    and is refused as missing the error field. *)
Theorem non_object_reply_refused :
  forall (ep : Endpoint) (action : string) (params version : JSValue)
         (response : Response) (data : JSValue),
    ep (request_of action (default_parameter params (JObj []))
                          (default_parameter version (JNum 6))) = Resolved response ->
    ok response = true ->
    payload response = BodyJson data ->
    is_json data = true ->
    (forall ps, data <> JObj ps) ->
    fst (invokeAnkiConnect action params version ep) =
    match data with
    | JNull => Throw (TypeError "Cannot read properties of null (reading 'hasOwnProperty')")
    | _ => Throw (Error "Response is missing required error field")
    end.
Proof.
  intros ep action params version response data Hep Hok Hp Hjson Hshape.
  rewrite invoke_run. cbv zeta. cbn [fst]. unfold settle. rewrite Hep, Hok, Hp.
  cbn [negb]. unfold unwrap.
  destruct data as [| |b|n|s|xs|ps]; try discriminate Hjson; try reflexivity.
  - (* strings: no member is called error or hasOwnProperty *)
    cbn [has_own_property]. cbn [String.eqb Ascii.eqb Bool.eqb orb].
    assert (Hk : forall k,
               (forall i, nat_to_string i <> k) ->
               index_of_key (String.length s) k = None).
    { intros k Hne. unfold index_of_key.
      destruct (find _ _) as [i|] eqn:E; [|reflexivity].
      apply find_some in E as [_ E]. apply String.eqb_eq in E. now destruct (Hne i). }
    rewrite !Hk
      by (intros i; unfold nat_to_string; destruct (Nat.to_uint i); discriminate).
    reflexivity.
  - cbn [has_own_property]. cbn [String.eqb Ascii.eqb Bool.eqb orb].
    assert (Hk : forall k,
               (forall i, nat_to_string i <> k) ->
               index_of_key (List.length xs) k = None).
    { intros k Hne. unfold index_of_key.
      destruct (find _ _) as [i|] eqn:E; [|reflexivity].
      apply find_some in E as [_ E]. apply String.eqb_eq in E. now destruct (Hne i). }
    rewrite !Hk
      by (intros i; unfold nat_to_string; destruct (Nat.to_uint i); discriminate).
    reflexivity.
  - now destruct (Hshape ps).
Qed.

Lemma non_object_reply_refused_witness :
  fst (invokeAnkiConnect "deckNames" JUndefined JUndefined
         (fun _ => Resolved {| status := 200;
                               payload := BodyJson (JArr [JStr "Default"]) |}))
  = Throw (Error "Response is missing required error field").
Proof.
  apply (non_object_reply_refused
           (fun _ => Resolved {| status := 200;
                                 payload := BodyJson (JArr [JStr "Default"]) |})
           "deckNames" JUndefined JUndefined
           {| status := 200; payload := BodyJson (JArr [JStr "Default"]) |}
           (JArr [JStr "Default"]) eq_refl eq_refl eq_refl eq_refl).
  discriminate.
Defined.

(** ** The envelope *)

(** X3. The keys of the envelope are checked in order, before the error is
    looked at: a reply object without the [error] key is refused with the
    message of the error field whether or not it holds a result, and one
    with the [error] key but without the [result] key is refused with the
    message of the result field whatever the error holds, so that a remote
    error sent without a result is masked by it. *)
Theorem envelope_keys_checked_in_order :
  forall (ep : Endpoint) (action : string) (params version : JSValue)
         (response : Response) (ps : list (string * JSValue)),
    ep (request_of action (default_parameter params (JObj []))
                          (default_parameter version (JNum 6))) = Resolved response ->
    ok response = true ->
    payload response = BodyJson (JObj ps) ->
    own_property ps "hasOwnProperty" = None ->
    (own_property ps "error" = None ->
     fst (invokeAnkiConnect action params version ep) =
       Throw (Error "Response is missing required error field")) /\
    (forall error,
        own_property ps "error" = Some error ->
        own_property ps "result" = None ->
        fst (invokeAnkiConnect action params version ep) =
          Throw (Error "Response is missing required result field")).
Proof.
  intros ep action params version response ps Hep Hok Hp Hh.
  rewrite invoke_run. cbv zeta. cbn [fst].
  unfold settle, unwrap, has_own_property. rewrite Hep, Hok, Hp, Hh. cbn [negb].
  split.
  - intros ->. reflexivity.
  - intros error -> ->. reflexivity.
Qed.

Lemma envelope_keys_checked_in_order_witness :
  fst (invokeAnkiConnect "createDeck" (JObj [("deck", JStr "Spanish")]) JUndefined
         (fun _ => Resolved {| status := 200;
                               payload := BodyJson (JObj [("error", JStr "boom")]) |}))
  = Throw (Error "Response is missing required result field").
Proof.
  apply (proj2 (envelope_keys_checked_in_order
                  (fun _ => Resolved {| status := 200;
                                        payload := BodyJson (JObj [("error", JStr "boom")]) |})
                  "createDeck" (JObj [("deck", JStr "Spanish")]) JUndefined
                  {| status := 200; payload := BodyJson (JObj [("error", JStr "boom")]) |}
                  [("error", JStr "boom")] eq_refl eq_refl eq_refl eq_refl)
           (JStr "boom") eq_refl eq_refl).
Defined.

(** X4. The error of a complete envelope is tested for truthiness and thrown
    through [new Error]: a falsy error ([null], [false], [0], the empty
    string) yields the result as it is, [null] included, and a truthy one
    is thrown as an [Error] whose message is its conversion to string,
    [[object Object]] for an object. *)
Theorem envelope_error_by_truthiness :
  forall (ep : Endpoint) (action : string) (params version error result : JSValue),
    replies_with ep error result ->
    (truthy error = false ->
     fst (invokeAnkiConnect action params version ep) = Return result) /\
    (truthy error = true ->
     forall message,
       ToString error = Some message ->
       fst (invokeAnkiConnect action params version ep) = Throw (Error message)) /\
    (forall members,
        error = JObj members ->
        own_property members "toString" = None ->
        fst (invokeAnkiConnect action params version ep) =
          Throw (Error "[object Object]")).
Proof.
  intros ep action params version error result Hep.
  rewrite invoke_run. cbv zeta. cbn [fst].
  rewrite (settle_envelope ep error result _ Hep).
  split; [|split].
  - intros ->. reflexivity.
  - intros -> message ->. reflexivity.
  - intros members -> Hm. cbn [truthy ToString]. now rewrite Hm.
Qed.

Lemma envelope_error_by_truthiness_witness :
  fst (invokeAnkiConnect "deckNames" JUndefined JUndefined
         (fun _ => Resolved {| status := 200;
                               payload := BodyJson (JObj [("error", JNum 0);
                                                          ("result", JNull)]) |}))
  = Return JNull.
Proof.
  apply (proj1 (envelope_error_by_truthiness
                  (fun _ => Resolved {| status := 200;
                                        payload := BodyJson (JObj [("error", JNum 0);
                                                                   ("result", JNull)]) |})
                  "deckNames" JUndefined JUndefined (JNum 0) JNull
                  ltac:(intros request; do 2 eexists; split; [reflexivity|];
                        split; [reflexivity|]; split; [reflexivity|];
                        eexists; repeat split; reflexivity))).
  reflexivity.
Defined.

(** * Further properties of the dispatcher *)

(** ** The action a tool invokes *)

Ltac sent_request H :=
  cbv zeta in H;
  apply (f_equal snd) in H;
  rewrite bind_invoke_sent in H
    by (intros; cbv beta;
        first [ rewrite bind_template_ret | rewrite if_ret | rewrite ret_run ];
        reflexivity);
  cbn [snd] in H.

Ltac prove_calls_action :=
  let H := fresh "H" in let Hsent := fresh "Hsent" in
  intros ? ? ? ? H Hsent;
  unfold_handler H; repeat guard_step H;
  [ try (now destruct Hsent) .. | ];
  try (now destruct Hsent);
  sent_request H; subst;
  eexists; reflexivity.

Lemma handlers_call_action :
  Forall (fun th => calls_action (fst th) (snd th)) registry.
Proof.
  unfold registry, getTools, cases. cbn [combine map snd].
  repeat (apply Forall_cons; [cbn [fst snd]; prove_calls_action |]).
  apply Forall_nil.
Qed.

Ltac prove_unconstrained :=
  let Hreq := fresh "Hreq" in
  intros Hreq; first
    [ discriminate Hreq
    | let H := fresh "H" in
      intros ? ep; cbv beta;
      lazymatch goal with
      | |- snd (?h ?a ep) <> [] => unfold h
      | |- snd (?h ep) <> [] => unfold h
      end;
      cbv zeta;
      rewrite bind_invoke_sent
        by (intros; cbv beta;
            first [ rewrite bind_template_ret | rewrite if_ret | rewrite ret_run ];
            reflexivity);
      discriminate ].

Lemma handlers_unconstrained :
  Forall (fun th => unconstrained (fst th) (snd th)) registry.
Proof.
  unfold registry, getTools, cases. cbn [combine map snd].
  repeat (apply Forall_cons; [cbn [fst snd]; prove_unconstrained |]).
  apply Forall_nil.
Qed.

Ltac prove_asks_plainly :=
  let Hreq := fresh "Hreq" in
  intros Hreq; first
    [ discriminate Hreq
    | let Hk := fresh "Hk" in
      intros ? ep Hk; cbv beta;
      lazymatch goal with
      | |- snd (?h ?a ep) = _ => unfold h
      | |- snd (?h ep) = _ => unfold h
      end;
      rewrite ?Hk; cbn [truthy strict_equal negb]; cbv zeta;
      rewrite bind_invoke_sent
        by (intros; cbv beta;
            first [ rewrite bind_template_ret | rewrite if_ret | rewrite ret_run ];
            reflexivity);
      reflexivity ].

Lemma handlers_ask_plainly :
  Forall (fun th => asks_plainly (fst th) (snd th)) registry.
Proof.
  unfold registry, getTools, cases. cbn [combine map snd].
  repeat (apply Forall_cons; [cbn [fst snd]; prove_asks_plainly |]).
  apply Forall_nil.
Qed.

(** ** Status lines *)



(** ** Requests *)

Lemma registered_property (P : Tool -> (JSValue -> M ToolResult) -> Prop)
    (t : Tool) (h : JSValue -> M ToolResult) :
  Forall (fun th => P (fst th) (snd th)) registry ->
  In (t, h) registry -> P t h.
Proof. intros HF Hin. rewrite Forall_forall in HF. exact (HF (t, h) Hin). Qed.

(** X5. Every call of the dispatcher issues no request or one, and the one is
    the request of the action the tool is named after, at version 6;
    only [getDeckNames] asks for an action of another name,
    [deckNames]. *)
Theorem tool_invokes_its_action :
  forall (toolName : string) (arguments_ : JSValue) (ep : Endpoint),
    snd (handleToolCall toolName arguments_ ep) = [] \/
    exists params,
      snd (handleToolCall toolName arguments_ ep) =
      [request_of (if toolName =? "getDeckNames" then "deckNames" else toolName)
                  params (JNum 6)].
Proof.
  intros toolName arguments_ ep.
  destruct (handleToolCall_cases toolName arguments_) as
    [[t [h [Hreg [Hn Hcall]]]] | [_ Hcall]]; rewrite Hcall; [|now left].
  destruct (h arguments_ ep) as [out sent] eqn:Hrun. cbn [snd].
  destruct sent as [|q sent]; [now left | right].
  destruct (registered_property calls_action t h handlers_call_action Hreg
              arguments_ ep out (q :: sent) Hrun ltac:(discriminate)) as [params Hs].
  exists params. rewrite Hs. unfold action_of. now rewrite Hn.
Qed.

(** An [McpError] is thrown before the exchange. *)
Lemma McpError_before_request (toolName : string) (arguments_ : JSValue)
    (ep : Endpoint) (code : ErrorCode) (msg : string) :
  fst (handleToolCall toolName arguments_ ep) = Throw (McpError code msg) ->
  snd (handleToolCall toolName arguments_ ep) = [].
Proof.
  destruct (handleToolCall_cases toolName arguments_) as
    [[t [h [Hreg [Hn Hcall]]]] | [_ Hcall]]; rewrite Hcall; [|reflexivity].
  destruct (h arguments_ ep) as [out sent] eqn:Hrun. cbn [fst snd].
  destruct (registered_anatomy t h Hreg arguments_ ep out sent Hrun)
    as [[-> _] | [action [params [-> Hout]]]]; [reflexivity|].
  intros ->. exfalso.
  destruct (settle _) as [r|e] eqn:Hs.
  - destruct (raw_text (name t)); [destruct Hout as [[=]|[=]]|].
    destruct (json_rendered (name t)); [discriminate|].
    destruct Hout as [[_ [=]] | [s [=]]].
  - injection Hout as <-. exact (settle_not_McpError _ _ _ Hs).
Qed.

(** X6. A call ends in an [McpError] exactly when it has issued no request:
    the arguments and the name are judged before the exchange, nothing
    the endpoint answers is reported as an [McpError], and no call
    returns a result without asking the endpoint. *)
Theorem no_request_iff_McpError :
  forall (toolName : string) (arguments_ : JSValue) (ep : Endpoint),
    snd (handleToolCall toolName arguments_ ep) = [] <->
    exists code msg,
      fst (handleToolCall toolName arguments_ ep) = Throw (McpError code msg).
Proof.
  intros toolName arguments_ ep. split.
  - destruct (handleToolCall_cases toolName arguments_) as
      [[t [h [Hreg [Hn Hcall]]]] | [_ Hcall]]; rewrite Hcall.
    + destruct (h arguments_ ep) as [out sent] eqn:Hrun. cbn [fst snd].
      destruct (registered_anatomy t h Hreg arguments_ ep out sent Hrun)
        as [[-> [m ->]] | [action [params [-> _]]]]; [|discriminate].
      intros _. now exists InvalidParams, m.
    + intros _. cbn. eauto.
  - intros [code [msg H]]. exact (McpError_before_request _ _ _ _ _ H).
Qed.

(** ** Arguments that are not there *)

(** X7. A tool that requires no field validates nothing: whatever the
    arguments hold, its call reaches the endpoint. *)
Theorem optional_fields_never_reject :
  forall (t : Tool) (arguments_ : JSValue) (ep : Endpoint),
    In t getTools ->
    required_names (inputSchema t) = [] ->
    exists params,
      snd (handleToolCall (name t) arguments_ ep) =
      [request_of (action_of (name t)) params (JNum 6)].
Proof.
  intros t arguments_ ep Hin Hreq.
  destruct (registered_tool t Hin) as [h Hreg].
  rewrite (registry_dispatch t h Hreg).
  pose proof (registered_property unconstrained t h handlers_unconstrained Hreg
                Hreq arguments_ ep) as Hsent.
  destruct (h arguments_ ep) as [out sent] eqn:Hrun. cbn [snd] in *.
  exact (registered_property calls_action t h handlers_call_action Hreg
           arguments_ ep out sent Hrun Hsent).
Qed.

Lemma optional_fields_never_reject_witness :
  exists params,
    snd (handleToolCall "getMediaFilesNames" (JObj [("pattern", JNum 7)])
           (fun _ => Rejected "unreachable")) =
    [request_of "getMediaFilesNames" params (JNum 6)].
Proof.
  apply (optional_fields_never_reject GET_MEDIA_FILES_NAMES_TOOL
           (JObj [("pattern", JNum 7)]) (fun _ => Rejected "unreachable")
           ltac:(in_list) eq_refl).
Defined.

(** X8. Called without arguments, or with a value that holds no field, every
    tool of the catalogue answers in one of two ways and never with a
    TypeError: a tool with required fields refuses the call before any
    exchange, and a tool without asks for its action with empty
    parameters. *)
Theorem absent_arguments :
  forall (t : Tool) (arguments_ : JSValue) (ep : Endpoint),
    In t getTools ->
    (forall k, arguments_.[k] = JUndefined) ->
    match required_names (inputSchema t) with
    | [] =>
        snd (handleToolCall (name t) arguments_ ep) =
        [request_of (action_of (name t)) (JObj []) (JNum 6)]
    | _ :: _ =>
        exists msg,
          handleToolCall (name t) arguments_ ep =
          (Throw (McpError InvalidParams msg), [])
    end.
Proof.
  intros t arguments_ ep Hin Hk.
  destruct (registered_tool t Hin) as [h Hreg].
  rewrite (registry_dispatch t h Hreg).
  destruct (required_names (inputSchema t)) as [|f fs] eqn:Hreq.
  - exact (registered_property asks_plainly t h handlers_ask_plainly Hreg
             Hreq arguments_ ep Hk).
  - destruct (registered_property rejects_omitted t h handlers_reject_omitted Hreg
                arguments_ ep f) as [msg [Hrun _]].
    + rewrite Hreq. now left.
    + apply Hk.
    + now exists msg.
Qed.

Lemma absent_arguments_witness :
  snd (handleToolCall "getDeckNames" JUndefined (fun _ => Rejected "unreachable")) =
  [request_of "deckNames" (JObj []) (JNum 6)].
Proof.
  apply (absent_arguments GET_DECK_NAMES_TOOL JUndefined
           (fun _ => Rejected "unreachable") ltac:(in_list)).
  reflexivity.
Defined.

(** ** Status lines *)



(** ** The boundary *)

(** X10. The boundary issues no request of its own and throws nothing but what
    the dispatcher judged before the exchange: an [InvalidParams] error
    for a tool of the catalogue, a [ToolNotFound] error for any other
    name. Once a request is out, every failure comes back as a result
    flagged [isError] whose text is the message after [Error: ]; so does
    the error a remote envelope carries. *)
Theorem boundary_outcomes :
  forall (toolName : string) (arguments_ : JSValue) (ep : Endpoint),
    snd (callTool toolName arguments_ ep) = snd (handleToolCall toolName arguments_ ep) /\
    (forall e,
        fst (callTool toolName arguments_ ep) = Throw e ->
        snd (callTool toolName arguments_ ep) = [] /\
        exists msg,
          (In toolName registered_names /\ e = McpError InvalidParams msg) \/
          (~ In toolName registered_names /\ e = McpError ToolNotFound msg)) /\
    (forall e,
        fst (handleToolCall toolName arguments_ ep) = Throw e ->
        snd (handleToolCall toolName arguments_ ep) <> [] ->
        fst (callTool toolName arguments_ ep) =
        Return {| content := [ {| type := "text";
                                  text := JStr ("Error: " ++ error_message e) |} ];
                  isError := Some true |}) /\
    (forall X R,
        X <> EmptyString ->
        replies_with ep (JStr X) R ->
        snd (handleToolCall toolName arguments_ ep) <> [] ->
        fst (callTool toolName arguments_ ep) =
        Return {| content := [ {| type := "text"; text := JStr ("Error: " ++ X) |} ];
                  isError := Some true |}).
Proof.
  intros toolName arguments_ ep. rewrite callTool_run.
  assert (Hlate : forall e,
             fst (handleToolCall toolName arguments_ ep) = Throw e ->
             snd (handleToolCall toolName arguments_ ep) <> [] ->
             instanceof_McpError e = false).
  { intros e He Hsent. destruct e as [code msg| | | |]; try reflexivity.
    exfalso. apply Hsent. exact (McpError_before_request _ _ _ _ _ He). }
  assert (Hthird : forall e,
             fst (handleToolCall toolName arguments_ ep) = Throw e ->
             snd (handleToolCall toolName arguments_ ep) <> [] ->
             fst (match handleToolCall toolName arguments_ ep with
                  | (Return res, sent) => (Return res, sent)
                  | (Throw e, sent) =>
                      if instanceof_McpError e then (Throw e, sent)
                      else (Return {| content := [ {| type := "text";
                                                      text := JStr ("Error: " ++ error_message e) |} ];
                                      isError := Some true |}, sent)
                  end) =
             Return {| content := [ {| type := "text";
                                       text := JStr ("Error: " ++ error_message e) |} ];
                       isError := Some true |}).
  { intros e He Hsent. pose proof (Hlate e He Hsent) as Hi.
    destruct (handleToolCall toolName arguments_ ep) as [[res|e'] sent];
      cbn [fst] in He; [discriminate|]. injection He as ->. now rewrite Hi. }
  split; [|split; [|split]].
  - destruct (handleToolCall toolName arguments_ ep) as [[res|e] sent]; [reflexivity|].
    now destruct (instanceof_McpError e).
  - intros e He.
    destruct (handleToolCall_cases toolName arguments_) as
      [[t [h [Hreg [Hn Hcall]]]] | [Hnot Hcall]].
    + assert (Hin : In toolName registered_names).
      { subst toolName. apply in_map. now apply registry_tool in Hreg. }
      destruct (handleToolCall toolName arguments_ ep) as [[res|e'] sent] eqn:Hrun;
        [discriminate|].
      destruct e' as [code msg| | | |]; try discriminate.
      cbn [instanceof_McpError fst snd] in *. injection He as <-.
      pose proof (McpError_before_request toolName arguments_ ep code msg) as Hs.
      rewrite Hrun in Hs. specialize (Hs eq_refl). cbn [snd] in Hs. subst sent.
      split; [reflexivity|]. rewrite Hcall in Hrun.
      destruct (registered_anatomy t h Hreg arguments_ ep _ _ Hrun)
        as [[_ [m [= -> ->]]] | [action [params [[=] _]]]].
      exists m. left. now split.
    + rewrite Hcall in *. cbn in He. injection He as <-. cbn. split; [reflexivity|].
      eexists. right. split; [exact Hnot | reflexivity].
  - exact Hthird.
  - intros X R HX Hep Hsent.
    destruct (handleToolCall toolName arguments_ ep) as [out sent] eqn:Hrun.
    assert (Hout : out = Throw (Error X)).
    { destruct (handleToolCall_cases toolName arguments_) as
        [[t [h [Hreg [Hn Hcall]]]] | [_ Hcall]]; rewrite Hcall in Hrun.
      - destruct (registered_anatomy t h Hreg arguments_ ep out sent Hrun)
          as [[-> _] | [action [params [_ Hout]]]]; [now destruct Hsent|].
        rewrite (settle_envelope ep (JStr X) R _ Hep) in Hout.
        now rewrite truthy_nonempty in Hout.
      - injection Hrun as <- <-. now destruct Hsent. }
    subst out. reflexivity.
Qed.

Lemma boundary_outcomes_witness :
  callTool "createDeck" (JObj [("deck", JStr "Spanish")])
    (fun _ => Resolved {| status := 200;
                          payload := BodyJson (JObj [("result", JNull);
                                                     ("error", JStr "deck was not created")]) |})
  = (Return {| content := [ {| type := "text";
                               text := JStr "Error: deck was not created" |} ];
               isError := Some true |},
     [request_of "createDeck" (JObj [("deck", JStr "Spanish")]) (JNum 6)]).
Proof.
  set (ep := fun _ : HttpRequest =>
               Resolved {| status := 200;
                           payload := BodyJson (JObj [("result", JNull);
                                                      ("error", JStr "deck was not created")]) |}).
  destruct (boundary_outcomes "createDeck" (JObj [("deck", JStr "Spanish")]) ep)
    as [Hsent [_ [_ Hremote]]].
  rewrite (surjective_pairing (callTool _ _ ep)). rewrite Hsent.
  rewrite (Hremote "deck was not created" JNull).
  - reflexivity.
  - discriminate.
  - intros request. do 2 eexists. split; [reflexivity|]. split; [reflexivity|].
    split; [reflexivity|]. eexists. repeat split; reflexivity.
  - discriminate.
Defined.

(** * Handlers with checks of their own *)

(** ** The ease of an answer *)

(** X11. [guiAnswerCard] accepts an integral ease from 1 to 4 and forwards it;
    any other number, 0 and the negative ones included, is refused
    before any exchange. *)
Theorem answer_ease_range :
  forall (arguments_ : JSValue) (n : Z) (ep : Endpoint),
    arguments_.["ease"] = JNum n ->
    ((1 <= n <= 4)%Z ->
     snd (handleToolCall "guiAnswerCard" arguments_ ep) =
     [request_of "guiAnswerCard" (JObj [("ease", JNum n)]) (JNum 6)]) /\
    ((n < 1 \/ 4 < n)%Z ->
     handleToolCall "guiAnswerCard" arguments_ ep =
     (Throw (McpError InvalidParams
               "Missing or invalid required parameter: ease (1-4)"), [])).
Proof.
  intros arguments_ n ep He.
  change (handleToolCall "guiAnswerCard" arguments_)
    with (handleGuiAnswerCard arguments_).
  unfold handleGuiAnswerCard. rewrite !He.
  cbn [truthy typeof String.eqb Ascii.eqb Bool.eqb negb orb less_than greater_than].
  split.
  - intros [Hlo Hhi].
    replace (n =? 0)%Z with false by (symmetry; apply Z.eqb_neq; lia).
    replace (n <? 1)%Z with false by (symmetry; apply Z.ltb_ge; lia).
    replace (4 <? n)%Z with false by (symmetry; apply Z.ltb_ge; lia).
    cbn [negb orb]. rewrite bind_invoke_sent; [reflexivity|].
    intros r. rewrite bind_template_ret. reflexivity.
  - intros Hout.
    replace (negb (negb (n =? 0)%Z) || false || (n <? 1)%Z || (4 <? n)%Z) with true;
      [reflexivity|].
    symmetry. destruct Hout as [Hlo|Hhi].
    + replace (n <? 1)%Z with true by (symmetry; apply Z.ltb_lt; lia).
      now rewrite orb_true_r.
    + replace (4 <? n)%Z with true by (symmetry; apply Z.ltb_lt; lia).
      now rewrite orb_true_r.
Qed.

Lemma answer_ease_range_witness :
  handleToolCall "guiAnswerCard" (JObj [("ease", JNum 5)])
    (fun _ => Rejected "unreachable") =
  (Throw (McpError InvalidParams
            "Missing or invalid required parameter: ease (1-4)"), []).
Proof.
  apply (proj2 (answer_ease_range (JObj [("ease", JNum 5)]) 5
                  (fun _ => Rejected "unreachable") eq_refl)).
  right. lia.
Defined.

(** ** The tuples of a review *)

Lemma tuple_test (x : JSValue) :
  negb (Array_isArray x) || negb (strict_equal x.["length"] (JNum 9)) = false <->
  exists ys, x = JArr ys /\ List.length ys = 9%nat.
Proof.
  split.
  - intros H. apply orb_false_iff in H as [Ha Hl].
    destruct x; try discriminate Ha. exists elements. split; [reflexivity|].
    apply negb_false_iff in Hl. cbn in Hl. apply Z.eqb_eq in Hl. lia.
  - intros [ys [-> Hl]]. cbn. rewrite Hl. reflexivity.
Qed.

(** X12. [insertReviews] walks through the reviews before it asks: when each
    of them is an array of 9 values, as in the empty array, the whole
    array is forwarded; one that is no array or has another length stops
    the call before any exchange. *)
Theorem insert_reviews_tuples :
  forall (arguments_ : JSValue) (reviews : list JSValue) (ep : Endpoint),
    arguments_.["reviews"] = JArr reviews ->
    ((forall review, In review reviews ->
                     exists values, review = JArr values /\ List.length values = 9%nat) ->
     snd (handleToolCall "insertReviews" arguments_ ep) =
     [request_of "insertReviews" (JObj [("reviews", JArr reviews)]) (JNum 6)]) /\
    ((exists review, In review reviews /\
                     forall values, review = JArr values -> List.length values <> 9%nat) ->
     handleToolCall "insertReviews" arguments_ ep =
     (Throw (McpError InvalidParams "Each review must be a tuple with 9 values"), [])).
Proof.
  intros arguments_ reviews ep Hr.
  change (handleToolCall "insertReviews" arguments_)
    with (handleInsertReviews arguments_).
  unfold handleInsertReviews. rewrite !Hr. cbn [truthy Array_isArray negb orb].
  rewrite bind_for_of_guard by reflexivity.
  split.
  - intros Hall.
    replace (existsb _ reviews) with false.
    + rewrite bind_invoke_sent; [reflexivity|].
      intros r. rewrite bind_template_ret. reflexivity.
    + symmetry. apply not_true_is_false. intros H.
      apply existsb_exists in H as [x [Hin Hx]].
      cbv beta in Hx. rewrite (proj2 (tuple_test x) (Hall x Hin)) in Hx.
      discriminate Hx.
  - intros [x [Hin Hx]].
    replace (existsb _ reviews) with true; [reflexivity|].
    symmetry. apply existsb_exists. exists x. split; [exact Hin|].
    apply not_false_is_true. intros H. apply tuple_test in H as [ys [-> Hl]].
    exact (Hx ys eq_refl Hl).
Qed.

Lemma insert_reviews_tuples_witness :
  handleToolCall "insertReviews"
    (JObj [("reviews", JArr [JArr [JNum 1; JNum 2; JNum 3]])])
    (fun _ => Rejected "unreachable") =
  (Throw (McpError InvalidParams "Each review must be a tuple with 9 values"), []).
Proof.
  apply (proj2 (insert_reviews_tuples
                  (JObj [("reviews", JArr [JArr [JNum 1; JNum 2; JNum 3]])])
                  [JArr [JNum 1; JNum 2; JNum 3]]
                  (fun _ => Rejected "unreachable") eq_refl)).
  exists (JArr [JNum 1; JNum 2; JNum 3]). split; [now left|].
  intros values [= <-]. discriminate.
Defined.

(** ** A media file that is not there *)

(** X13. [retrieveMediaFile] reads exactly the result [false] as a file that
    was not found; every other result, [null], [0] and the empty string
    included, is handed through as the text. *)
Theorem retrieve_media_file_text :
  forall (arguments_ : JSValue) (filename : string) (ep : Endpoint) (R : JSValue),
    arguments_.["filename"] = JStr filename ->
    filename <> EmptyString ->
    replies_with ep JNull R ->
    fst (handleToolCall "retrieveMediaFile" arguments_ ep) =
    Return (text_result match R with
                        | JBool false => JStr "File not found"
                        | _ => R
                        end).
Proof.
  intros arguments_ filename ep R Hf Hne Hep.
  change (handleToolCall "retrieveMediaFile" arguments_)
    with (handleRetrieveMediaFile arguments_).
  unfold handleRetrieveMediaFile. rewrite !Hf.
  cbn [typeof String.eqb Ascii.eqb Bool.eqb negb orb].
  rewrite (truthy_nonempty filename Hne). cbn [negb orb].
  rewrite bind_invoke. rewrite (settle_envelope ep JNull R _ Hep).
  cbn [truthy fst]. destruct R as [| |[|]| | | |]; reflexivity.
Qed.

Lemma retrieve_media_file_text_witness :
  fst (handleToolCall "retrieveMediaFile" (JObj [("filename", JStr "cat.png")])
         (fun _ => Resolved {| status := 200;
                               payload := BodyJson (JObj [("error", JNull);
                                                          ("result", JBool false)]) |}))
  = Return (text_result (JStr "File not found")).
Proof.
  apply (retrieve_media_file_text (JObj [("filename", JStr "cat.png")]) "cat.png"
           (fun _ => Resolved {| status := 200;
                                 payload := BodyJson (JObj [("error", JNull);
                                                            ("result", JBool false)]) |})
           (JBool false) eq_refl ltac:(discriminate)).
  intros request. do 2 eexists. split; [reflexivity|]. split; [reflexivity|].
  split; [reflexivity|]. eexists. repeat split; reflexivity.
Defined.

(** ** Numbers that may be zero *)

Ltac accept_number t f :=
  let Hothers := fresh "Hothers" in
  let Hf := fresh "Hf" in let a := fresh "a" in
  intros a ? ep Hothers Hf;
  let fields := eval cbv in (required_names (inputSchema t)) in
  other_facts t a Hothers fields; all_facts;
  lazymatch goal with
  | |- exists ps, snd (handleToolCall ?n a ep) = _ /\ _ =>
      let h := eval cbv beta iota delta [handleToolCall switch_case cases
                  String.eqb Ascii.eqb Bool.eqb name t] in (handleToolCall n a) in
      change (handleToolCall n a) with h
  end;
  let Hrun := fresh "Hrun" in
  let sent := fresh "sent" in
  lazymatch goal with
  | |- exists ps, snd ?run = _ /\ _ => destruct run as [? sent] eqn:Hrun
  end;
  unfold_handler Hrun;
  repeat (guard_step Hrun;
          [ exfalso;
            rewrite ?Hf in *;
            match goal with
            | G : _ || _ = true |- _ => refute_guard G
            | G : negb _ = true |- _ => refute_guard G
            end | ]);
  sent_request Hrun; subst sent; rewrite ?Hf;
  eexists; split; [reflexivity | reflexivity].

(** X14. Four required numbers are tested against [undefined] and for their
    type, not for truthiness: [index] of [modelFieldReposition] and of
    [modelTemplateReposition], [fontSize] of [modelFieldSetFontSize] and
    [configId] of [setDeckConfigId]. With the other required fields
    provided, any number given for them, 0 included, is accepted and
    forwarded. *)
Theorem zero_is_a_number :
  forall (t : Tool) (f : string),
    In (t, f) defined_guarded ->
    forall (arguments_ : JSValue) (n : Z) (ep : Endpoint),
      (forall g, In g (required_names (inputSchema t)) -> g <> f ->
                 field_provided (inputSchema t) arguments_ g = true) ->
      arguments_.[f] = JNum n ->
      exists ps,
        snd (handleToolCall (name t) arguments_ ep) =
          [request_of (name t) (JObj ps) (JNum 6)] /\
        own_property ps f = Some (JNum n).
Proof.
  intros t f Hin.
  destruct Hin as [[= <- <-] | [[= <- <-] | [[= <- <-] | [[= <- <-] | []]]]].
  - accept_number MODEL_FIELD_REPOSITION_TOOL "index".
  - accept_number MODEL_FIELD_SET_FONT_SIZE_TOOL "fontSize".
  - accept_number MODEL_TEMPLATE_REPOSITION_TOOL "index".
  - accept_number SET_DECK_CONFIG_ID_TOOL "configId".
Qed.

Lemma zero_is_a_number_witness :
  exists ps,
    snd (handleToolCall "setDeckConfigId"
           (JObj [("decks", JArr [JStr "Default"]); ("configId", JNum 0)])
           (fun _ => Rejected "unreachable")) =
      [request_of "setDeckConfigId" (JObj ps) (JNum 6)] /\
    own_property ps "configId" = Some (JNum 0).
Proof.
  apply (zero_is_a_number SET_DECK_CONFIG_ID_TOOL "configId" ltac:(in_list)
           (JObj [("decks", JArr [JStr "Default"]); ("configId", JNum 0)]) 0
           (fun _ => Rejected "unreachable")).
  - intros g [<-|[<-|[]]] Hne; [reflexivity | now destruct Hne].
  - reflexivity.
Defined.

(** * The standalone server *)

Lemma legacy_invoke_run (action : string) (params version : JSValue) (ep : Endpoint) :
  Legacy.invokeAnkiConnect action params version ep =
  (settle (ep (legacy_request_of action (default_parameter params (JObj []))
                                 (default_parameter version (JNum 6)))),
   [legacy_request_of action (default_parameter params (JObj []))
                      (default_parameter version (JNum 6))]).
Proof.
  unfold Legacy.invokeAnkiConnect, try_catch, fetch, Legacy.ANKI_CONNECT_URL.
  fold (legacy_request_of action (default_parameter params (JObj []))
                          (default_parameter version (JNum 6))).
  unfold settle, unwrap, response_json, call_hasOwnProperty, new_Error.
  cbv beta iota delta [bind ret throw].
  destruct (ep _) as [reason|response]; [reflexivity|].
  destruct (ok response); cbv beta iota delta [negb]; [|reflexivity].
  destruct (payload response) as [data|reason]; [|reflexivity].
  destruct data; try reflexivity.
  all: destruct (has_own_property _ "hasOwnProperty"); [reflexivity|].
  all: destruct (has_own_property _ "error"); cbv beta iota delta [negb]; [|reflexivity].
  all: destruct (has_own_property _ "result"); cbv beta iota delta [negb]; [|reflexivity].
  all: match goal with |- context [truthy ?v] => destruct (truthy v) end; [|reflexivity].
  all: match goal with |- context [ToString ?v] => destruct (ToString v) end; reflexivity.
Qed.

Lemma legacy_bind_invoke {B : Type} (action : string) (params : JSValue)
    (k : JSValue -> M B) (ep : Endpoint) :
  bind (Legacy.invokeAnkiConnect action params JUndefined) k ep =
  match settle (ep (legacy_request_of action (default_parameter params (JObj []))
                                      (JNum 6))) with
  | Return r =>
      (fst (k r ep),
       legacy_request_of action (default_parameter params (JObj [])) (JNum 6)
         :: snd (k r ep))
  | Throw e =>
      (Throw e, [legacy_request_of action (default_parameter params (JObj [])) (JNum 6)])
  end.
Proof.
  unfold bind. rewrite legacy_invoke_run.
  change (default_parameter JUndefined (JNum 6)) with (JNum 6).
  destruct (settle _); [|reflexivity].
  now destruct (k a ep).
Qed.

(** X15. The standalone server and the current one. Every descriptor the
    standalone server lists is a descriptor of the current catalogue. On
    the two tools it knows, and against endpoints that answer alike, its
    boundary ends as the current boundary does, after the same number of
    requests, each with the keys of the body in its own order. Every other
    name, the names of the other tools of the current catalogue included,
    ends in the [ToolNotFound] error, which its [catch] lets through. *)
Theorem standalone_server_agrees :
  (forall ep,
      exists tools,
        Legacy.listTools ep = (Return tools, []) /\
        map name tools = ["getDeckNames"; "createDeck"] /\
        forall t, In t tools -> In t getTools) /\
  (forall toolName arguments_ legacy current,
      answer_alike legacy current ->
      toolName = "getDeckNames" \/ toolName = "createDeck" ->
      fst (Legacy.callTool toolName arguments_ legacy) =
        fst (callTool toolName arguments_ current) /\
      ((snd (callTool toolName arguments_ current) = [] /\
        snd (Legacy.callTool toolName arguments_ legacy) = []) \/
       exists action params,
         snd (callTool toolName arguments_ current) =
           [request_of action params (JNum 6)] /\
         snd (Legacy.callTool toolName arguments_ legacy) =
           [legacy_request_of action params (JNum 6)])) /\
  (forall toolName arguments_ ep,
      toolName <> "getDeckNames" ->
      toolName <> "createDeck" ->
      Legacy.callTool toolName arguments_ ep =
      (Throw (McpError ToolNotFound ("Tool not found: " ++ toolName)), [])).
Proof.
  split; [|split].
  - intros ep. eexists. split; [reflexivity|]. split; [reflexivity|].
    intros t [<-|[<-|[]]]; in_list.
  - intros toolName arguments_ legacy current Halike Hname.
    rewrite callTool_run.
    destruct Hname as [-> | ->].
    + change (handleToolCall "getDeckNames" arguments_) with handleGetDeckNames.
      unfold Legacy.callTool, handleGetDeckNames, try_catch.
      cbn [String.eqb Ascii.eqb Bool.eqb].
      rewrite legacy_bind_invoke, bind_invoke. cbn [default_parameter].
      rewrite Halike.
      destruct (settle (current _)) as [r|e] eqn:Hs; cbn [fst snd ret].
      * split; [reflexivity|]. right. now do 2 eexists.
      * assert (Hi : instanceof_McpError e = false).
        { destruct e; try reflexivity. now destruct (settle_not_McpError _ _ _ Hs). }
        rewrite Hi. rewrite bind_template.
        cbn [template_string ToString ret fst snd]. rewrite append_empty.
        split; [reflexivity|]. right. now do 2 eexists.
    + change (handleToolCall "createDeck" arguments_)
        with (handleCreateDeck arguments_).
      unfold Legacy.callTool, handleCreateDeck, try_catch.
      cbn [String.eqb Ascii.eqb Bool.eqb].
      destruct (negb (truthy arguments_?.["deck"])).
      * cbn. split; [reflexivity|]. now left.
      * cbv zeta. rewrite legacy_bind_invoke, bind_invoke. cbn [default_parameter].
        rewrite Halike.
        destruct (settle (current _)) as [r|e] eqn:Hs; cbn [fst snd ret].
        -- rewrite !bind_template.
           destruct (template_string _); cbn [fst snd ret throw].
           ++ split; [reflexivity|]. right. now do 2 eexists.
           ++ cbn [instanceof_McpError error_message]. rewrite bind_template.
              cbn [template_string ToString ret fst snd].
              split; [reflexivity|]. right. now do 2 eexists.
        -- assert (Hi : instanceof_McpError e = false).
           { destruct e; try reflexivity. now destruct (settle_not_McpError _ _ _ Hs). }
           rewrite Hi. rewrite bind_template.
           cbn [template_string ToString ret fst snd]. rewrite append_empty.
           split; [reflexivity|]. right. now do 2 eexists.
  - intros toolName arguments_ ep H1 H2.
    unfold Legacy.callTool, try_catch.
    apply String.eqb_neq in H1, H2. rewrite H1, H2.
    rewrite bind_template. cbn. now rewrite append_empty.
Qed.

Lemma standalone_server_agrees_witness :
  Legacy.callTool "suspend" (JObj [("cards", JArr [JNum 12345])])
    (fun _ => Rejected "unreachable") =
  (Throw (McpError ToolNotFound "Tool not found: suspend"), []).
Proof.
  apply (proj2 (proj2 standalone_server_agrees)); discriminate.
Defined.

(** * Types and members of the required fields *)

Ltac mistyped_step Hm :=
  lazymatch goal with
  | |- exists msg, (if ?c then throw ?e else _) ?ep = _ =>
      let G := fresh "G" in
      destruct c eqn:G;
      [ eexists; reflexivity
      | try (exfalso; split_guards;
             repeat match goal with
                    | G : negb _ = false |- _ => apply negb_false_iff in G
                    end;
             apply negb_true_iff in Hm; congruence) ]
  end.

Ltac unfold_goal_handler :=
  cbv beta;
  lazymatch goal with
  | |- exists msg, ?h ?x ?ep = _ => unfold h
  | |- exists msg, ?h ?ep = _ => unfold h
  end.

Ltac prove_checks_types :=
  let Hin := fresh "Hin" in let Hs := fresh "Hs" in
  let Hu := fresh "Hu" in let Hm := fresh "Hm" in
  intros ? ? ? ? Hin Hs Hu Hm; cbv in Hin;
  repeat (destruct Hin as [<-|Hin];
          [ first [ discriminate Hu
                  | cbv in Hs; injection Hs as <-; cbn [mistyped] in Hm;
                    unfold_goal_handler; repeat mistyped_step Hm ] |]);
  destruct Hin.

Lemma handlers_check_types :
  Forall (fun th => checks_types (fst th) (snd th)) registry.
Proof.
  unfold registry, getTools, cases. cbn [combine map snd].
  repeat (apply Forall_cons; [cbn [fst snd]; prove_checks_types |]).
  apply Forall_nil.
Qed.

Ltac member_step Hm :=
  lazymatch goal with
  | |- exists msg, (if ?c then throw ?e else _) ?ep = _ =>
      let G := fresh "G" in
      destruct c eqn:G;
      [ eexists; reflexivity
      | try (exfalso; rewrite ?Hm in G; split_guards;
             match goal with
             | G : _ = false |- _ => now cbn in G
             end) ]
  end.

Ltac prove_checks_members :=
  let Hin := fresh "Hin" in let Hn := fresh "Hn" in let Hm := fresh "Hm" in
  intros ? ? ? ? Hin Hn Hm; cbv in Hin;
  repeat (destruct Hin as [[= <- <-]|Hin];
          [ first [ now destruct Hn
                  | unfold_goal_handler; repeat member_step Hm ] |]);
  destruct Hin.

Lemma handlers_check_members :
  Forall (fun th => checks_members (fst th) (snd th)) registry.
Proof.
  unfold registry, getTools, cases. cbn [combine map snd].
  repeat (apply Forall_cons; [cbn [fst snd]; prove_checks_members |]).
  apply Forall_nil.
Qed.

(** X16. A required field whose value is not of the declared type is refused
    before any exchange, for every tool and field of the catalogue but
    two: [deck] of [createDeck] and [days] of [setDueDate] are tested for
    truthiness only, and forwarded whatever their type. *)
Theorem required_types_checked :
  (forall (t : Tool) (arguments_ : JSValue) (ep : Endpoint) (f : string) (sk : Schema),
      In t getTools ->
      In f (required_names (inputSchema t)) ->
      field_schema (inputSchema t) f = Some sk ->
      type_unchecked (name t) f = false ->
      mistyped sk arguments_.[f] = true ->
      exists msg,
        handleToolCall (name t) arguments_ ep =
        (Throw (McpError InvalidParams msg), [])) /\
  (forall (arguments_ : JSValue) (ep : Endpoint),
      truthy arguments_.["deck"] = true ->
      snd (handleToolCall "createDeck" arguments_ ep) =
      [request_of "createDeck" (JObj [("deck", arguments_.["deck"])]) (JNum 6)]) /\
  (forall (arguments_ : JSValue) (ep : Endpoint),
      Array_isArray arguments_.["cards"] = true ->
      truthy arguments_.["days"] = true ->
      snd (handleToolCall "setDueDate" arguments_ ep) =
      [request_of "setDueDate"
         (JObj [("cards", arguments_.["cards"]); ("days", arguments_.["days"])])
         (JNum 6)]).
Proof.
  split; [|split].
  - intros t arguments_ ep f sk Hin Hf Hs Hu Hm.
    destruct (registered_tool t Hin) as [h Hreg].
    rewrite (registry_dispatch t h Hreg).
    exact (registered_property checks_types t h handlers_check_types Hreg
             arguments_ ep f sk Hf Hs Hu Hm).
  - intros arguments_ ep Hd.
    change (handleToolCall "createDeck" arguments_) with (handleCreateDeck arguments_).
    unfold handleCreateDeck. rewrite Hd. cbn [negb]. cbv zeta.
    rewrite bind_invoke_sent; [reflexivity|].
    intros r. rewrite bind_template_ret. reflexivity.
  - intros arguments_ ep Hc Hd.
    change (handleToolCall "setDueDate" arguments_) with (handleSetDueDate arguments_).
    unfold handleSetDueDate. rewrite Hc, Hd.
    destruct arguments_.["cards"] eqn:E; try discriminate Hc.
    cbn [truthy negb orb].
    rewrite bind_invoke_sent; [reflexivity|].
    intros r. rewrite bind_template_ret. reflexivity.
Qed.

Lemma required_types_checked_witness :
  exists msg,
    handleToolCall "suspend" (JObj [("cards", JStr "12345")])
      (fun _ => Rejected "unreachable") =
    (Throw (McpError InvalidParams msg), []).
Proof.
  apply (proj1 required_types_checked SUSPEND_TOOL (JObj [("cards", JStr "12345")])
           (fun _ => Rejected "unreachable") "cards" (SArray SNumber None None)
           ltac:(in_list) ltac:(in_list) eq_refl eq_refl eq_refl).
Defined.

(** X17. The members an object field requires are looked at as the field
    itself is: a call in which one of them is missing is refused before
    any exchange. The one exception is the [template] of
    [modelTemplateAdd], which is forwarded as long as it is an object,
    an empty one included. *)
Theorem required_members_checked :
  (forall (t : Tool) (arguments_ : JSValue) (ep : Endpoint) (f g : string),
      In t getTools ->
      In (f, g) (required_members (inputSchema t)) ->
      name t <> "modelTemplateAdd" ->
      arguments_.[f].[g] = JUndefined ->
      exists msg,
        handleToolCall (name t) arguments_ ep =
        (Throw (McpError InvalidParams msg), [])) /\
  (forall (arguments_ : JSValue) (ep : Endpoint) (modelName : string)
          (members : list (string * JSValue)),
      arguments_.["modelName"] = JStr modelName ->
      modelName <> EmptyString ->
      arguments_.["template"] = JObj members ->
      snd (handleToolCall "modelTemplateAdd" arguments_ ep) =
      [request_of "modelTemplateAdd"
         (JObj [("modelName", JStr modelName); ("template", JObj members)])
         (JNum 6)]).
Proof.
  split.
  - intros t arguments_ ep f g Hin Hfg Hn Hm.
    destruct (registered_tool t Hin) as [h Hreg].
    rewrite (registry_dispatch t h Hreg).
    exact (registered_property checks_members t h handlers_check_members Hreg
             arguments_ ep f g Hfg Hn Hm).
  - intros arguments_ ep modelName members Hm Hne Ht.
    change (handleToolCall "modelTemplateAdd" arguments_)
      with (handleModelTemplateAdd arguments_).
    unfold handleModelTemplateAdd. rewrite !Hm, !Ht.
    rewrite (truthy_nonempty modelName Hne).
    cbn [truthy typeof String.eqb Ascii.eqb Bool.eqb negb orb].
    rewrite bind_invoke_sent; [reflexivity|].
    intros r. rewrite bind_template_ret. reflexivity.
Qed.

Lemma required_members_checked_witness :
  exists msg,
    handleToolCall "addNote"
      (JObj [("note", JObj [("deckName", JStr "Default");
                            ("fields", JObj [("Front", JStr "bonjour")])])])
      (fun _ => Rejected "unreachable") =
    (Throw (McpError InvalidParams msg), []).
Proof.
  apply (proj1 required_members_checked ADD_NOTE_TOOL
           (JObj [("note", JObj [("deckName", JStr "Default");
                                 ("fields", JObj [("Front", JStr "bonjour")])])])
           (fun _ => Rejected "unreachable") "note" "modelName"
           ltac:(in_list) ltac:(in_list) ltac:(discriminate) eq_refl).
Defined.

(** * Results quoted in the text *)

(** The literal in front of [s] in a text that ends with [s]. *)
Ltac prefix_of text s :=
  lazymatch text with
  | s => constr:(EmptyString)
  | String ?c ?rest => let p := prefix_of rest s in constr:(String c p)
  end.

Ltac prove_interpolates :=
  let Hs := fresh "Hs" in
  intros Hs; first
    [ discriminate Hs
    | clear Hs; eexists;
      let H := fresh "H" in let s := fresh "s" in
      intros ? ? ? ? r H ?;
      unfold_handler H; repeat guard_step H;
      render_of H r; cbn [template_string];
      destruct (ToString r) as [s|]; [rewrite append_empty|];
      [ lazymatch goal with
        | |- Return {| content := [ {| type := _; text := JStr ?text |} ];
                       isError := _ |} =
             Return (text_result (JStr (?e ++ s))) =>
            let p := prefix_of text s in unify e p
        end; reflexivity
      | reflexivity ] ].

Lemma handlers_interpolate :
  Forall (fun c => interpolates (fst c) (snd c)) cases.
Proof.
  unfold cases.
  repeat (apply Forall_cons; [cbn [fst snd]; prove_interpolates |]).
  apply Forall_nil.
Qed.

(** X18. The eight tools that quote the result write a fixed prefix and
    then the result converted to a string, whatever its type: [null]
    reads [null], [false] reads [false], an array its elements joined by
    commas, an object [[object Object]]; the one result that cannot be
    converted, an object with a [toString] member of its own, makes the
    call fail with a TypeError. *)
Theorem result_interpolated :
  forall (t : Tool),
    In t getTools ->
    interpolated (name t) = true ->
    exists prefix,
      forall arguments_ ep R,
        replies_with ep JNull R ->
        snd (handleToolCall (name t) arguments_ ep) <> [] ->
        fst (handleToolCall (name t) arguments_ ep) =
        match ToString R with
        | Some s => Return (text_result (JStr (prefix ++ s)))
        | None => Throw (TypeError "Cannot convert object to primitive value")
        end.
Proof.
  intros t Hin Hi.
  destruct (registered_tool t Hin) as [h Hreg].
  pose proof handlers_interpolate as HF. rewrite Forall_forall in HF.
  destruct (HF (name t, h) (registry_cases t h Hreg) Hi) as [prefix Hline].
  exists prefix.
  intros arguments_ ep R Hep. rewrite (registry_dispatch t h Hreg).
  destruct (h arguments_ ep) as [out sent] eqn:Hrun. cbn [fst snd]. intros Hsent.
  destruct (registered_anatomy t h Hreg arguments_ ep out sent Hrun)
    as [[-> _] | [action [params [-> _]]]]; [contradiction|].
  apply (Hline arguments_ ep out _ R Hrun).
  now rewrite (settle_envelope ep JNull R _ Hep).
Qed.

Lemma result_interpolated_witness :
  exists prefix,
    forall arguments_ ep R,
      replies_with ep JNull R ->
      snd (handleToolCall "suspended" arguments_ ep) <> [] ->
      fst (handleToolCall "suspended" arguments_ ep) =
      match ToString R with
      | Some s => Return (text_result (JStr (prefix ++ s)))
      | None => Throw (TypeError "Cannot convert object to primitive value")
      end.
Proof.
  apply (result_interpolated SUSPENDED_TOOL ltac:(in_list)).
  reflexivity.
Defined.
